(** * reddit_news.py: fetch, score, serialise and upload headlines

    A shallow embedding of [RedditSentimentAnalyzer] (src/reddit_news.py)
    and the properties its specification states about it.

    Modelling conventions.
    - A Python [str] is a [string]: a sequence of characters, here the code
      points below 256.
    - A Python [float] is an IEEE-754 binary64 value, [float] below: a
      finite value [m * 2^e], an infinity or NaN.
    - pandas' DataFrame is a list of column labels and a list of rows of
      dynamically typed cells; DataFrames live in a heap because
      [_save_locally] assigns to a column of the caller's object.
    - The file system, the object store, the console and the heap make up
      the [world]; methods are computations in a state-and-exception monad
      over it.  What the outside world answers (errors of the steps of the
      constructor, the Reddit listing, errors of the file system or of the
      storage SDK) is an explicit argument.
    - [str] of a float and VADER's [polarity_scores] are library code: they
      are the fields of the classes [PyRuntime] and [Analyzer]. *)

From Stdlib Require Import ZArith QArith Lia Ascii String.
From stdpp Require Import base option list strings gmap sets pretty.

Local Open Scope string_scope.
Local Open Scope Z_scope.

(* [simpl] may unfold [+:+] on a string whose first character is known. *)
#[local] Arguments String.append !_ _ / : assert.

(** ** Characters and string methods of Python used by the script *)

Module PyStr.

(** The double quote character (code 34), line feed, carriage return. *)
Definition dquote : ascii := ascii_of_nat 34.
Definition LF : ascii := "010"%char.
Definition CR : ascii := "013"%char.
Definition DQ : string := String dquote "".
Definition NL : string := String LF "".
Definition CRLF : string := String CR (String LF "").

(** [s.startswith(p)] *)
Fixpoint startswith (p s : string) : bool :=
  match p, s with
  | "", _ => true
  | String a p', String b s' => if Ascii.eqb a b then startswith p' s' else false
  | String _ _, "" => false
  end.

(** [s.count(sub)] for a non-empty [sub]: the number of non-overlapping
    occurrences, found from left to right.  [skip] is the number of
    characters of the current occurrence still to step over. *)
Fixpoint count_from (sub : string) (skip : nat) (s : string) : nat :=
  match s with
  | "" => O
  | String _ s' =>
      match skip with
      | S k => count_from sub k s'
      | O => if startswith sub s
             then S (count_from sub (String.length sub - 1) s')
             else count_from sub O s'
      end
  end.

Definition count (s sub : string) : nat := count_from sub O s.

(** [s.replace(old, new)] for a non-empty [old]. *)
Fixpoint replace_from (old new : string) (skip : nat) (s : string) : string :=
  match s with
  | "" => ""
  | String c s' =>
      match skip with
      | S k => replace_from old new k s'
      | O => if startswith old s
             then new +:+ replace_from old new (String.length old - 1) s'
             else String c (replace_from old new O s')
      end
  end.

Definition replace (s old new : string) : string := replace_from old new O s.

(** What [replace] does for an [old] of one character [c]. *)
Fixpoint subst_char (c : ascii) (new : string) (s : string) : string :=
  match s with
  | "" => ""
  | String a s' =>
      if Ascii.eqb c a then new +:+ subst_char c new s'
      else String a (subst_char c new s')
  end.

(** [str.isspace] on one character: the ASCII whitespace table of CPython
    (TAB, LF, VT, FF, CR, FS, GS, RS, US, space) and, above it, NEL
    (0x85) and the no-break space (0xA0). *)
Definition isspace (c : ascii) : bool :=
  let n := N_of_ascii c in
  ((9 <=? n) && (n <=? 13) || (28 <=? n) && (n <=? 32)
   || (n =? 133) || (n =? 160))%N.

Fixpoint lstrip (s : string) : string :=
  match s with
  | "" => ""
  | String c s' => if isspace c then lstrip s' else s
  end.

Fixpoint rstrip (s : string) : string :=
  match s with
  | "" => ""
  | String c s' =>
      match rstrip s' with
      | "" => if isspace c then "" else String c ""
      | r => String c r
      end
  end.

(** [s.strip()] *)
Definition strip (s : string) : string := rstrip (lstrip s).

(** Occurrences of one character. *)
Fixpoint occ (c : ascii) (s : string) : nat :=
  match s with
  | "" => O
  | String a s' => ((if Ascii.eqb a c then 1 else 0) + occ c s')%nat
  end.

End PyStr.

(** ** Floats *)

Module PyFloat.

(** A binary64 value.  [Finite m e] is [m * 2^e]. *)
Inductive float : Type :=
| Finite (m e : Z)
| PosInf
| NegInf
| NaN.

Definition emin : Z := -1074.
Definition emax : Z := 971.

(** The finite values of the format: 53 bits of significand. *)
Definition is_binary64 (x : float) : bool :=
  match x with
  | Finite m e => (Z.abs m <? 2 ^ 53) && (emin <=? e) && (e <=? emax)
  | _ => true
  end.

Definition is_finite (x : float) : bool :=
  match x with Finite _ _ => true | _ => false end.

Definition isnan (x : float) : bool :=
  match x with NaN => true | _ => false end.

(** The value of a finite float in units of [2^emin]. *)
Definition scaled (m e : Z) : Z := m * 2 ^ (e - emin).

(** The real value of a finite float, as a rational. *)
Definition to_Q (x : float) : Q :=
  match x with
  | Finite m e => Qmake (scaled m e) (2 ^ 1074)%positive
  | _ => 0%Q
  end.

(** [x <= y] of Python: false as soon as one side is NaN. *)
Definition float_le (x y : float) : bool :=
  match x, y with
  | NaN, _ | _, NaN => false
  | NegInf, _ => true
  | _, PosInf => true
  | PosInf, _ => false
  | _, NegInf => false
  | Finite m1 e1, Finite m2 e2 => scaled m1 e1 <=? scaled m2 e2
  end.

Definition float_ge (x y : float) : bool := float_le y x.

Definition float_neg (x : float) : float :=
  match x with
  | Finite m e => Finite (- m) e
  | PosInf => NegInf
  | NegInf => PosInf
  | NaN => NaN
  end.

(** The literal [0.2]: the binary64 value nearest to 1/5, which is
    [7205759403792794 * 2^-55] (0x3FC999999999999A). *)
Definition lit_0_2 : float := Finite 7205759403792794 (-55).

End PyFloat.

Export PyStr PyFloat.

(** ** The categorization rule *)

(** [_categorize_sentiment] *)
Definition _categorize_sentiment (compound_score : float) : string :=
  if float_ge compound_score lit_0_2 then "Positive"
  else if float_le compound_score (float_neg lit_0_2) then "Negative"
  else "Neutral".

(** ** Values, dictionaries and tables *)

(** The Python objects that occur in the cells of the tables: strings,
    floats and [None]. *)
Inductive value : Type :=
| VStr (s : string)
| VFloat (x : float)
| VNone.

(** The lexicon analyzer [self.sia]: [polarity_scores(text)] returns a
    dictionary with the keys [neg], [neu], [pos] and [compound].  The call
    reads the lexicon and changes nothing: it is a function of the text. *)
Record scores := { neg : float; neu : float; pos : float; compound : float }.

Class Analyzer := { polarity_scores : string -> scores }.

(** pandas' [isna] on one cell. *)
Definition isna (v : value) : bool :=
  match v with
  | VStr _ => false
  | VFloat x => isnan x
  | VNone => true
  end.

(** A dictionary literal, in insertion order. *)
Definition dict : Type := list (string * value).

Fixpoint dict_get (d : dict) (k : string) : option value :=
  match d with
  | [] => None
  | (k', v) :: d' => if String.eqb k' k then Some v else dict_get d' k
  end.

Module Frame.

(** A DataFrame: column labels and rows of cells, one cell per column. *)
Record DataFrame : Type := { columns : list string; rows : list (list value) }.

(** Position of a label among the columns. *)
Fixpoint index_of (name : string) (cols : list string) : option nat :=
  match cols with
  | [] => None
  | c :: cols' => if String.eqb c name then Some O
                  else S <$> index_of name cols'
  end.

Definition cell (r : list value) (i : nat) : value := default VNone (r !! i).

(** Labels of a list of dictionaries, in order of first appearance. *)
Fixpoint add_keys (seen : list string) (ks : list string) : list string :=
  match ks with
  | [] => seen
  | k :: ks' =>
      add_keys (match index_of k seen with
                | Some _ => seen
                | None => (seen ++ [k])%list
                end) ks'
  end.

(** [pd.DataFrame(records)] for a list of dictionaries: a key missing
    from a dictionary gives NaN. *)
Definition from_records (records : list dict) : DataFrame :=
  let cols := foldl (fun seen d => add_keys seen (fst <$> d)) [] records in
  {| columns := cols;
     rows := (fun d => (fun c => default (VFloat NaN) (dict_get d c)) <$> cols)
             <$> records |}.

(** [df[name]] for one label: the column, or [None] for a KeyError. *)
Definition column (df : DataFrame) (name : string) : option (list value) :=
  i ← index_of name (columns df); Some ((fun r => cell r i) <$> rows df).

(** [df[name] = values], for as many values as [df] has rows: replaces
    the column where the label exists, appends a column where not. *)
Definition set_column (df : DataFrame) (name : string) (vals : list value)
  : DataFrame :=
  match index_of name (columns df) with
  | Some i => {| columns := columns df;
                 rows := zip_with (fun r v => <[i := v]> r) (rows df) vals |}
  | None => {| columns := (columns df ++ [name])%list;
               rows := zip_with (fun r v => (r ++ [v])%list) (rows df) vals |}
  end.

(** [df[names]] for a list of labels: the first missing label, if any,
    is a KeyError. *)
Fixpoint indices (cols names : list string) : string + list nat :=
  match names with
  | [] => inr []
  | n :: names' =>
      match index_of n cols with
      | None => inl n
      | Some i => match indices cols names' with
                  | inl e => inl e
                  | inr ixs => inr (i :: ixs)
                  end
      end
  end.

Definition select (df : DataFrame) (names : list string) : string + DataFrame :=
  match indices (columns df) names with
  | inl missing => inl missing
  | inr ixs => inr {| columns := names;
                      rows := (fun r => cell r <$> ixs) <$> rows df |}
  end.

(** [df.dropna()]: keeps the rows without a missing cell. *)
Definition dropna (df : DataFrame) : DataFrame :=
  {| columns := columns df;
     rows := List.filter (fun r => negb (existsb isna r)) (rows df) |}.

(** [row[name]] for a row of [df.iterrows()]. *)
Definition row_get (df : DataFrame) (r : list value) (name : string)
  : option value :=
  i ← index_of name (columns df); Some (cell r i).

End Frame.

Export Frame.

(** Text forms computed by library code: [str(x)] for a float [x], and the
    text [print] shows for a DataFrame. *)
Class PyRuntime := {
  float_str : float -> string;
  frame_str : DataFrame -> string
}.

(** [str(v)] *)
Definition str `{PyRuntime} (v : value) : string :=
  match v with
  | VStr s => s
  | VFloat x => float_str x
  | VNone => "None"
  end.

(** ** The scorer *)

Section Scorer.
Context `{Analyzer}.

(** The dictionary [analyze_sentiment] appends for one headline. *)
Definition score_record (headline : string) : dict :=
  let pol_score := polarity_scores headline in
  [ ("headline", VStr headline);
    ("negative", VFloat (neg pol_score));
    ("neutral", VFloat (neu pol_score));
    ("positive", VFloat (pos pol_score));
    ("compound", VFloat (compound pol_score));
    ("label", VStr (_categorize_sentiment (compound pol_score))) ].

(** The record of a headline as a row: the headline, its negative, neutral,
    positive and compound scores, and its label. *)
Definition score_row (headline : string) : list value :=
  let pol_score := polarity_scores headline in
  [ VStr headline; VFloat (neg pol_score); VFloat (neu pol_score);
    VFloat (pos pol_score); VFloat (compound pol_score);
    VStr (_categorize_sentiment (compound pol_score)) ].

(** [analyze_sentiment] *)
Definition analyze_sentiment (headlines : list string) : DataFrame :=
  from_records (score_record <$> headlines).

Definition required_columns : list string :=
  ["headline"; "negative"; "neutral"; "positive"; "compound"; "label"].

(** Lines 155-159 of the main block: the table handed to [save_to_blob]
    is [analyze_sentiment(headlines)[required_columns].dropna()]; a
    missing column is a KeyError (the label on the left). *)
Definition sink_table (headlines : list string) : string + DataFrame :=
  match select (analyze_sentiment headlines) required_columns with
  | inl missing => inl missing
  | inr df => inr (dropna df)
  end.

End Scorer.

(** ** Exceptions, the world and the monad of methods *)

(** The classes of the exceptions the script can meet.  The last two
    derive from [BaseException] only. *)
Inductive exn_class : Type :=
| OSError | ValueError | KeyError | LookupError | UnicodeError
| AzureError | PrawException | PrawcoreException
| KeyboardInterrupt | SystemExit.

(** [isinstance(e, Exception)] *)
Definition is_Exception (c : exn_class) : bool :=
  match c with
  | KeyboardInterrupt | SystemExit => false
  | _ => true
  end.

(** An exception object; [exn_msg] is what [str(e)] gives. *)
Record exn : Type := { exn_cls : exn_class; exn_msg : string }.

(** A call of the storage SDK that reaches the object store. *)
Inductive sdk_call : Type :=
| CallExists (container : string)
| CallCreateContainer (container : string)
| CallUpload (container blob data : string).

(** References to DataFrame objects. *)
Definition loc : Type := nat.

Record world : Type := {
  files : gmap string string;             (* local files: path to content *)
  dirs : gset string;                     (* directories the script has made *)
  containers : gset string;               (* containers of the object store *)
  blobs : gmap (string * string) string;  (* (container, blob name) to content *)
  sdk_log : list sdk_call;                (* requests sent to the object store *)
  stdout : list string;                   (* what was written to the console *)
  frames : gmap loc DataFrame             (* the DataFrame objects *)
}.

(** What the outside answers during one run: for each step of the
    constructor, the exception it raises, if any; the listing of the
    content API (the titles it yields, and the error that ends the
    iteration if there is one); and, for each operation of the file system
    and of the storage SDK, the exception it raises, if any. *)
Record env : Type := {
  client_error : option exn;     (* praw.Reddit(...) *)
  download_error : option exn;   (* nltk.download([...], quiet=True) *)
  lexicon_error : option exn;    (* SentimentIntensityAnalyzer() *)
  makedirs_error : option exn;   (* os.makedirs(..., exist_ok=True) *)
  reddit_new : string -> Z -> list string * option exn;
  open_w_error : option exn;     (* open(local_path, 'w') *)
  open_r_error : option exn;     (* open(filepath, 'r') *)
  open_rb_error : option exn;    (* open(local_path, 'rb') *)
  connect_error : option exn;    (* BlobServiceClient.from_connection_string *)
  exists_error : option exn;     (* container_client.exists() *)
  create_error : option exn;     (* container_client.create_container() *)
  upload_error : option exn      (* blob_client.upload_blob(...) *)
}.

Inductive outcome (A : Type) : Type :=
| Return (a : A)
| Raise (e : exn).
Arguments Return {A} a.
Arguments Raise {A} e.

Definition M (A : Type) : Type := world -> outcome A * world.

#[export] Instance M_ret : MRet M := fun A a w => (Return a, w).

#[export] Instance M_bind : MBind M := fun A B f m w =>
  match m w with
  | (Return a, w') => f a w'
  | (Raise e, w') => (Raise e, w')
  end.

Definition raise {A} (e : exn) : M A := fun w => (Raise e, w).

(** [try: body except Exception as e: handler]: exceptions that are not
    instances of [Exception] pass through. *)
Definition try_except {A} (body : M A) (handler : exn -> M A) : M A := fun w =>
  match body w with
  | (Return a, w') => (Return a, w')
  | (Raise e, w') => if is_Exception (exn_cls e) then handler e w'
                     else (Raise e, w')
  end.

(** Raises the exception the environment has for an operation. *)
Definition may_fail (err : option exn) : M unit :=
  match err with
  | Some e => raise e
  | None => mret tt
  end.

Definition get_world : M world := fun w => (Return w, w).
Definition modify (f : world -> world) : M unit := fun w => (Return tt, f w).

Definition set_files (f : gmap string string → gmap string string) (w : world) : world :=
  {| files := f (files w); dirs := dirs w; containers := containers w;
     blobs := blobs w; sdk_log := sdk_log w; stdout := stdout w;
     frames := frames w |}.
Definition set_dirs (f : gset string → gset string) (w : world) : world :=
  {| files := files w; dirs := f (dirs w); containers := containers w;
     blobs := blobs w; sdk_log := sdk_log w; stdout := stdout w;
     frames := frames w |}.
Definition set_containers (f : gset string → gset string) (w : world) : world :=
  {| files := files w; dirs := dirs w; containers := f (containers w);
     blobs := blobs w; sdk_log := sdk_log w; stdout := stdout w;
     frames := frames w |}.
Definition set_blobs (f : gmap (string * string) string → gmap (string * string) string)
    (w : world) : world :=
  {| files := files w; dirs := dirs w; containers := containers w;
     blobs := f (blobs w); sdk_log := sdk_log w; stdout := stdout w;
     frames := frames w |}.
Definition set_sdk_log (f : list sdk_call → list sdk_call) (w : world) : world :=
  {| files := files w; dirs := dirs w; containers := containers w;
     blobs := blobs w; sdk_log := f (sdk_log w); stdout := stdout w;
     frames := frames w |}.
Definition set_stdout (f : list string → list string) (w : world) : world :=
  {| files := files w; dirs := dirs w; containers := containers w;
     blobs := blobs w; sdk_log := sdk_log w; stdout := f (stdout w);
     frames := frames w |}.
Definition set_frames (f : gmap loc DataFrame → gmap loc DataFrame) (w : world) : world :=
  {| files := files w; dirs := dirs w; containers := containers w;
     blobs := blobs w; sdk_log := sdk_log w; stdout := stdout w;
     frames := f (frames w) |}.

(** [print(s, end=e)] *)
Definition print_end (s e : string) : M unit :=
  modify (set_stdout (fun out => (out ++ [s +:+ e])%list)).

(** [print(s)] *)
Definition print (s : string) : M unit := print_end s NL.

(** The DataFrame object a reference points to.  References of the script
    never dangle; the model answers a dangling one with a KeyError. *)
Definition deref (df : loc) : M DataFrame := fun w =>
  match frames w !! df with
  | Some t => (Return t, w)
  | None => (Raise {| exn_cls := KeyError; exn_msg := "dangling reference" |}, w)
  end.

Definition assign (df : loc) (t : DataFrame) : M unit :=
  modify (set_frames <[df := t]>).

(** A new DataFrame object. *)
Definition alloc (t : DataFrame) : M loc := fun w =>
  let l := fresh (dom (frames w)) in (Return l, set_frames <[l := t]> w).

(** [KeyError(name)]; its [str] is the [repr] of the key. *)
Definition key_error (name : string) : exn :=
  {| exn_cls := KeyError; exn_msg := "'" +:+ name +:+ "'" |}.

Definition or_key_error {A} (name : string) (o : option A) : M A :=
  match o with
  | Some a => mret a
  | None => raise (key_error name)
  end.

(** [for x in xs: body(x)] *)
Fixpoint for_each {A} (xs : list A) (body : A -> M unit) : M unit :=
  match xs with
  | [] => mret tt
  | x :: xs' => body x ;; for_each xs' body
  end.

(** ** Files and the csv writer *)

(** [os.path.join(a, b)] of posixpath. *)
Definition os_path_join (a b : string) : string :=
  if startswith "/" b then b
  else if (String.eqb a "" || String.eqb (substring (String.length a - 1) 1 a) "/")%bool
       then a +:+ b
       else a +:+ "/" +:+ b.

(** [open(path, 'w')]: the file is created or truncated. *)
Definition open_w (ev : env) (path : string) : M unit :=
  may_fail (open_w_error ev) ;; modify (set_files <[path := ""]>).

(** [f.write(s)] on a file opened for writing at [path]. *)
Definition file_write (path s : string) : M unit :=
  modify (set_files (fun fs => <[path := default "" (fs !! path) +:+ s]> fs)).

(** The content of a file opened for reading; the error of the
    environment, given as [err], or an [OSError] (FileNotFoundError)
    where the file does not exist. *)
Definition open_read (err : option exn) (path : string) : M string :=
  may_fail err ;;
  w ← get_world;
  match files w !! path with
  | Some content => mret content
  | None => raise {| exn_cls := OSError;
                     exn_msg := "[Errno 2] No such file or directory: '" +:+ path +:+ "'" |}
  end.

(** Text mode with the default [newline=None]: CR LF and CR read as LF. *)
Fixpoint universal_newlines (s : string) : string :=
  match s with
  | "" => ""
  | String c s' =>
      if Ascii.eqb c CR then
        String LF match s' with
                  | String c' s'' =>
                      if Ascii.eqb c' LF then universal_newlines s''
                      else universal_newlines s'
                  | "" => ""
                  end
      else String c (universal_newlines s')
  end.

(** The lines of a text, each with its line feed. *)
Fixpoint split_lines (s : string) : list string :=
  match s with
  | "" => []
  | String c s' =>
      if Ascii.eqb c LF then String c "" :: split_lines s'
      else match split_lines s' with
           | [] => [String c ""]
           | l :: ls => String c l :: ls
           end
  end.

(** The lines [for line in f] yields for a file of content [content]. *)
Definition file_lines (content : string) : list string :=
  split_lines (universal_newlines content).

Module Csv.

Definition backslash : ascii := ascii_of_nat 92.

(** The text of a field: a string as it is, [None] as the empty string,
    anything else through [str]. *)
Definition field_text `{PyRuntime} (v : value) : string :=
  match v with
  | VStr s => s
  | VNone => ""
  | VFloat x => float_str x
  end.

(** The characters of a field under [QUOTE_ALL] with the default
    [doublequote=True] and [escapechar='\\']: a quote character is
    doubled, the escape character is escaped (as current CPython does;
    older versions copied it), the rest is copied. *)
Fixpoint escape (s : string) : string :=
  match s with
  | "" => ""
  | String c s' =>
      if Ascii.eqb c dquote then String dquote (String dquote (escape s'))
      else if Ascii.eqb c backslash then String backslash (String backslash (escape s'))
      else String c (escape s')
  end.

Definition quote_field (s : string) : string := DQ +:+ escape s +:+ DQ.

(** The record [writer.writerow(fields)] writes, with the default line
    terminator CR LF. *)
Definition format_row `{PyRuntime} (fields : list value) : string :=
  String.concat "," (quote_field ∘ field_text <$> fields) +:+ CRLF.

End Csv.

(** ** The methods of [RedditSentimentAnalyzer] *)

Section Methods.
Context `{PyRuntime} (ev : env).

(** Attributes set by [__init__]. *)
Definition container_name : string := "reddit-sentiment-data".
Definition local_backup_dir : string := "reddit_data_backups".

(** [os.makedirs(path, exist_ok=True)] *)
Definition makedirs (path : string) : M unit :=
  may_fail (makedirs_error ev) ;;
  modify (set_dirs (fun ds => {[ path ]} ∪ ds)).

(** [__init__]: the client of the content API, the download of the
    lexicon, the lexicon analyzer and the backup directory, in this order;
    nothing catches what they raise.  [os.getenv] gives [None] for a
    variable that is not set and raises nothing: a missing credential
    shows as the error of the constructor that receives it.  What
    [nltk.download] stores lies outside the working directory and is not
    part of the world; the analyzer built is the one of [Analyzer]. *)
Definition __init__ : M unit :=
  may_fail (client_error ev) ;;
  may_fail (download_error ev) ;;
  may_fail (lexicon_error ev) ;;
  makedirs local_backup_dir.

(** The loop of [fetch_headlines]: [headlines] is the set built so far;
    the listing ends normally or with the error [err]. *)
Fixpoint collect (titles : list string) (err : option exn)
    (headlines : gset string) : M (gset string) :=
  match titles with
  | [] => may_fail err ;; mret headlines
  | title :: titles' =>
      let headlines := {[ title ]} ∪ headlines in
      print_end (String CR "Headlines collected: " +:+ pretty (size headlines)) "" ;;
      collect titles' err headlines
  end.

(** The diagnostic of the [except] clause of [fetch_headlines]. *)
Definition fetch_error (e : exn) : string :=
  NL +:+ "Error fetching headlines: " +:+ exn_msg e.

(** [fetch_headlines] *)
Definition fetch_headlines (subreddit : string) (limit : Z) : M (list string) :=
  try_except
    (let '(titles, err) := reddit_new ev subreddit limit in
     headlines ← collect titles err ∅;
     mret (elements headlines))
    (fun e => print (fetch_error e) ;; mret []).

(** [_clean_headline] *)
Definition _clean_headline (text : value) : string :=
  strip (replace (replace (replace (str text) DQ (DQ +:+ DQ)) NL " ")
                 (String CR "") " ").

(** [_generate_filename] *)
Definition _generate_filename : string := "reddit_news.csv".

Definition separator : string := DQ +:+ "," +:+ DQ.

(** The loop of [_validate_csv] from line number [i] on. *)
Fixpoint check_lines (i : nat) (lines : list string) : M bool :=
  match lines with
  | [] => mret true
  | line :: lines' =>
      if negb (count line separator =? 5)%nat then
        print ("Validation failed on line " +:+ pretty i +:+ ": " +:+ strip line) ;;
        mret false
      else check_lines (S i) lines'
  end.

(** [_validate_csv] *)
Definition _validate_csv (filepath : string) : M bool :=
  content ← open_read (open_r_error ev) filepath;
  check_lines 1 (file_lines content).

(** The fields [_save_locally] writes for one row of [df.iterrows()]. *)
Definition row_fields (t : DataFrame) (row : list value) : M (list value) :=
  h ← or_key_error "headline" (row_get t row "headline");
  n ← or_key_error "negative" (row_get t row "negative");
  u ← or_key_error "neutral" (row_get t row "neutral");
  p ← or_key_error "positive" (row_get t row "positive");
  c ← or_key_error "compound" (row_get t row "compound");
  l ← or_key_error "label" (row_get t row "label");
  mret [h; n; u; p; c; l].

(** The header record. *)
Definition header_line : string :=
  Csv.format_row (VStr <$> ["headline"; "negative"; "neutral"; "positive";
                            "compound"; "label"]).

(** [_save_locally] *)
Definition _save_locally (df : loc) (filename : string) : M string :=
  let local_path := os_path_join local_backup_dir filename in
  t ← deref df;
  col ← or_key_error "headline" (column t "headline");
  assign df (set_column t "headline" (VStr ∘ _clean_headline <$> col)) ;;
  open_w ev local_path ;;
  file_write local_path header_line ;;
  t ← deref df;
  for_each (rows t) (fun row =>
    fields ← row_fields t row;
    file_write local_path (Csv.format_row fields)) ;;
  print ("Local backup saved to: " +:+ local_path) ;;
  mret local_path.

(** The storage SDK. *)
Definition sdk_exists (container : string) : M bool :=
  modify (set_sdk_log (fun l => (l ++ [CallExists container])%list)) ;;
  may_fail (exists_error ev) ;;
  w ← get_world;
  mret (bool_decide (container ∈ containers w)).

Definition sdk_create_container (container : string) : M unit :=
  modify (set_sdk_log (fun l => (l ++ [CallCreateContainer container])%list)) ;;
  may_fail (create_error ev) ;;
  modify (set_containers (fun cs => {[ container ]} ∪ cs)).

(** [upload_blob(data, overwrite=True)] *)
Definition sdk_upload_blob (container blob data : string) : M unit :=
  modify (set_sdk_log (fun l => (l ++ [CallUpload container blob data])%list)) ;;
  may_fail (upload_error ev) ;;
  modify (set_blobs <[(container, blob) := data]>).

(** The suite of the [try] statement of [save_to_blob]. *)
Definition save_steps (df : loc) (filename : string) : M bool :=
  local_path ← _save_locally df filename;
  valid ← _validate_csv local_path;
  (if negb valid
   then raise {| exn_cls := ValueError;
                 exn_msg := "CSV validation failed - incorrect column count" |}
   else mret tt) ;;
  may_fail (connect_error ev) ;;
  present ← sdk_exists container_name;
  (if negb present then sdk_create_container container_name else mret tt) ;;
  data ← open_read (open_rb_error ev) local_path;
  sdk_upload_blob container_name filename data ;;
  print ("Successfully uploaded validated file: " +:+ filename) ;;
  mret true.

(** The diagnostic of the [except] clause of [save_to_blob]. *)
Definition save_error (e : exn) : string :=
  NL +:+ "Error during save operation: " +:+ exn_msg e.

(** [save_to_blob] *)
Definition save_to_blob (df : loc) : M bool :=
  let filename := _generate_filename in
  try_except (save_steps df filename)
    (fun e => print (save_error e) ;; mret false).

End Methods.

(** ** The main block *)

Section Main.
Context `{PyRuntime} `{Analyzer} (ev : env).

(** [df.head()]: the first five rows. *)
Definition head (df : DataFrame) : DataFrame :=
  {| columns := columns df; rows := take 5 (rows df) |}.

(** The block under [if __name__ == "__main__"]: it builds the analyzer,
    which runs [__init__], and goes on only when the constructor has
    returned.  The call of [load_dotenv] at the top of the module copies
    the entries of a [.env] file into the variables [os.getenv] reads; it
    shows here through the errors of the constructor alone. *)
Definition main : M unit :=
  __init__ ev ;;
  print "Fetching Reddit headlines..." ;;
  headlines ← fetch_headlines ev "politics" 500;
  match headlines with
  | _ :: _ =>
      print (NL +:+ "Analyzing sentiment...") ;;
      sentiment_df ← match sink_table headlines with
                      | inl missing => raise (key_error missing)
                      | inr t => mret t
                      end;
      print (NL +:+ "Sample results:") ;;
      print (frame_str (head sentiment_df)) ;;
      print (NL +:+ "Saving data...") ;;
      df ← alloc sentiment_df;
      saved ← save_to_blob ev df;
      (if saved : bool then print "Process completed successfully!"
       else print "Process completed with errors")
  | [] => print "No headlines were fetched"
  end.

End Main.

(** ** Reference definitions, after the words of the specification *)

Module Reference.

(** "escape embedded double-quotes by doubling them" *)
Fixpoint double_quotes (s : string) : string :=
  match s with
  | "" => ""
  | String c s' =>
      if Ascii.eqb c dquote then String dquote (String dquote (double_quotes s'))
      else String c (double_quotes s')
  end.

(** "replace newline and carriage-return characters with a single space" *)
Fixpoint blank_line_breaks (s : string) : string :=
  match s with
  | "" => ""
  | String c s' =>
      String (if (Ascii.eqb c LF || Ascii.eqb c CR)%bool then " "%char else c)
             (blank_line_breaks s')
  end.

Fixpoint drop_while {A} (P : A -> bool) (l : list A) : list A :=
  match l with
  | [] => []
  | x :: l' => if P x then drop_while P l' else l
  end.

(** "trim leading/trailing whitespace" *)
Definition trim (s : string) : string :=
  let drop := drop_while isspace in
  string_of_list_ascii
    (List.rev (drop (List.rev (drop (list_ascii_of_string s))))).

(** A record of quoted fields (RFC 4180): every field is enclosed in
    double quotes, a quote inside a field is written twice, fields are
    separated by commas, the record ends with CR LF. *)
Inductive rstate : Type :=
| FieldStart            (* a field must open here *)
| InField               (* inside the quotes of a field *)
| QuoteSeen.            (* after a quote inside a field *)

(** [cur] is the current field, [done] the fields read so far. *)
Fixpoint read_row (st : rstate) (cur : string) (done : list string) (s : string)
  : option (list string) :=
  match s with
  | "" => None
  | String c s' =>
      match st with
      | FieldStart =>
          if Ascii.eqb c dquote then read_row InField "" done s' else None
      | InField =>
          if Ascii.eqb c dquote then read_row QuoteSeen cur done s'
          else read_row InField (cur +:+ String c "") done s'
      | QuoteSeen =>
          if Ascii.eqb c dquote then read_row InField (cur +:+ DQ) done s'
          else if Ascii.eqb c ","%char then read_row FieldStart "" (done ++ [cur])%list s'
          else if String.eqb s CRLF then Some (done ++ [cur])%list
          else None
      end
  end.

Definition parse_row (line : string) : option (list string) :=
  read_row FieldStart "" [] line.

(** The characters of the text of a float: digits, sign, point, exponent
    mark and the letters of [inf] and [nan]. *)
Definition is_float_char (c : ascii) : bool :=
  existsb (Ascii.eqb c) (list_ascii_of_string "0123456789.-+einfa").

Fixpoint all_chars (P : ascii -> bool) (s : string) : bool :=
  match s with
  | "" => true
  | String c s' => P c && all_chars P s'
  end.

(** A character that is neither a quote, an escape character nor a
    line break. *)
Definition is_plain_char (c : ascii) : bool :=
  negb (Ascii.eqb c dquote) && negb (Ascii.eqb c (ascii_of_nat 92))
  && negb (Ascii.eqb c CR) && negb (Ascii.eqb c LF).

(** A character that is not a line break. *)
Definition is_not_break (c : ascii) : bool :=
  negb (Ascii.eqb c CR) && negb (Ascii.eqb c LF).

(** [sub] occurs in [s]. *)
Fixpoint contains (sub s : string) : bool :=
  startswith sub s
  || match s with
     | "" => false
     | String _ s' => contains sub s'
     end.

(** The labels of the categorization rule. *)
Definition labels : list string := ["Positive"; "Neutral"; "Negative"].

End Reference.

(** ** A runtime and an analyzer for the examples *)

Module Sample.

Definition digit (d : Z) : ascii := ascii_of_N (48 + Z.to_N d).

(** The decimal digits of [n >= 0], most significant first. *)
Fixpoint int_digits (fuel : nat) (n : Z) (acc : string) : string :=
  match fuel with
  | O => acc
  | S fuel' =>
      let acc := String (digit (n mod 10)) acc in
      if n <? 10 then acc else int_digits fuel' (n / 10) acc
  end.

Definition int_str (n : Z) : string := int_digits (S (Z.to_nat (Z.log2 n))) n "".

(** The decimal digits of [num / den] after the point, for
    [0 <= num < den]. *)
Fixpoint frac_digits (fuel : nat) (num den : Z) : string :=
  match fuel with
  | O => ""
  | S fuel' =>
      if num =? 0 then ""
      else String (digit (10 * num / den))
                  (frac_digits fuel' ((10 * num) mod den) den)
  end.

(** The exact decimal expansion of a float.  It is what Python prints
    where the expansion has at most 15 digits and the value lies between
    1e-4 and 1e16: [0.0], [0.5], [-0.25], [1.0]. *)
Definition decimal_str (x : float) : string :=
  match x with
  | NaN => "nan"
  | PosInf => "inf"
  | NegInf => "-inf"
  | Finite m e =>
      let sign := if m <? 0 then "-" else "" in
      let a := Z.abs m in
      if 0 <=? e then sign +:+ int_str (a * 2 ^ e) +:+ ".0"
      else
        let den := 2 ^ (- e) in
        let frac := frac_digits (Z.to_nat (- e)) (a mod den) den in
        sign +:+ int_str (a / den) +:+ "."
        +:+ (if String.eqb frac "" then "0" else frac)
  end.

(** DataFrames print as their header line here. *)
Definition runtime : PyRuntime :=
  {| float_str := decimal_str;
     frame_str := fun df => String.concat " " (columns df) |}.

Definition half : float := Finite 1 (-1).
Definition zero : float := Finite 0 0.
Definition one : float := Finite 1 0.

(** An analyzer that scores by the first word: [Good] is positive,
    [Bad] negative, [Odd] has no score, the rest is neutral. *)
Definition analyzer : Analyzer :=
  {| polarity_scores := fun text =>
       if startswith "Good" text then
         {| neg := zero; neu := half; pos := half; compound := half |}
       else if startswith "Bad" text then
         {| neg := half; neu := half; pos := zero; compound := float_neg half |}
       else if startswith "Odd" text then
         {| neg := zero; neu := one; pos := zero; compound := NaN |}
       else {| neg := zero; neu := one; pos := zero; compound := zero |} |}.

(** An environment in which nothing fails and the listing of every
    topic is [titles]. *)
Definition calm (titles : list string) : env :=
  {| client_error := None; download_error := None; lexicon_error := None;
     makedirs_error := None;
     reddit_new := fun _ _ => (titles, None);
     open_w_error := None; open_r_error := None; open_rb_error := None;
     connect_error := None; exists_error := None; create_error := None;
     upload_error := None |}.

Definition empty_world : world :=
  {| files := ∅; dirs := ∅; containers := ∅; blobs := ∅; sdk_log := []; stdout := [];
     frames := ∅ |}.

(** A table of one scored headline, and a world that holds it at
    reference 0 and nothing else. *)
Definition good_news : DataFrame :=
  {| columns := ["headline"; "negative"; "neutral"; "positive"; "compound"; "label"];
     rows := [[VStr "Good news today"; VFloat zero; VFloat half; VFloat half;
               VFloat half; VStr "Positive"]] |}.

Definition one_table : world :=
  {| files := ∅; dirs := ∅; containers := ∅; blobs := ∅; sdk_log := []; stdout := [];
     frames := {[ 0%nat := good_news ]} |}.

(** A table whose headline has quotes around a comma, and a world that
    holds it at reference 0. *)
Definition quoted : DataFrame :=
  {| columns := ["headline"; "negative"; "neutral"; "positive"; "compound"; "label"];
     rows := [[VStr ("He said " +:+ DQ +:+ "yes" +:+ DQ +:+ "," +:+ DQ +:+ "no" +:+ DQ);
               VFloat zero; VFloat one; VFloat zero; VFloat zero; VStr "Neutral"]] |}.

Definition quoted_table : world :=
  {| files := ∅; dirs := ∅; containers := ∅; blobs := ∅; sdk_log := []; stdout := [];
     frames := {[ 0%nat := quoted ]} |}.

(** Ctrl-C while the blob is uploaded. *)
Definition interrupt : exn := {| exn_cls := KeyboardInterrupt; exn_msg := "" |}.

Definition interrupted_upload : env :=
  {| client_error := None; download_error := None; lexicon_error := None;
     makedirs_error := None;
     reddit_new := fun _ _ => ([], None);
     open_w_error := None; open_r_error := None; open_rb_error := None;
     connect_error := None; exists_error := None; create_error := None;
     upload_error := Some interrupt |}.

(** A listing that fails after two titles. *)
Definition timeout : exn :=
  {| exn_cls := PrawcoreException; exn_msg := "Read timed out." |}.

Definition broken_listing : env :=
  {| client_error := None; download_error := None; lexicon_error := None;
     makedirs_error := None;
     reddit_new := fun _ _ => (["Good news today"; "Bad news today"], Some timeout);
     open_w_error := None; open_r_error := None; open_rb_error := None;
     connect_error := None; exists_error := None; create_error := None;
     upload_error := None |}.

End Sample.

(** ** Records as lines, and the headlines of the examples *)

Section Records.
Context `{PyRuntime}.

(** The line of a record of a headline, four scores and a label,
    without its terminator. *)
Definition record_body (h : string) (n u p c : float) (l : string) : string :=
  DQ +:+ Csv.escape h +:+ separator +:+ float_str n +:+ separator
  +:+ float_str u +:+ separator +:+ float_str p +:+ separator
  +:+ float_str c +:+ separator +:+ l +:+ DQ.

(** The fields of a row in the order [_save_locally] writes them; [None]
    where a label is missing. *)
Definition row_values (t : DataFrame) (row : list value) : option (list value) :=
  h ← row_get t row "headline";
  n ← row_get t row "negative";
  u ← row_get t row "neutral";
  p ← row_get t row "positive";
  c ← row_get t row "compound";
  l ← row_get t row "label";
  Some [h; n; u; p; c; l].

(** The text of the backup file of a table: the header and one record
    per row. *)
Definition csv_text (t : DataFrame) : option string :=
  lines ← mapM (fun row => Csv.format_row <$> row_values t row) (rows t);
  Some (header_line +:+ String.concat "" lines).

(** The header line without its terminator. *)
Definition header_body : string :=
  DQ +:+ "headline" +:+ separator +:+ "negative" +:+ separator +:+ "neutral"
  +:+ separator +:+ "positive" +:+ separator +:+ "compound" +:+ separator
  +:+ "label" +:+ DQ.

End Records.

Module Examples.

(** [He said "hi"], a line feed, [there]. *)
Definition said_hi : string :=
  "He said " +:+ DQ +:+ "hi" +:+ DQ +:+ NL +:+ "there".

(** The same with every quote doubled and a space for the line feed. *)
Definition said_hi_clean : string :=
  "He said " +:+ DQ +:+ DQ +:+ "hi" +:+ DQ +:+ DQ +:+ " there".

(** [He said "yes","no"] *)
Definition yes_no : string :=
  "He said " +:+ DQ +:+ "yes" +:+ DQ +:+ "," +:+ DQ +:+ "no" +:+ DQ.

(** The same with every quote doubled. *)
Definition yes_no_clean : string :=
  "He said " +:+ DQ +:+ DQ +:+ "yes" +:+ DQ +:+ DQ +:+ "," +:+ DQ +:+ DQ
  +:+ "no" +:+ DQ +:+ DQ.

End Examples.

(** ** Specifications of computations *)

(** [m], started in a world satisfying [P], ends with an outcome and
    a world related by [Q]. *)
Definition hoare {A} (P : world -> Prop) (m : M A)
    (Q : outcome A -> world -> Prop) : Prop :=
  forall w r w', P w -> m w = (r, w') -> Q r w'.

(** [m] keeps the property [P] of the world, however it ends. *)
Definition keeps {A} (P : world -> Prop) (m : M A) : Prop :=
  hoare P m (fun _ w' => P w').

(** An error of the environment that [except Exception] catches. *)
Definition catchable (err : option exn) : bool :=
  match err with
  | Some e => is_Exception (exn_cls e)
  | None => true
  end.

(** No operation of the environment is interrupted: each error it holds
    is an instance of [Exception]. *)
Definition no_interrupt (ev : env) : bool :=
  catchable (open_w_error ev) && catchable (open_r_error ev)
  && catchable (open_rb_error ev) && catchable (connect_error ev)
  && catchable (exists_error ev) && catchable (create_error ev)
  && catchable (upload_error ev).

(** [m] raises nothing but instances of [Exception]. *)
Definition raises_Exception_only {A} (m : M A) : Prop :=
  hoare (fun _ => True) m
        (fun r _ => match r with
                    | Raise e => is_Exception (exn_cls e) = true
                    | Return _ => True
                    end).

(** [w'] has the files, the blobs and the tables of [w]. *)
Definition same_data (w w' : world) : Prop :=
  files w' = files w /\ blobs w' = blobs w /\ frames w' = frames w.

(** A table with one cell per column in every row. *)
Definition rectangular (t : DataFrame) : Prop :=
  Forall (fun r => length r = length (columns t)) (rows t).

(** ** Notions of the further properties *)

(** The label of the opposite sentiment. *)
Definition mirror (label : string) : string :=
  if String.eqb label "Positive" then "Negative"
  else if String.eqb label "Negative" then "Positive"
  else label.

(** The labels from the most negative to the most positive. *)
Definition rank (label : string) : nat :=
  if String.eqb label "Negative" then 0
  else if String.eqb label "Neutral" then 1
  else 2.

(** [s] with every backslash doubled. *)
Fixpoint double_backslashes (s : string) : string :=
  match s with
  | "" => ""
  | String c s' =>
      if Ascii.eqb c Csv.backslash then String c (String c (double_backslashes s'))
      else String c (double_backslashes s')
  end.

(** A character that is not the double quote. *)
Definition is_not_quote (c : ascii) : bool := negb (Ascii.eqb c dquote).

(** A line with the 5 separators of six fields. *)
Definition line_ok (line : string) : bool := (count line separator =? 5)%nat.

(** The message of [_validate_csv] for line number [i]. *)
Definition validation_message (i : nat) (line : string) : string :=
  "Validation failed on line " +:+ pretty i +:+ ": " +:+ strip line +:+ NL.

(** The first of [names] that is not a label of [cols]. *)
Fixpoint first_missing (cols names : list string) : option string :=
  match names with
  | [] => None
  | n :: names' =>
      match index_of n cols with
      | None => Some n
      | Some _ => first_missing cols names'
      end
  end.

(** The world after a successful [_save_locally]. *)
Definition saved_locally (df : loc) (t' : DataFrame) (path content : string)
    (w : world) : world :=
  {| files := <[path := content]> (files w);
     dirs := dirs w; containers := containers w; blobs := blobs w; sdk_log := sdk_log w;
     stdout := (stdout w ++ ["Local backup saved to: " +:+ path +:+ NL])%list;
     frames := <[df := t']> (frames w) |}.

(** The operation raises nothing. *)
Definition absent (err : option exn) : bool :=
  match err with None => true | Some _ => false end.

(** No step of the constructor fails. *)
Definition starts (ev : env) : bool :=
  absent (client_error ev) && absent (download_error ev)
  && absent (lexicon_error ev) && absent (makedirs_error ev).

(** The errors of the steps of the constructor, in the order of the steps. *)
Definition start_errors (ev : env) : list (option exn) :=
  [client_error ev; download_error ev; lexicon_error ev; makedirs_error ev].

(** The world when the constructor has returned and the main block has
    announced the fetch. *)
Definition started (w : world) : world :=
  set_stdout (fun o => (o ++ ["Fetching Reddit headlines..." +:+ NL])%list)
             (set_dirs (fun ds => {[ "reddit_data_backups" ]} ∪ ds) w).

(** No operation of the file system or of the storage SDK fails during a
    save. *)
Definition no_errors (ev : env) : bool :=
  absent (open_w_error ev) && absent (open_r_error ev)
  && absent (open_rb_error ev) && absent (connect_error ev)
  && absent (exists_error ev) && absent (create_error ev)
  && absent (upload_error ev).

(** The requests of a save that reaches the upload: the existence check,
    the creation of the container where it was missing, the upload. *)
Definition upload_calls (present : bool) (blob data : string) : list sdk_call :=
  CallExists container_name
  :: (if present then [] else [CallCreateContainer container_name])
  ++ [CallUpload container_name blob data].

(** [w'] differs from [w] in no file but [path] and in no container but
    [container]. *)
Definition same_elsewhere (path container : string) (w w' : world) : Prop :=
  (forall p, p <> path -> files w' !! p = files w !! p) /\
  (forall c, c <> container -> c ∈ containers w' <-> c ∈ containers w).

(** A row as the scorer builds it, with a headline without double quote:
    a headline, four scores and one of the three labels. *)
Definition plain_scored_row (r : list value) : Prop :=
  exists (h : string) (n u p c : float) (l : string),
    r = [VStr h; VFloat n; VFloat u; VFloat p; VFloat c; VStr l] /\
    l ∈ Reference.labels /\ occ dquote h = 0%nat.

(** The line of a row of six cells after the headline is cleaned, without
    its terminator. *)
Definition cleaned_body `{PyRuntime} (r : list value) : string :=
  match r with
  | [h; VFloat n; VFloat u; VFloat p; VFloat c; VStr l] =>
      record_body (_clean_headline h) n u p c l
  | _ => ""
  end.

(** The progress message of [fetch_headlines] for [n] headlines. *)
Definition progress_message (n : nat) : string :=
  String CR "Headlines collected: " +:+ pretty n.

(** The three messages the main block can end with. *)
Definition final_messages : list string :=
  ["Process completed successfully!"; "Process completed with errors";
   "No headlines were fetched"].

(** ** Further tables, worlds and environments *)

Module Scenario.

(** A backup whose second line was cut after its second field. *)
Definition torn_backup : world :=
  {| files := {[ "backup.csv" :=
                 @header_line Sample.runtime
                 +:+ DQ +:+ "Good news today" +:+ separator +:+ "0.0" +:+ CRLF ]};
     dirs := ∅; containers := ∅; blobs := ∅; sdk_log := []; stdout := []; frames := ∅ |}.

(** A table whose first column is called [title]. *)
Definition untitled : DataFrame :=
  {| columns := ["title"; "negative"; "neutral"; "positive"; "compound"; "label"];
     rows := [[VStr "Good news today"; VFloat Sample.zero; VFloat Sample.half;
               VFloat Sample.half; VFloat Sample.half; VStr "Positive"]] |}.

(** A table without the label column. *)
Definition unlabelled : DataFrame :=
  {| columns := ["headline"; "negative"; "neutral"; "positive"; "compound"];
     rows := [[VStr "Good news today"; VFloat Sample.zero; VFloat Sample.half;
               VFloat Sample.half; VFloat Sample.half]] |}.

(** The six columns and no row. *)
Definition no_rows : DataFrame :=
  {| columns := required_columns; rows := [] |}.

(** The world that holds [t] at reference 0 and nothing else. *)
Definition holding (t : DataFrame) : world :=
  {| files := ∅; dirs := ∅; containers := ∅; blobs := ∅; sdk_log := []; stdout := [];
     frames := {[ 0%nat := t ]} |}.

(** The world an earlier run has left: its backup, its blob, and the
    table of this run at reference 0. *)
Definition stale : world :=
  {| files := {[ "reddit_data_backups/reddit_news.csv" := "an older backup" ]};
     dirs := {[ "reddit_data_backups" ]};
     containers := {[ "reddit-sentiment-data" ]};
     blobs := {[ ("reddit-sentiment-data", "reddit_news.csv") := "an older blob" ]};
     sdk_log := []; stdout := [];
     frames := {[ 0%nat := Sample.good_news ]} |}.

Definition denied : exn :=
  {| exn_cls := OSError;
     exn_msg := "[Errno 13] Permission denied: 'reddit_data_backups/reddit_news.csv'" |}.

(** The backup directory cannot be written. *)
Definition read_only_disk : env :=
  {| client_error := None; download_error := None; lexicon_error := None;
     makedirs_error := None;
     reddit_new := fun _ _ => ([], None);
     open_w_error := Some denied; open_r_error := None; open_rb_error := None;
     connect_error := None; exists_error := None; create_error := None;
     upload_error := None |}.

Definition missing_lexicon : exn :=
  {| exn_cls := LookupError; exn_msg := "Resource vader_lexicon not found." |}.

(** The lexicon could not be downloaded and is not installed. *)
Definition no_lexicon : env :=
  {| client_error := None; download_error := None;
     lexicon_error := Some missing_lexicon; makedirs_error := None;
     reddit_new := fun _ _ => ([], None);
     open_w_error := None; open_r_error := None; open_rb_error := None;
     connect_error := None; exists_error := None; create_error := None;
     upload_error := None |}.

Definition refused : exn :=
  {| exn_cls := AzureError; exn_msg := "Server failed to authenticate the request." |}.

(** The object store refuses the upload. *)
Definition refused_upload : env :=
  {| client_error := None; download_error := None; lexicon_error := None;
     makedirs_error := None;
     reddit_new := fun _ _ => ([], None);
     open_w_error := None; open_r_error := None; open_rb_error := None;
     connect_error := None; exists_error := None; create_error := None;
     upload_error := Some refused |}.

End Scenario.

(** * Properties *)

Import Reference Csv.

(** ** The categorization thresholds *)

Lemma pow_split_1019 e : -55 <= e -> 2 ^ (e - emin) = 2 ^ (e + 55) * 2 ^ 1019.
Proof.
  intros He. unfold emin. rewrite <- Z.pow_add_r by lia. f_equal. lia.
Qed.

(** No binary64 value lies between 1/5 and the literal [0.2]. *)
Lemma scaled_ge_lit m e :
  Z.abs m < 2 ^ 53 -> emin <= e <= emax ->
  (scaled 7205759403792794 (-55) <= scaled m e <-> 2 ^ 1074 <= 5 * scaled m e).
Proof.
  intros Hm He. unfold scaled.
  replace (2 ^ 1074) with (2 ^ 55 * 2 ^ 1019)
    by (rewrite <- Z.pow_add_r by lia; reflexivity).
  replace (2 ^ (-55 - emin)) with (2 ^ 1019) by reflexivity.
  destruct (Z_le_gt_dec (-55) e) as [Hge | Hlt].
  - rewrite pow_split_1019 by assumption.
    assert (HP : 0 < 2 ^ 1019) by (apply Z.pow_pos_nonneg; lia).
    rewrite !Z.mul_assoc.
    rewrite <- !(Z.mul_le_mono_pos_r _ _ (2 ^ 1019)) by assumption.
    lia.
  - assert (HQ : 0 < 2 ^ (e - emin))
      by (apply Z.pow_pos_nonneg; unfold emin in *; lia).
    assert (HQR : 2 ^ (e - emin) <= 2 ^ 1018)
      by (apply Z.pow_le_mono_r; unfold emin in *; lia).
    replace (2 ^ 1019) with (2 * 2 ^ 1018)
      by (rewrite <- Z.pow_succ_r by lia; reflexivity).
    assert (HR : 0 < 2 ^ 1018) by (apply Z.pow_pos_nonneg; lia).
    assert (Hs : m * 2 ^ (e - emin) < 2 ^ 53 * 2 ^ 1018).
    { destruct (Z_le_gt_dec m 0) as [Hneg | Hpos].
      - apply Z.le_lt_trans with 0; [apply Z.mul_nonpos_nonneg; lia | lia].
      - apply Z.le_lt_trans with (m * 2 ^ 1018).
        + apply Z.mul_le_mono_nonneg_l; lia.
        + apply Z.mul_lt_mono_pos_r; lia. }
    generalize dependent (2 ^ 1018). intros R HQR HR.
    generalize dependent (m * 2 ^ (e - emin)). intros s Hs.
    change (2 ^ 53) with 9007199254740992 in Hs.
    change (2 ^ 55) with 36028797018963968. lia.
Qed.

Lemma scaled_opp m e : scaled (- m) e = - scaled m e.
Proof. unfold scaled. lia. Qed.

Lemma scaled_le_opp_lit m e :
  Z.abs m < 2 ^ 53 -> emin <= e <= emax ->
  (scaled m e <= - scaled 7205759403792794 (-55) <-> 5 * scaled m e <= - 2 ^ 1074).
Proof.
  intros Hm He.
  pose proof (scaled_ge_lit (- m) e) as Hx.
  rewrite Z.abs_opp in Hx. specialize (Hx Hm He).
  rewrite scaled_opp in Hx.
  revert Hx. generalize (2 ^ 1074) (scaled m e) (scaled 7205759403792794 (-55)). lia.
Qed.

Lemma Qle_lit_to_Q m e :
  (2 # 10 <= to_Q (Finite m e))%Q <-> 2 ^ 1074 <= 5 * scaled m e.
Proof.
  unfold Qle, to_Q. cbn [Qnum Qden]. rewrite Pos2Z.inj_pow.
  change (Z.pos 2) with 2. change (Z.pos 1074) with 1074. change (Z.pos 10) with 10.
  generalize (2 ^ 1074) (scaled m e). lia.
Qed.

Lemma Qle_to_Q_opp_lit m e :
  (to_Q (Finite m e) <= - (2 # 10))%Q <-> 5 * scaled m e <= - 2 ^ 1074.
Proof.
  unfold Qle, to_Q. cbn [Qnum Qden Qopp]. rewrite Pos2Z.inj_pow.
  change (Z.pos 2) with 2. change (Z.pos 1074) with 1074. change (Z.pos 10) with 10.
  generalize (2 ^ 1074) (scaled m e). lia.
Qed.

Lemma is_binary64_finite m e :
  is_binary64 (Finite m e) = true -> Z.abs m < 2 ^ 53 /\ emin <= e <= emax.
Proof.
  unfold is_binary64. rewrite !andb_true_iff, Z.ltb_lt, !Z.leb_le. tauto.
Qed.

(** C1. For every finite binary64 compound score [c], with [to_Q c] its
    real value: the label is "Positive" exactly when [c >= 0.2], "Negative"
    exactly when [c <= -0.2], and "Neutral" exactly when [-0.2 < c < 0.2];
    the floats written [0.2] and [-0.2] themselves are labelled "Positive"
    and "Negative". *)
Theorem categorize_thresholds (c : float) :
  is_binary64 c = true -> is_finite c = true ->
  (_categorize_sentiment c = "Positive" <-> (2 # 10 <= to_Q c)%Q) /\
  (_categorize_sentiment c = "Negative" <-> (to_Q c <= - (2 # 10))%Q) /\
  (_categorize_sentiment c = "Neutral"
   <-> (- (2 # 10) < to_Q c)%Q /\ (to_Q c < 2 # 10)%Q) /\
  _categorize_sentiment lit_0_2 = "Positive" /\
  _categorize_sentiment (float_neg lit_0_2) = "Negative".
Proof.
  intros Hb Hf. destruct c as [m e | | |]; try discriminate.
  apply is_binary64_finite in Hb as [Hm He].
  assert (Hboundary : _categorize_sentiment lit_0_2 = "Positive" /\
                      _categorize_sentiment (float_neg lit_0_2) = "Negative")
    by (split; vm_compute; reflexivity).
  revert Hboundary.
  unfold Qlt. rewrite Qle_lit_to_Q, Qle_to_Q_opp_lit.
  unfold to_Q. cbn [Qnum Qden Qopp]. rewrite Pos2Z.inj_pow.
  change (Z.pos 2) with 2. change (Z.pos 1074) with 1074. change (Z.pos 10) with 10.
  pose proof (scaled_ge_lit m e Hm He) as Hhi.
  pose proof (scaled_le_opp_lit m e Hm He) as Hlo.
  assert (HP : 0 < 2 ^ 1074) by (apply Z.pow_pos_nonneg; lia).
  generalize (_categorize_sentiment lit_0_2)
             (_categorize_sentiment (float_neg lit_0_2)).
  unfold _categorize_sentiment, float_ge, float_le, lit_0_2, float_neg.
  rewrite (scaled_opp 7205759403792794 (-55)).
  destruct (Z.leb_spec (scaled 7205759403792794 (-55)) (scaled m e)) as [H1 | H1];
    [| destruct (Z.leb_spec (scaled m e) (- scaled 7205759403792794 (-55)))
         as [H2 | H2]];
    revert Hhi Hlo H1 HP; try revert H2;
    generalize (2 ^ 1074) (scaled m e) (scaled 7205759403792794 (-55));
    intros; destruct Hboundary;
    (repeat split; intros; try discriminate; try reflexivity; try assumption;
     try (exfalso; lia); try lia).
Qed.

Lemma categorize_thresholds_witness :
  _categorize_sentiment lit_0_2 = "Positive" /\ (2 # 10 <= to_Q lit_0_2)%Q.
Proof.
  pose proof (categorize_thresholds lit_0_2 eq_refl eq_refl) as [Hpos _].
  split; [reflexivity |]. apply Hpos. reflexivity.
Defined.

(** Infinite scores and NaN: [inf] is "Positive", [-inf] is "Negative",
    NaN compares false with both thresholds. *)
Lemma categorize_non_finite :
  _categorize_sentiment PosInf = "Positive" /\
  _categorize_sentiment NegInf = "Negative" /\
  _categorize_sentiment NaN = "Neutral".
Proof. repeat split. Qed.

(** The floats next to the thresholds on the inside are "Neutral". *)
Example categorize_next_to_thresholds :
  _categorize_sentiment (Finite 7205759403792793 (-55)) = "Neutral" /\
  _categorize_sentiment (Finite (-7205759403792793) (-55)) = "Neutral".
Proof. split; vm_compute; reflexivity. Qed.

(** ** String methods *)

Section StringFacts.
Import Reference.

Lemma append_nil_r (s : string) : s +:+ "" = s.
Proof. induction s as [| c s IH]; simpl; [reflexivity | by rewrite IH]. Qed.

Lemma append_assoc (s t u : string) : (s +:+ t) +:+ u = s +:+ (t +:+ u).
Proof. induction s as [| c s IH]; simpl; [reflexivity | by rewrite IH]. Qed.

Lemma replace_char (c : ascii) (new s : string) :
  replace s (String c "") new = subst_char c new s.
Proof.
  unfold replace. induction s as [| a s IH]; simpl; [reflexivity |].
  destruct (Ascii.eqb c a); simpl; by rewrite IH.
Qed.

Lemma replace_quotes (s : string) :
  replace s DQ (DQ +:+ DQ) = double_quotes s.
Proof.
  unfold DQ. rewrite replace_char.
  induction s as [| a s IH]; cbn [subst_char double_quotes]; [reflexivity |].
  rewrite (Ascii.eqb_sym dquote a).
  destruct (Ascii.eqb a dquote); rewrite IH; reflexivity.
Qed.

Lemma replace_line_breaks (s : string) :
  replace (replace s NL " ") (String CR "") " " = blank_line_breaks s.
Proof.
  unfold NL. rewrite !replace_char.
  induction s as [| a s IH]; cbn [subst_char blank_line_breaks]; [reflexivity |].
  rewrite (Ascii.eqb_sym LF a).
  destruct (Ascii.eqb a LF) eqn:Hlf; cbn [subst_char String.append orb].
  - rewrite IH. reflexivity.
  - rewrite (Ascii.eqb_sym CR a).
    destruct (Ascii.eqb a CR); cbn [String.append]; rewrite IH; reflexivity.
Qed.

Lemma lstrip_drop_while (s : string) :
  list_ascii_of_string (lstrip s) = drop_while isspace (list_ascii_of_string s).
Proof.
  induction s as [| a s IH]; simpl; [reflexivity |].
  destruct (isspace a); [exact IH | reflexivity].
Qed.

Lemma drop_while_app {A} (P : A -> bool) (l1 l2 : list A) :
  drop_while P (l1 ++ l2)%list =
  match drop_while P l1 with
  | [] => drop_while P l2
  | r => (r ++ l2)%list
  end.
Proof.
  induction l1 as [| x l1 IH]; simpl; [reflexivity |].
  destruct (P x); [exact IH | reflexivity].
Qed.

Lemma rstrip_drop_while (s : string) :
  list_ascii_of_string (rstrip s)
  = List.rev (drop_while isspace (List.rev (list_ascii_of_string s))).
Proof.
  induction s as [| a s IH]; simpl; [reflexivity |].
  rewrite drop_while_app.
  destruct (drop_while isspace (List.rev (list_ascii_of_string s))) as [| x r] eqn:Hd.
  - simpl in IH. destruct (rstrip s) as [| b t]; [| discriminate IH].
    simpl. destruct (isspace a); reflexivity.
  - assert (Hne : rstrip s <> "").
    { intros Hs. rewrite Hs in IH. simpl in IH.
      apply (f_equal (@length ascii)) in IH. rewrite length_app in IH.
      simpl in IH. lia. }
    destruct (rstrip s) as [| b t] eqn:Hr; [congruence |].
    change (list_ascii_of_string (String a (String b t)))
      with (a :: list_ascii_of_string (String b t)).
    rewrite IH, List.rev_app_distr. reflexivity.
Qed.

(** [strip] trims the whitespace at both ends. *)
Lemma strip_trim (s : string) : strip s = trim s.
Proof.
  unfold strip, trim.
  rewrite <- lstrip_drop_while, <- rstrip_drop_while.
  by rewrite string_of_list_ascii_of_string.
Qed.

End StringFacts.

(** ** The csv writer, the separator count and the reader *)

Section CsvFacts.
Import Reference Csv.

Lemma separator_eq : separator = String dquote (String "," (String dquote "")).
Proof. reflexivity. Qed.

Lemma is_float_char_plain (a : ascii) :
  is_float_char a = true -> is_plain_char a = true.
Proof.
  destruct a as [[] [] [] [] [] [] [] []]; vm_compute; intros Ha;
    first [discriminate Ha | reflexivity].
Qed.

Lemma all_chars_impl (P Q : ascii -> bool) (s : string) :
  (forall a, P a = true -> Q a = true) ->
  all_chars P s = true -> all_chars Q s = true.
Proof.
  intros HPQ. induction s as [| a s IH]; cbn [all_chars]; [done |].
  rewrite !andb_true_iff. intros [Ha Hs]. auto.
Qed.

Lemma plain_char_inv (a : ascii) :
  is_plain_char a = true ->
  Ascii.eqb a dquote = false /\ Ascii.eqb a backslash = false /\
  Ascii.eqb a CR = false /\ Ascii.eqb a LF = false.
Proof.
  unfold is_plain_char, backslash.
  rewrite !andb_true_iff, !negb_true_iff. tauto.
Qed.

Lemma plain_cons (a : ascii) (s : string) :
  all_chars is_plain_char (String a s) = true ->
  (Ascii.eqb a dquote = false /\ Ascii.eqb a backslash = false /\
   Ascii.eqb a CR = false /\ Ascii.eqb a LF = false) /\
  all_chars is_plain_char s = true.
Proof.
  cbn [all_chars]. rewrite andb_true_iff. intros [Ha Hs].
  split; [by apply plain_char_inv | done].
Qed.

(** The writer copies a field without quotes and escape characters. *)
Lemma escape_plain (s : string) :
  all_chars is_plain_char s = true -> escape s = s.
Proof.
  induction s as [| a s IH]; [done |].
  intros [(Hq & Hb & _ & _) Hs]%plain_cons.
  cbn [escape]. rewrite Hq, Hb, IH by done. reflexivity.
Qed.

(** No occurrence of the separator starts inside a field without quotes. *)
Lemma count_plain (s t : string) :
  all_chars is_plain_char s = true ->
  count_from separator 0 (s +:+ t) = count_from separator 0 t.
Proof.
  induction s as [| a s IH]; [done |].
  intros [(Hq & _) Hs]%plain_cons.
  cbn [String.append count_from]. rewrite separator_eq at 1.
  cbn [startswith]. rewrite (Ascii.eqb_sym dquote a), Hq. auto.
Qed.

Lemma count_separator (t : string) :
  count_from separator 0 (separator +:+ t) = S (count_from separator 0 t).
Proof. reflexivity. Qed.

(** The reader copies a field without quotes. *)
Lemma read_row_plain (s t cur : string) (done : list string) :
  all_chars is_plain_char s = true ->
  read_row InField cur done (s +:+ t) = read_row InField (cur +:+ s) done t.
Proof.
  revert cur. induction s as [| a s IH]; intros cur.
  - by rewrite append_nil_r.
  - intros [(Hq & _) Hs]%plain_cons.
    cbn [String.append read_row]. rewrite Hq, IH by done.
    rewrite append_assoc. reflexivity.
Qed.

Lemma all_chars_app (P : ascii -> bool) (s t : string) :
  all_chars P (s +:+ t) = all_chars P s && all_chars P t.
Proof.
  induction s as [| a s IH]; cbn [String.append all_chars]; [done |].
  by rewrite IH, andb_assoc.
Qed.

Lemma plain_no_break (s : string) :
  all_chars is_plain_char s = true -> all_chars is_not_break s = true.
Proof.
  apply all_chars_impl. intros a (_ & _ & Hcr & Hlf)%plain_char_inv.
  unfold is_not_break. by rewrite Hcr, Hlf.
Qed.

Lemma no_break_cons (a : ascii) (s : string) :
  all_chars is_not_break (String a s) = true ->
  Ascii.eqb a CR = false /\ Ascii.eqb a LF = false /\
  all_chars is_not_break s = true.
Proof.
  cbn [all_chars]. unfold is_not_break at 1.
  rewrite !andb_true_iff, !negb_true_iff. tauto.
Qed.

(** Reading leaves a text without line breaks as it is. *)
Lemma universal_newlines_text (s t : string) :
  all_chars is_not_break s = true ->
  universal_newlines (s +:+ t) = s +:+ universal_newlines t.
Proof.
  induction s as [| a s IH]; [done |].
  intros (Hcr & _ & Hs)%no_break_cons.
  cbn [String.append universal_newlines]. rewrite Hcr, IH by done. reflexivity.
Qed.

(** A text without line breaks, followed by a line feed, is a line. *)
Lemma split_lines_line (s t : string) :
  all_chars is_not_break s = true ->
  split_lines (s +:+ String LF t) = (s +:+ NL) :: split_lines t.
Proof.
  induction s as [| a s IH]; intros Hs.
  - cbn [String.append split_lines]. rewrite Ascii.eqb_refl. reflexivity.
  - apply no_break_cons in Hs as (_ & Hlf & Hs).
    cbn [String.append split_lines]. rewrite Hlf, IH by done. reflexivity.
Qed.

(** The lines of a file of records without line breaks inside. *)
Lemma file_lines_record (s t : string) :
  all_chars is_not_break s = true ->
  file_lines (s +:+ CRLF +:+ t) = (s +:+ NL) :: file_lines t.
Proof.
  intros Hs. unfold file_lines. rewrite universal_newlines_text by done.
  change (universal_newlines (CRLF +:+ t)) with (String LF (universal_newlines t)).
  by rewrite split_lines_line.
Qed.

End CsvFacts.

(** ** Record lines: separators, reading back, validation *)

Section RecordFacts.
Import Reference Csv Examples.
Context `{PyRuntime}.

(** The text of a float has no character but digits, sign, point,
    exponent mark and the letters of [inf] and [nan]. *)
Hypothesis float_str_chars :
  forall x, all_chars is_float_char (float_str x) = true.

Lemma float_str_plain x : all_chars is_plain_char (float_str x) = true.
Proof.
  eapply all_chars_impl; [apply is_float_char_plain | apply float_str_chars].
Qed.

Lemma label_plain l : l ∈ labels -> all_chars is_plain_char l = true.
Proof.
  unfold labels. rewrite !elem_of_cons, elem_of_nil.
  intros [-> | [-> | [-> | []]]]; reflexivity.
Qed.

Lemma format_row6 (a b c d e f : value) :
  format_row [a; b; c; d; e; f] =
  DQ +:+ escape (field_text a) +:+ separator +:+ escape (field_text b)
  +:+ separator +:+ escape (field_text c) +:+ separator +:+ escape (field_text d)
  +:+ separator +:+ escape (field_text e) +:+ separator +:+ escape (field_text f)
  +:+ DQ +:+ CRLF.
Proof.
  unfold format_row, quote_field.
  cbn [fmap list_fmap String.concat compose].
  rewrite !append_assoc. reflexivity.
Qed.

Lemma record_row (h : string) (n u p c : float) (l : string) :
  l ∈ labels ->
  format_row [VStr h; VFloat n; VFloat u; VFloat p; VFloat c; VStr l] =
  record_body h n u p c l +:+ CRLF.
Proof.
  intros Hl. rewrite format_row6. cbn [field_text].
  rewrite !(escape_plain (float_str _)) by apply float_str_plain.
  rewrite (escape_plain l) by (by apply label_plain).
  unfold record_body. rewrite !append_assoc. reflexivity.
Qed.

Lemma header_row : header_line = header_body +:+ CRLF.
Proof. reflexivity. Qed.

(** The separators after the first field of a record. *)
Lemma count_after_headline (n u p c : float) (l tail : string) :
  l ∈ labels ->
  count_from separator 0
    (separator +:+ float_str n +:+ separator +:+ float_str u +:+ separator
     +:+ float_str p +:+ separator +:+ float_str c +:+ separator +:+ l +:+ tail)
  = (5 + count_from separator 0 tail)%nat.
Proof.
  intros Hl.
  do 4 rewrite count_separator, (count_plain (float_str _)) by apply float_str_plain.
  rewrite count_separator, (count_plain l) by (by apply label_plain).
  reflexivity.
Qed.

(** The separators of a record line, given the [k] of its first field. *)
Lemma record_count (k : nat) (h : string) (n u p c : float) (l tail : string) :
  l ∈ labels ->
  (forall rest, count_from separator 0 (DQ +:+ escape h +:+ separator +:+ rest)
                = (k + count_from separator 0 (separator +:+ rest))%nat) ->
  count (record_body h n u p c l +:+ tail) separator
  = (k + 5 + count_from separator 0 (DQ +:+ tail))%nat.
Proof.
  intros Hl Hh. unfold count, record_body. rewrite !append_assoc, Hh.
  rewrite count_after_headline by done. lia.
Qed.

Lemma read_row_separator (cur rest : string) (done : list string) :
  read_row InField cur done (separator +:+ rest)
  = read_row InField "" (done ++ [cur]) rest.
Proof. reflexivity. Qed.

(** The reader on a record line, given how it reads the first field. *)
Lemma record_parse (h h' : string) (n u p c : float) (l : string) :
  l ∈ labels ->
  (forall rest done, read_row InField "" done (escape h +:+ separator +:+ rest)
                     = read_row InField "" (done ++ [h']) rest) ->
  parse_row (record_body h n u p c l +:+ CRLF)
  = Some [h'; float_str n; float_str u; float_str p; float_str c; l].
Proof.
  intros Hl Hh. unfold parse_row, record_body. rewrite !append_assoc.
  change (read_row FieldStart "" [] (DQ +:+ ?s)) with (read_row InField "" [] s).
  rewrite Hh.
  do 4 rewrite (read_row_plain (float_str _)), read_row_separator
    by apply float_str_plain.
  rewrite (read_row_plain l) by (by apply label_plain).
  reflexivity.
Qed.

Lemma record_body_no_break (h : string) (n u p c : float) (l : string) :
  l ∈ labels -> all_chars is_not_break (escape h) = true ->
  all_chars is_not_break (record_body h n u p c l) = true.
Proof.
  intros Hl Hh. unfold record_body.
  rewrite !all_chars_app, Hh.
  rewrite !(plain_no_break (float_str _)) by apply float_str_plain.
  rewrite (plain_no_break l) by (by apply label_plain). reflexivity.
Qed.

Lemma file_lines_last (s : string) :
  all_chars is_not_break s = true -> file_lines (s +:+ CRLF) = [s +:+ NL].
Proof.
  intros Hs. rewrite <- (append_nil_r CRLF). by rewrite file_lines_record.
Qed.

(** The lines of a backup file with one record. *)
Lemma file_lines_one_record (h : string) (n u p c : float) (l : string) :
  l ∈ labels -> all_chars is_not_break (escape h) = true ->
  file_lines (header_line +:+
              format_row [VStr h; VFloat n; VFloat u; VFloat p; VFloat c; VStr l])
  = [header_body +:+ NL; record_body h n u p c l +:+ NL].
Proof.
  intros Hl Hh. rewrite record_row, header_row, append_assoc by done.
  rewrite file_lines_record by reflexivity.
  by rewrite file_lines_last by (by apply record_body_no_break).
Qed.

Lemma validate_run (ev : env) (path content : string) (w : world) :
  open_r_error ev = None -> files w !! path = Some content ->
  _validate_csv ev path w = check_lines 1 (file_lines content) w.
Proof.
  intros Herr Hfile. unfold _validate_csv, open_read, mbind, M_bind, may_fail.
  rewrite Herr. cbn. rewrite Hfile. reflexivity.
Qed.

Lemma check_lines_ok (lines : list string) (i : nat) (w : world) :
  Forall (fun l => count l separator = 5%nat) lines ->
  check_lines i lines w = (Return true, w).
Proof.
  intros Hall. revert i. induction Hall as [| l ls Hl _ IH]; intros i; [done |].
  cbn [check_lines]. rewrite Hl. cbn. apply IH.
Qed.

(** C3. The cleaning doubles every double quote, then turns every line
    feed and carriage return into a space, then trims the whitespace at
    both ends; the headline [He said "hi"], line feed, [there] is
    cleaned to the same text with both quotes doubled and a space for the
    line feed; and the line written for a record
    with that cleaned headline, any four scores and any of the three
    labels has exactly 5 separators, so a backup file made of the header
    and that line passes validation. *)
Theorem clean_headline_example :
  (forall s, _clean_headline (VStr s) = trim (blank_line_breaks (double_quotes s))) /\
  _clean_headline (VStr said_hi) = said_hi_clean /\
  forall (n u p c : float) (l : string), l ∈ labels ->
    let line := format_row [VStr said_hi_clean; VFloat n; VFloat u; VFloat p;
                            VFloat c; VStr l] in
    count line separator = 5%nat /\
    forall (ev : env) (path : string) (w : world),
      open_r_error ev = None ->
      files w !! path = Some (header_line +:+ line) ->
      _validate_csv ev path w = (Return true, w).
Proof.
  split; [| split].
  - intros s. unfold _clean_headline. cbn [str].
    by rewrite replace_quotes, replace_line_breaks, strip_trim.
  - reflexivity.
  - intros n u p c l Hl line.
    assert (Hh : forall rest,
               count_from separator 0
                 (DQ +:+ escape said_hi_clean +:+ separator +:+ rest)
               = (0 + count_from separator 0 (separator +:+ rest))%nat)
      by reflexivity.
    split.
    + subst line. rewrite record_row by done. by rewrite (record_count 0).
    + intros ev path w Herr Hfile.
      rewrite (validate_run ev path _ w Herr Hfile).
      apply check_lines_ok. subst line.
      rewrite file_lines_one_record by done.
      repeat constructor. by rewrite (record_count 0).
Qed.

(** C4. The headline [He said "yes","no"] is cleaned to a text that
    contains the separator sequence; the line written for a record with
    it reads back, as a row of quoted fields, into exactly the six fields
    that were written; yet the line has more than 5 separators, and a
    backup file made of the header and that line fails validation. *)
Theorem validation_rejects_well_formed_row :
  exists h : string,
    let cleaned := _clean_headline (VStr h) in
    contains separator cleaned = true /\
    forall (n u p c : float) (l : string), l ∈ labels ->
      let line := format_row [VStr cleaned; VFloat n; VFloat u; VFloat p;
                              VFloat c; VStr l] in
      parse_row line
      = Some [cleaned; float_str n; float_str u; float_str p; float_str c; l] /\
      (5 < count line separator)%nat /\
      forall (ev : env) (path : string) (w : world),
        open_r_error ev = None ->
        files w !! path = Some (header_line +:+ line) ->
        exists w', _validate_csv ev path w = (Return false, w').
Proof.
  exists yes_no. cbn zeta.
  change (_clean_headline (VStr yes_no)) with yes_no_clean.
  split; [reflexivity |].
  intros n u p c l Hl.
  assert (Hcount : forall rest,
             count_from separator 0
               (DQ +:+ escape yes_no_clean +:+ separator +:+ rest)
             = (1 + count_from separator 0 (separator +:+ rest))%nat)
    by reflexivity.
  assert (Hread : forall rest done,
             read_row InField "" done (escape yes_no_clean +:+ separator +:+ rest)
             = read_row InField "" (done ++ [yes_no_clean]) rest)
    by reflexivity.
  rewrite record_row by done. split; [| split].
  - by apply record_parse.
  - rewrite (record_count 1) by done. lia.
  - intros ev path w Herr Hfile. rewrite <- record_row in Hfile by done.
    rewrite (validate_run ev path _ w Herr Hfile).
    rewrite file_lines_one_record by done.
    cbn [check_lines].
    change (count (header_body +:+ NL) separator) with 5%nat.
    rewrite (record_count 1) by done.
    change (count_from separator 0 (DQ +:+ NL)) with 0%nat.
    cbn [Nat.add Nat.eqb negb]. eexists. reflexivity.
Qed.

End RecordFacts.

(** ** The runtime of the examples *)

Section SampleFacts.
Import Sample Reference.

Lemma digit_char (d : Z) : 0 <= d < 10 -> is_float_char (digit d) = true.
Proof.
  intros Hd.
  assert (Hcases : d = 0 \/ d = 1 \/ d = 2 \/ d = 3 \/ d = 4 \/ d = 5 \/ d = 6
                   \/ d = 7 \/ d = 8 \/ d = 9) by lia.
  repeat (destruct Hcases as [-> | Hcases]; [reflexivity |]). by subst.
Qed.

Lemma int_digits_chars (fuel : nat) (n : Z) (acc : string) :
  all_chars is_float_char acc = true ->
  all_chars is_float_char (int_digits fuel n acc) = true.
Proof.
  revert n acc. induction fuel as [| fuel IH]; intros n acc Hacc; [done |].
  cbn [int_digits].
  assert (Hacc' : all_chars is_float_char (String (digit (n mod 10)) acc) = true).
  { cbn [all_chars]. rewrite Hacc, digit_char; [done |].
    apply Z.mod_pos_bound. lia. }
  destruct (n <? 10); [done | by apply IH].
Qed.

Lemma frac_digits_chars (fuel : nat) (num den : Z) :
  0 <= num < den ->
  all_chars is_float_char (frac_digits fuel num den) = true.
Proof.
  revert num. induction fuel as [| fuel IH]; intros num Hnum; [done |].
  cbn [frac_digits]. destruct (num =? 0); [done |].
  cbn [all_chars]. rewrite IH by (apply Z.mod_pos_bound; lia).
  rewrite digit_char; [done |].
  split; [apply Z.div_pos; lia | apply Z.div_lt_upper_bound; lia].
Qed.

Lemma decimal_str_chars (x : float) :
  all_chars is_float_char (decimal_str x) = true.
Proof.
  destruct x as [m e | | |]; try reflexivity.
  unfold decimal_str.
  assert (Hsign : all_chars is_float_char (if m <? 0 then "-" else "") = true)
    by (destruct (m <? 0); reflexivity).
  destruct (0 <=? e) eqn:He.
  - rewrite !all_chars_app, Hsign. unfold int_str.
    rewrite int_digits_chars by done. reflexivity.
  - apply Z.leb_gt in He.
    rewrite !all_chars_app, Hsign. unfold int_str.
    rewrite int_digits_chars by done.
    assert (Hden : 0 < 2 ^ (- e)) by (apply Z.pow_pos_nonneg; lia).
    pose proof (frac_digits_chars (Z.to_nat (- e)) (Z.abs m mod 2 ^ (- e)) (2 ^ (- e))
                  (Z.mod_pos_bound _ _ Hden)) as Hfrac.
    destruct (String.eqb _ ""); [reflexivity |].
    rewrite Hfrac. reflexivity.
Qed.
End SampleFacts.

(** ** Reasoning about computations *)

Section MonadFacts.

Lemma bind_run {A B} (m : M A) (f : A -> M B) (w : world) :
  (m ≫= f) w = match m w with
               | (Return a, w') => f a w'
               | (Raise e, w') => (Raise e, w')
               end.
Proof. reflexivity. Qed.

Lemma bind_return {A B} (m : M A) (f : A -> M B) (w w' : world) (a : A) :
  m w = (Return a, w') -> (m ≫= f) w = f a w'.
Proof. intros Hm. by rewrite bind_run, Hm. Qed.

Lemma bind_raise {A B} (m : M A) (f : A -> M B) (w w' : world) (e : exn) :
  m w = (Raise e, w') -> (m ≫= f) w = (Raise e, w').
Proof. intros Hm. by rewrite bind_run, Hm. Qed.

Lemma hoare_conseq {A} (P P' : world -> Prop) (m : M A)
    (Q Q' : outcome A -> world -> Prop) :
  hoare P' m Q' -> (forall w, P w -> P' w) -> (forall r w, Q' r w -> Q r w) ->
  hoare P m Q.
Proof. intros Hm HP HQ w r w' Hw Hrun. eauto. Qed.

Lemma hoare_ret {A} (P : world -> Prop) (a : A) (Q : outcome A -> world -> Prop) :
  (forall w, P w -> Q (Return a) w) -> hoare P (mret a) Q.
Proof. intros HQ w r w' Hw [= <- <-]. auto. Qed.

Lemma hoare_raise {A} (P : world -> Prop) (e : exn) (Q : outcome A -> world -> Prop) :
  (forall w, P w -> Q (Raise e) w) -> hoare P (raise e) Q.
Proof. intros HQ w r w' Hw [= <- <-]. auto. Qed.

Lemma hoare_bind {A B} (P : world -> Prop) (m : M A) (f : A -> M B)
    (R : A -> world -> Prop) (Q : outcome B -> world -> Prop) :
  hoare P m (fun r w => match r with
                        | Return a => R a w
                        | Raise e => Q (Raise e) w
                        end) ->
  (forall a, hoare (R a) (f a) Q) ->
  hoare P (m ≫= f) Q.
Proof.
  intros Hm Hf w r w' Hw. rewrite bind_run.
  destruct (m w) as [[a | e] w1] eqn:Hrun; specialize (Hm _ _ _ Hw Hrun).
  - intros Hrun'. exact (Hf a w1 r w' Hm Hrun').
  - intros [= <- <-]. exact Hm.
Qed.

Lemma hoare_try {A} (P : world -> Prop) (body : M A) (handler : exn -> M A)
    (R : exn -> world -> Prop) (Q : outcome A -> world -> Prop) :
  hoare P body (fun r w => match r with
                           | Return a => Q (Return a) w
                           | Raise e => if is_Exception (exn_cls e) then R e w
                                        else Q (Raise e) w
                           end) ->
  (forall e, hoare (R e) (handler e) Q) ->
  hoare P (try_except body handler) Q.
Proof.
  intros Hb Hh w r w' Hw. unfold try_except.
  destruct (body w) as [[a | e] w1] eqn:Hrun; specialize (Hb _ _ _ Hw Hrun).
  - intros [= <- <-]. exact Hb.
  - simpl in Hb. destruct (is_Exception (exn_cls e)).
    + intros Hrun'. exact (Hh e w1 r w' Hb Hrun').
    + intros [= <- <-]. exact Hb.
Qed.

(** *** Properties of the world that a computation keeps *)

Lemma keeps_ret {A} (P : world -> Prop) (a : A) : keeps P (mret a).
Proof. apply hoare_ret. auto. Qed.

Lemma keeps_raise {A} (P : world -> Prop) (e : exn) : keeps P (@raise A e).
Proof. apply hoare_raise. auto. Qed.

Lemma keeps_bind {A B} (P : world -> Prop) (m : M A) (f : A -> M B) :
  keeps P m -> (forall a, keeps P (f a)) -> keeps P (m ≫= f).
Proof.
  intros Hm Hf. eapply hoare_bind; [| exact Hf].
  eapply hoare_conseq; [exact Hm | auto |]. intros [a | e] w; auto.
Qed.

Lemma keeps_try {A} (P : world -> Prop) (body : M A) (handler : exn -> M A) :
  keeps P body -> (forall e, keeps P (handler e)) ->
  keeps P (try_except body handler).
Proof.
  intros Hb Hh. eapply hoare_try with (R := fun _ => P); [| exact Hh].
  eapply hoare_conseq; [exact Hb | auto |].
  intros [a | e] w; simpl; auto. destruct (is_Exception _); auto.
Qed.

Lemma keeps_may_fail (P : world -> Prop) (err : option exn) :
  keeps P (may_fail err).
Proof. destruct err; [apply keeps_raise | apply keeps_ret]. Qed.

Lemma keeps_modify (P : world -> Prop) (f : world -> world) :
  (forall w, P w -> P (f w)) -> keeps P (modify f).
Proof. intros Hf w r w' Hw [= <- <-]. auto. Qed.

Lemma keeps_get_world (P : world -> Prop) : keeps P get_world.
Proof. intros w r w' Hw [= <- <-]. auto. Qed.

Lemma keeps_for_each {A} (P : world -> Prop) (xs : list A) (body : A -> M unit) :
  (forall x, keeps P (body x)) -> keeps P (for_each xs body).
Proof.
  intros Hbody. induction xs as [| x xs IH]; cbn [for_each].
  - apply keeps_ret.
  - apply keeps_bind; auto.
Qed.

Lemma keeps_or_key_error {A} (P : world -> Prop) (name : string) (o : option A) :
  keeps P (or_key_error name o).
Proof. destruct o; [apply keeps_ret | apply keeps_raise]. Qed.

Lemma keeps_deref (P : world -> Prop) (df : loc) : keeps P (deref df).
Proof.
  intros w r w' Hw. unfold deref. destruct (frames w !! df); intros [= <- <-]; auto.
Qed.

Lemma keeps_check_lines (P : world -> Prop) (i : nat) (lines : list string) :
  (forall w f, P w -> P (set_stdout f w)) -> keeps P (check_lines i lines).
Proof.
  intros HP. revert i. induction lines as [| l ls IH]; intros i; cbn [check_lines].
  - apply keeps_ret.
  - destruct (negb _); [| apply IH].
    apply keeps_bind; [| intros; apply keeps_ret].
    apply keeps_modify. auto.
Qed.

End MonadFacts.

(** Decomposes a goal [keeps P m] along the structure of [m]; what is left
    are the updates of the world. *)
Ltac keeps_step :=
  first
    [ apply keeps_bind; [| intros ?]
    | apply keeps_ret
    | apply keeps_raise
    | apply keeps_may_fail
    | apply keeps_get_world
    | apply keeps_or_key_error
    | apply keeps_deref
    | apply keeps_try; [| intros ?]
    | apply keeps_for_each; intros ?
    | apply keeps_check_lines; intros ? ? ?
    | apply keeps_modify; intros ? ?
    | match goal with
      | |- keeps _ (if ?b then _ else _) => destruct b
      | |- keeps _ (match ?o with Some _ => _ | None => _ end) => destruct o
      end ].

Section TableFacts.

Lemma index_of_lt (name : string) (cols : list string) (i : nat) :
  index_of name cols = Some i -> (i < length cols)%nat.
Proof.
  revert i. induction cols as [| c cols IH]; intros i; cbn [index_of]; [done |].
  destruct (String.eqb c name).
  - intros [= <-]. simpl. lia.
  - destruct (index_of name cols) as [j |]; [| done].
    intros [= <-]. specialize (IH j eq_refl). simpl. lia.
Qed.

Lemma column_length (t : DataFrame) (name : string) (col : list value) :
  column t name = Some col -> length col = length (rows t).
Proof.
  unfold column. destruct (index_of name (columns t)); [| done].
  intros [= <-]. by rewrite length_fmap.
Qed.

Lemma cells_zip_insert (i n : nat) (rs : list (list value)) (vals : list value) :
  (i < n)%nat -> Forall (fun r => length r = n) rs -> length vals = length rs ->
  (fun r => cell r i) <$> zip_with (fun r v => <[i := v]> r) rs vals = vals.
Proof.
  intros Hi Hrs. revert vals.
  induction Hrs as [| r rs Hr _ IH]; intros [| v vals] Hlen; try done.
  cbn [zip_with fmap list_fmap]. rewrite <- (IH vals) at 2 by (simpl in Hlen; lia).
  f_equal. unfold cell. by rewrite list_lookup_insert_eq by lia.
Qed.

Lemma zip_insert_twice (i : nat) (rs : list (list value)) (v1 v2 : list value) :
  length v1 = length rs ->
  zip_with (fun r v => <[i := v]> r) (zip_with (fun r v => <[i := v]> r) rs v1) v2
  = zip_with (fun r v => <[i := v]> r) rs v2.
Proof.
  revert v1 v2. induction rs as [| r rs IH]; intros [| a v1] [| b v2] Hlen;
    try done.
  cbn [zip_with]. rewrite list_insert_insert_eq, IH by (simpl in Hlen; lia).
  reflexivity.
Qed.

(** Reading back the column that was assigned. *)
Lemma column_set_column (t : DataFrame) (name : string) (col vals : list value) :
  rectangular t -> column t name = Some col -> length vals = length (rows t) ->
  column (set_column t name vals) name = Some vals.
Proof.
  intros Hrect Hcol Hlen. unfold column, set_column in *.
  destruct (index_of name (columns t)) as [i |] eqn:Hi; [| done].
  cbn [columns rows]. rewrite Hi. cbn. f_equal.
  apply (cells_zip_insert i (length (columns t)));
    [by eapply index_of_lt | exact Hrect | exact Hlen].
Qed.

(** Assigning a column twice is assigning the second value. *)
Lemma set_column_twice (t : DataFrame) (name : string) (col v1 v2 : list value) :
  column t name = Some col -> length v1 = length (rows t) ->
  set_column (set_column t name v1) name v2 = set_column t name v2.
Proof.
  intros Hcol Hlen. unfold column, set_column in *.
  destruct (index_of name (columns t)) as [i |] eqn:Hi; [| done].
  cbn [columns rows]. rewrite Hi. by rewrite zip_insert_twice.
Qed.

End TableFacts.

Section QuoteFacts.
Import Reference.

Lemma occ_double_quotes (s : string) :
  occ dquote (double_quotes s) = (2 * occ dquote s)%nat.
Proof.
  induction s as [| a s IH]; [done |].
  cbn [double_quotes occ]. destruct (Ascii.eqb a dquote) eqn:Ha.
  - cbn [occ]. rewrite Ascii.eqb_refl, IH. lia.
  - cbn [occ]. rewrite Ha, IH. lia.
Qed.

Lemma occ_blank_line_breaks (s : string) :
  occ dquote (blank_line_breaks s) = occ dquote s.
Proof.
  induction s as [| a s IH]; [done |].
  cbn [blank_line_breaks occ]. rewrite IH. f_equal.
  destruct (Ascii.eqb a LF) eqn:Hlf; [apply Ascii.eqb_eq in Hlf as ->; reflexivity |].
  destruct (Ascii.eqb a CR) eqn:Hcr; [apply Ascii.eqb_eq in Hcr as ->; reflexivity |].
  reflexivity.
Qed.

Lemma space_not_quote (a : ascii) : isspace a = true -> Ascii.eqb a dquote = false.
Proof.
  intros Ha. destruct (Ascii.eqb a dquote) eqn:Hq; [| done].
  apply Ascii.eqb_eq in Hq as ->. discriminate Ha.
Qed.

Lemma occ_lstrip (s : string) : occ dquote (lstrip s) = occ dquote s.
Proof.
  induction s as [| a s IH]; [done |].
  cbn [lstrip]. destruct (isspace a) eqn:Ha; [| done].
  cbn [occ]. by rewrite IH, space_not_quote.
Qed.

Lemma occ_rstrip (s : string) : occ dquote (rstrip s) = occ dquote s.
Proof.
  induction s as [| a s IH]; [done |].
  cbn [rstrip occ]. rewrite <- IH.
  destruct (rstrip s) as [| b r]; [| done].
  destruct (isspace a) eqn:Ha; cbn [occ]; [by rewrite space_not_quote | lia].
Qed.

(** Cleaning doubles the number of double quotes of a headline. *)
Lemma clean_doubles_quotes `{PyRuntime} (s : string) :
  occ dquote (_clean_headline (VStr s)) = (2 * occ dquote s)%nat.
Proof.
  unfold _clean_headline, strip. cbn [str].
  rewrite replace_quotes, replace_line_breaks.
  by rewrite occ_rstrip, occ_lstrip, occ_blank_line_breaks, occ_double_quotes.
Qed.
End QuoteFacts.

Section Frames.
Context `{PyRuntime}.
Implicit Types ev : env.

(** After the assignment to the column, nothing touches the DataFrame. *)
Lemma validate_keeps_frames ev (F : gmap loc DataFrame) (path : string) :
  keeps (fun w => frames w = F) (_validate_csv ev path).
Proof.
  unfold _validate_csv, open_read. repeat keeps_step; assumption.
Qed.

Lemma save_locally_rest_keeps_frames ev (F : gmap loc DataFrame) (df : loc)
    (local_path : string) :
  keeps (fun w => frames w = F)
    (open_w ev local_path ;;
     file_write local_path header_line ;;
     t ← deref df;
     for_each (rows t) (fun row =>
       fields ← row_fields t row;
       file_write local_path (Csv.format_row fields)) ;;
     print ("Local backup saved to: " +:+ local_path) ;;
     mret local_path).
Proof.
  unfold open_w, file_write, row_fields, print, print_end.
  repeat keeps_step; assumption.
Qed.

(** [_save_locally] leaves the cleaned table at [df], however it ends. *)
Lemma save_locally_frames ev (df : loc) (filename : string) (t : DataFrame)
    (col : list value) (w w1 : world) (r : outcome string) :
  frames w !! df = Some t -> column t "headline" = Some col ->
  _save_locally ev df filename w = (r, w1) ->
  frames w1
  = <[df := set_column t "headline" (VStr ∘ _clean_headline <$> col)]> (frames w).
Proof.
  intros Hframe Hcol. unfold _save_locally.
  rewrite (bind_return (deref df) _ w w t)
    by (unfold deref; by rewrite Hframe).
  rewrite (bind_return (or_key_error _ _) _ w w col) by (by rewrite Hcol).
  rewrite (bind_return (assign _ _) _ w _ tt) by reflexivity.
  intros Hrun.
  eapply (save_locally_rest_keeps_frames ev _ df); [| exact Hrun]. reflexivity.
Qed.

Lemma after_save_locally_keeps_frames ev (F : gmap loc DataFrame)
    (filename local_path : string) :
  keeps (fun w => frames w = F)
    (valid ← _validate_csv ev local_path;
     (if negb valid
      then raise {| exn_cls := ValueError;
                    exn_msg := "CSV validation failed - incorrect column count" |}
      else mret tt) ;;
     may_fail (connect_error ev) ;;
     present ← sdk_exists ev container_name;
     (if negb present then sdk_create_container ev container_name else mret tt) ;;
     data ← open_read (open_rb_error ev) local_path;
     sdk_upload_blob ev container_name filename data ;;
     print ("Successfully uploaded validated file: " +:+ filename) ;;
     mret true).
Proof.
  unfold _validate_csv, open_read, sdk_exists, sdk_create_container,
    sdk_upload_blob, print, print_end.
  repeat keeps_step; assumption.
Qed.

(** [save_to_blob] leaves the cleaned table at [df], however it ends. *)
Lemma save_frames ev (df : loc) (t : DataFrame) (col : list value)
    (w w1 : world) (r : outcome bool) :
  frames w !! df = Some t -> column t "headline" = Some col ->
  save_to_blob ev df w = (r, w1) ->
  frames w1
  = <[df := set_column t "headline" (VStr ∘ _clean_headline <$> col)]> (frames w).
Proof.
  intros Hframe Hcol. revert r w1.
  set (F := <[df := _]> (frames w)).
  assert (Hgoal : hoare (fun w0 => w0 = w) (save_to_blob ev df)
                    (fun _ w1 => frames w1 = F)); [| intros r w1; by apply Hgoal].
  unfold save_to_blob.
  apply hoare_try with (R := fun _ w0 => frames w0 = F).
  - unfold save_steps.
    apply hoare_bind with (R := fun _ w0 => frames w0 = F).
    + intros w0 r w1 -> Hrun.
      pose proof (save_locally_frames _ _ _ _ _ _ _ _ Hframe Hcol Hrun) as HF.
      destruct r as [a | e]; [done |]. by destruct (is_Exception _).
    + intros path. eapply hoare_conseq;
        [apply (after_save_locally_keeps_frames ev F) | done |].
      intros [a | e] w0 Hw0; [done |]. by destruct (is_Exception _).
  - intros e. unfold print, print_end. repeat keeps_step; assumption.
Qed.

(** C10. [save_to_blob] assigns to the caller's table: whatever the
    outcome of a call on a table with a headline column, the table then
    holds the cleaned headlines in that column; a second call cleans the
    cleaned headlines again, so that a headline with [q] double quotes
    has [2 * q] of them after one call and [4 * q] after two. *)
Theorem save_cleans_in_place (ev ev' : env) (df : loc) (t : DataFrame)
    (col : list value) (w w1 w2 : world) (r r' : outcome bool) :
  frames w !! df = Some t -> rectangular t -> column t "headline" = Some col ->
  save_to_blob ev df w = (r, w1) ->
  save_to_blob ev' df w1 = (r', w2) ->
  let once := VStr ∘ _clean_headline <$> col in
  let twice := VStr ∘ _clean_headline <$> once in
  frames w1 !! df = Some (set_column t "headline" once) /\
  column (set_column t "headline" once) "headline" = Some once /\
  frames w2 !! df = Some (set_column t "headline" twice) /\
  column (set_column t "headline" twice) "headline" = Some twice /\
  forall s, occ dquote (_clean_headline (VStr s)) = (2 * occ dquote s)%nat /\
            occ dquote (_clean_headline (VStr (_clean_headline (VStr s))))
            = (4 * occ dquote s)%nat.
Proof.
  intros Hframe Hrect Hcol Hrun1 Hrun2 once twice.
  pose proof (column_length _ _ _ Hcol) as Hlen.
  assert (Hlen1 : length once = length (rows t))
    by (subst once; by rewrite length_fmap).
  assert (Hlen2 : length twice = length (rows t))
    by (subst twice; by rewrite length_fmap).
  pose proof (save_frames _ _ _ _ _ _ _ Hframe Hcol Hrun1) as HF1.
  assert (H1 : frames w1 !! df = Some (set_column t "headline" once))
    by (rewrite HF1; apply lookup_insert_eq).
  assert (Hc1 : column (set_column t "headline" once) "headline" = Some once)
    by (by eapply column_set_column).
  split; [done |]. split; [done |]. split; [| split].
  - pose proof (save_frames _ _ _ _ _ _ _ H1 Hc1 Hrun2) as HF2.
    rewrite HF2, lookup_insert_eq. f_equal. by eapply set_column_twice.
  - by eapply column_set_column.
  - intros s. rewrite !clean_doubles_quotes. lia.
Qed.
End Frames.

(** ** Fetching *)

Section Fetch.
Context (ev : env).

(** The loop adds every title to the set, prints, and ends as the
    listing ends. *)
Lemma collect_run (titles : list string) (err : option exn)
    (headlines : gset string) (w : world) :
  exists out,
    collect titles err headlines w
    = (match err with
       | Some e => Raise e
       | None => Return (list_to_set titles ∪ headlines)
       end,
       set_stdout (fun o => (o ++ out)%list) w).
Proof.
  revert headlines w. induction titles as [| t titles IH]; intros headlines w.
  - exists []. cbn [collect].
    assert (Hw : set_stdout (fun o => (o ++ [])%list) w = w)
      by (destruct w; unfold set_stdout; simpl; f_equal; apply app_nil_r).
    rewrite Hw, bind_run. destruct err as [e |]; cbn [may_fail].
    + reflexivity.
    + cbn. rewrite (left_id_L ∅ (∪)). reflexivity.
  - cbn [collect]. rewrite bind_run. unfold print_end, modify. cbn beta iota.
    match goal with
    | |- context [collect titles err ?h ?w'] => destruct (IH h w') as [out Hout]
    end.
    eexists (_ :: out). rewrite Hout. f_equal.
    + destruct err; [done |]. f_equal. rewrite list_to_set_cons.
      rewrite (comm_L (∪) {[t]} (list_to_set titles)).
      by rewrite <- (assoc_L (∪)).
    + destruct w; unfold set_stdout; simpl; f_equal.
      rewrite <- app_assoc. reflexivity.
Qed.

Lemma fetch_headlines_run (subreddit : string) (limit : Z) (w : world) :
  exists out,
    fetch_headlines ev subreddit limit w
    = match reddit_new ev subreddit limit with
      | (titles, None) =>
          (Return (elements (list_to_set titles : gset string)),
           set_stdout (fun o => (o ++ out)%list) w)
      | (titles, Some e) =>
          if is_Exception (exn_cls e)
          then (Return [],
                set_stdout (fun o => ((o ++ out) ++ [fetch_error e +:+ NL])%list) w)
          else (Raise e, set_stdout (fun o => (o ++ out)%list) w)
      end.
Proof.
  unfold fetch_headlines, try_except.
  destruct (reddit_new ev subreddit limit) as [titles err].
  destruct (collect_run titles err ∅ w) as [out Hout].
  exists out. rewrite bind_run, Hout.
  destruct err as [e |].
  - destruct (is_Exception (exn_cls e)); [| done].
    cbn. unfold print, print_end, modify, mret, M_ret. cbn. f_equal.
  - cbn. unfold mret, M_ret. do 3 f_equal. apply (right_id_L ∅ (∪)).
Qed.

(** C6. When the listing ends with an error that is an instance of
    [Exception] (every transport and authentication error is one),
    [fetch_headlines] returns the empty list, whatever was collected
    before, and raises nothing; the error is logged: the last output is a
    line break, the text [Error fetching headlines: ], what [str] gives
    for the error and the line break of [print]; the value returned is
    the one returned for a listing that is empty. *)
Theorem fetch_fails_soft (subreddit : string) (limit : Z) (w : world)
    (titles : list string) (e : exn) :
  reddit_new ev subreddit limit = (titles, Some e) ->
  is_Exception (exn_cls e) = true ->
  (exists w', fetch_headlines ev subreddit limit w = (Return [], w') /\
              last (stdout w')
              = Some (NL +:+ "Error fetching headlines: " +:+ exn_msg e +:+ NL)) /\
  forall ev0, reddit_new ev0 subreddit limit = ([], None) ->
    fst (fetch_headlines ev0 subreddit limit w)
    = fst (fetch_headlines ev subreddit limit w).
Proof.
  intros Hlist Hexc.
  destruct (fetch_headlines_run subreddit limit w) as [out Hrun].
  rewrite Hlist, Hexc in Hrun. split.
  - eexists. split; [exact Hrun |]. cbn [stdout set_stdout].
    rewrite last_snoc. reflexivity.
  - intros ev0 Hempty. rewrite Hrun. cbn.
    unfold fetch_headlines, try_except. rewrite Hempty. reflexivity.
Qed.

(** C7. When the listing ends normally, [fetch_headlines] returns a list
    without duplicates whose members are exactly the titles listed. *)
Theorem fetch_deduplicates (subreddit : string) (limit : Z) (w : world)
    (titles : list string) :
  reddit_new ev subreddit limit = (titles, None) ->
  exists (l : list string) (w' : world),
    fetch_headlines ev subreddit limit w = (Return l, w') /\
    NoDup l /\
    forall t, t ∈ l <-> t ∈ titles.
Proof.
  intros Hlist.
  destruct (fetch_headlines_run subreddit limit w) as [out Hrun].
  rewrite Hlist in Hrun.
  eexists _, _. split; [exact Hrun |]. split.
  - apply NoDup_elements.
  - intros t. by rewrite elem_of_elements, elem_of_list_to_set.
Qed.
End Fetch.

(** ** Scoring *)

Section ScorerFacts.
Context `{Analyzer}.

Lemma score_keys (records : list dict) (seen : list string) :
  seen = required_columns ->
  Forall (fun d => fst <$> d = required_columns) records ->
  foldl (fun seen d => add_keys seen (fst <$> d)) seen records = required_columns.
Proof.
  intros -> Hall. induction Hall as [| d ds Hd _ IH]; [done |].
  cbn [foldl]. rewrite Hd. exact IH.
Qed.

Lemma analyze_sentiment_table (h : string) (hs : list string) :
  analyze_sentiment (h :: hs)
  = {| columns := required_columns; rows := score_row <$> (h :: hs) |}.
Proof.
  unfold analyze_sentiment, from_records.
  assert (Hcols : foldl (fun seen d => add_keys seen (fst <$> d)) []
                    (score_record <$> (h :: hs)) = required_columns).
  { cbn [fmap list_fmap foldl]. apply score_keys; [reflexivity |].
    apply Forall_fmap, Forall_forall. reflexivity. }
  rewrite Hcols. f_equal.
  rewrite <- list_fmap_compose. apply list_fmap_ext. intros _ x _. reflexivity.
Qed.

Lemma select_required (rs : list string) :
  select {| columns := required_columns; rows := score_row <$> rs |}
         required_columns
  = inr {| columns := required_columns; rows := score_row <$> rs |}.
Proof.
  unfold select. cbn [columns rows]. 
  change (indices required_columns required_columns) with (@inr string _ [0; 1; 2; 3; 4; 5]%nat).
  cbn iota. do 2 f_equal.
  rewrite <- list_fmap_compose. apply list_fmap_ext. intros _ x _. reflexivity.
Qed.

(** C8. For a non-empty list of headlines, [analyze_sentiment] builds the
    table with the columns headline, negative, neutral, positive,
    compound, label in this order and one row per headline, in order,
    each row computed from its headline alone; the table handed to
    [save_to_blob] has the same columns and exactly the rows without a
    missing value ([None] or NaN), in the same order. *)
Theorem scorer_table (h : string) (hs : list string) :
  analyze_sentiment (h :: hs)
  = {| columns := required_columns; rows := score_row <$> (h :: hs) |} /\
  sink_table (h :: hs)
  = inr {| columns := required_columns;
           rows := List.filter (fun r => negb (existsb isna r))
                               (score_row <$> (h :: hs)) |} /\
  forall t, sink_table (h :: hs) = inr t ->
    columns t = ["headline"; "negative"; "neutral"; "positive"; "compound"; "label"] /\
    forall r, r ∈ rows t <->
      (exists x, x ∈ h :: hs /\ r = score_row x) /\ forall v, v ∈ r -> isna v = false.
Proof.
  assert (Hsink : sink_table (h :: hs)
                  = inr {| columns := required_columns;
                           rows := List.filter (fun r => negb (existsb isna r))
                                               (score_row <$> (h :: hs)) |}).
  { unfold sink_table. rewrite analyze_sentiment_table, select_required.
    reflexivity. }
  split; [apply analyze_sentiment_table |]. split; [exact Hsink |].
  revert Hsink. generalize (h :: hs). intros rs Hsink t Ht.
  assert (Heq : t = {| columns := required_columns;
                       rows := List.filter (fun r => negb (existsb isna r))
                                           (score_row <$> rs) |})
    by congruence.
  rewrite Heq. split; [reflexivity |].
  intros r. cbn [rows]. split.
  - intros Hr. apply list_elem_of_In, filter_In in Hr as [Hr Hna].
    apply list_elem_of_In, list_elem_of_fmap in Hr as (x & -> & Hx).
    apply negb_true_iff in Hna. split; [eauto |].
    intros v Hv. destruct (isna v) eqn:Hv'; [| done].
    rewrite <- Hna. symmetry. apply existsb_exists. exists v.
    by rewrite <- list_elem_of_In.
  - intros [(x & Hx & ->) Hna]. apply list_elem_of_In, filter_In. split.
    + apply list_elem_of_In, list_elem_of_fmap. eauto.
    + apply negb_true_iff.
      destruct (existsb isna (score_row x)) eqn:Hex; [| done].
      apply existsb_exists in Hex as (v & Hv & Hv').
      rewrite <- list_elem_of_In in Hv. by rewrite (Hna v Hv) in Hv'.
Qed.
End ScorerFacts.

(** ** Saving *)

Section Inversion.

Lemma bind_inv {A B} (m : M A) (f : A -> M B) (w w' : world) (b : B) :
  (m ≫= f) w = (Return b, w') ->
  exists a w1, m w = (Return a, w1) /\ f a w1 = (Return b, w').
Proof.
  rewrite bind_run. destruct (m w) as [[a | e] w1]; [eauto | done].
Qed.

Lemma may_fail_inv (err : option exn) (w w' : world) (u : unit) :
  may_fail err w = (Return u, w') -> err = None /\ w' = w.
Proof. destruct err; [done |]. by intros [= _ <-]. Qed.

Lemma or_key_error_inv {A} (name : string) (o : option A) (w w' : world) (a : A) :
  or_key_error name o w = (Return a, w') -> o = Some a /\ w' = w.
Proof. destruct o; [| done]. by intros [= <- <-]. Qed.

Lemma deref_inv (df : loc) (w w' : world) (t : DataFrame) :
  deref df w = (Return t, w') -> frames w !! df = Some t /\ w' = w.
Proof.
  unfold deref. destruct (frames w !! df); [| done]. by intros [= <- <-].
Qed.

Lemma open_read_inv (err : option exn) (path data : string) (w w' : world) :
  open_read err path w = (Return data, w') ->
  err = None /\ files w !! path = Some data /\ w' = w.
Proof.
  unfold open_read. intros (u & w1 & Hfail & Hrest)%bind_inv.
  apply may_fail_inv in Hfail as [-> ->].
  rewrite bind_run in Hrest. cbn in Hrest.
  destruct (files w !! path); [| done]. by injection Hrest as <- <-.
Qed.

Lemma row_fields_inv (t : DataFrame) (row fields : list value) (w w' : world) :
  row_fields t row w = (Return fields, w') ->
  row_values t row = Some fields /\ w' = w.
Proof.
  unfold row_fields, row_values.
  intros (h & w1 & [-> ->]%or_key_error_inv & Hrun)%bind_inv.
  apply bind_inv in Hrun as (n & w1 & [-> ->]%or_key_error_inv & Hrun).
  apply bind_inv in Hrun as (u & w1 & [-> ->]%or_key_error_inv & Hrun).
  apply bind_inv in Hrun as (p & w1 & [-> ->]%or_key_error_inv & Hrun).
  apply bind_inv in Hrun as (c & w1 & [-> ->]%or_key_error_inv & Hrun).
  apply bind_inv in Hrun as (l & w1 & [-> ->]%or_key_error_inv & Hrun).
  by injection Hrun as <- <-.
Qed.

End Inversion.

Section Writing.
Context `{PyRuntime}.

Lemma concat_cons (x : string) (xs : list string) :
  String.concat "" (x :: xs) = x +:+ String.concat "" xs.
Proof. destruct xs; cbn; [by rewrite append_nil_r | done]. Qed.

Lemma file_write_files (path s c : string) (w w1 : world) (u : unit) :
  file_write path s w = (Return u, w1) -> files w !! path = Some c ->
  files w1 = <[path := c +:+ s]> (files w).
Proof. intros [= _ <-] Hc. simpl. by rewrite Hc. Qed.

(** The rows appended to a file that holds [c]. *)
Lemma write_rows_inv (t : DataFrame) (path : string) (rs : list (list value))
    (c : string) (w w' : world) :
  files w !! path = Some c ->
  for_each rs (fun row => fields ← row_fields t row;
                          file_write path (format_row fields)) w
  = (Return tt, w') ->
  exists lines,
    mapM (fun row => format_row <$> row_values t row) rs = Some lines /\
    files w' = <[path := c +:+ String.concat "" lines]> (files w).
Proof.
  revert c w. induction rs as [| row rs IH]; intros c w Hc; cbn [for_each].
  - intros [= <-]. exists []. split; [done |].
    cbn. by rewrite append_nil_r, insert_id.
  - intros (u & w1 & Hrow & Hrest)%bind_inv.
    apply bind_inv in Hrow as (fields & w0 & [Hvals ->]%row_fields_inv & Hwrite).
    pose proof (file_write_files _ _ _ _ _ _ Hwrite Hc) as Hw1.
    assert (Hc1 : files w1 !! path = Some (c +:+ format_row fields))
      by (rewrite Hw1; apply lookup_insert_eq).
    destruct (IH _ _ Hc1 Hrest) as (lines & Hlines & Hfiles).
    exists (format_row fields :: lines). split.
    + cbn. rewrite Hvals. cbn. by rewrite Hlines.
    + by rewrite Hfiles, Hw1, insert_insert_eq, concat_cons, append_assoc.
Qed.

Lemma open_w_inv (ev : env) (path : string) (w w' : world) (u : unit) :
  open_w ev path w = (Return u, w') ->
  open_w_error ev = None /\ files w' = <[path := ""]> (files w) /\
  frames w' = frames w.
Proof.
  unfold open_w. intros (u' & w1 & [Herr ->]%may_fail_inv & Hrun)%bind_inv.
  by injection Hrun as _ <-.
Qed.

(** A successful [_save_locally]: the table at [df] is cleaned, and the
    file at the returned path holds the text of the cleaned table,
    whatever it held before. *)
Lemma save_locally_inv (ev : env) (df : loc) (filename path : string)
    (w w1 : world) :
  _save_locally ev df filename w = (Return path, w1) ->
  exists t col content,
    frames w !! df = Some t /\ column t "headline" = Some col /\
    let t' := set_column t "headline" (VStr ∘ _clean_headline <$> col) in
    path = os_path_join local_backup_dir filename /\
    open_w_error ev = None /\
    csv_text t' = Some content /\
    files w1 = <[path := content]> (files w) /\
    frames w1 = <[df := t']> (frames w).
Proof.
  intros Hrun.
  pose proof Hrun as Hsteps. unfold _save_locally in Hsteps.
  apply bind_inv in Hsteps as (t & w0 & [Hframe ->]%deref_inv & Hsteps).
  apply bind_inv in Hsteps as (col & w0 & [Hcol ->]%or_key_error_inv & Hsteps).
  exists t, col.
  pose proof (save_locally_frames _ _ _ _ _ _ _ _ Hframe Hcol Hrun) as Hframes.
  apply bind_inv in Hsteps as (u & wa & Hassign & Hsteps).
  injection Hassign as _ <-.
  apply bind_inv in Hsteps as (u1 & wb & (Herr & Hfb & Hframeb)%open_w_inv & Hsteps).
  apply bind_inv in Hsteps as (u2 & wc & Hheader & Hsteps).
  assert (Hfc : files wc = <[os_path_join local_backup_dir filename := header_line]>
                             (files w)).
  { rewrite (file_write_files _ _ "" _ _ _ Hheader)
      by (rewrite Hfb; apply lookup_insert_eq).
    rewrite Hfb, insert_insert_eq. reflexivity. }
  assert (Hframec : frames wc !! df
                    = Some (set_column t "headline" (VStr ∘ _clean_headline <$> col))).
  { injection Hheader as _ <-. simpl. rewrite Hframeb. simpl.
    apply lookup_insert_eq. }
  apply bind_inv in Hsteps as (t' & w0 & [Hframe' ->]%deref_inv & Hsteps).
  rewrite Hframec in Hframe'. injection Hframe' as <-.
  apply bind_inv in Hsteps as ([] & wd & Hloop & Hsteps).
  destruct (write_rows_inv _ _ _ header_line _ _
              (ltac:(rewrite Hfc; apply lookup_insert_eq)) Hloop)
    as (lines & Hlines & Hfd).
  apply bind_inv in Hsteps as (u3 & we & Hprint & Hsteps).
  injection Hprint as _ <-. injection Hsteps as <- <-.
  exists (header_line +:+ String.concat "" lines).
  repeat split; try done.
  - unfold csv_text. by rewrite Hlines.
  - simpl. by rewrite Hfd, Hfc, insert_insert_eq.
Qed.
End Writing.

Section OnlyExceptions.

Lemma reo_ret {A} (a : A) : raises_Exception_only (mret a).
Proof. by apply hoare_ret. Qed.

Lemma reo_raise {A} (e : exn) :
  is_Exception (exn_cls e) = true -> raises_Exception_only (@raise A e).
Proof. intros He. by apply hoare_raise. Qed.

Lemma reo_bind {A B} (m : M A) (f : A -> M B) :
  raises_Exception_only m -> (forall a, raises_Exception_only (f a)) ->
  raises_Exception_only (m ≫= f).
Proof.
  intros Hm Hf. eapply hoare_bind with (R := fun _ _ => True); [| exact Hf].
  eapply hoare_conseq; [exact Hm | done |]. by intros [a | e] w.
Qed.

Lemma reo_may_fail (err : option exn) :
  catchable err = true -> raises_Exception_only (may_fail err).
Proof. destruct err; [apply reo_raise | intros _; apply reo_ret]. Qed.

Lemma reo_modify (f : world -> world) : raises_Exception_only (modify f).
Proof. by intros w r w' _ [= <- <-]. Qed.

Lemma reo_get_world : raises_Exception_only get_world.
Proof. by intros w r w' _ [= <- <-]. Qed.

Lemma reo_or_key_error {A} (name : string) (o : option A) :
  raises_Exception_only (or_key_error name o).
Proof. destruct o; [apply reo_ret | by apply reo_raise]. Qed.

Lemma reo_deref (df : loc) : raises_Exception_only (deref df).
Proof.
  intros w r w' _. unfold deref. by destruct (frames w !! df); intros [= <- <-].
Qed.

Lemma reo_for_each {A} (xs : list A) (body : A -> M unit) :
  (forall x, raises_Exception_only (body x)) ->
  raises_Exception_only (for_each xs body).
Proof.
  intros Hbody. induction xs as [| x xs IH]; cbn [for_each].
  - apply reo_ret.
  - apply reo_bind; auto.
Qed.

Lemma reo_check_lines (i : nat) (lines : list string) :
  raises_Exception_only (check_lines i lines).
Proof.
  revert i. induction lines as [| l ls IH]; intros i; cbn [check_lines].
  - apply reo_ret.
  - destruct (negb _); [| apply IH].
    apply reo_bind; [apply reo_modify | intros; apply reo_ret].
Qed.

End OnlyExceptions.

Ltac reo_step :=
  first
    [ apply reo_bind; [| intros ?]
    | apply reo_ret
    | apply reo_raise; reflexivity
    | apply reo_may_fail; assumption
    | apply reo_get_world
    | apply reo_or_key_error
    | apply reo_deref
    | apply reo_for_each; intros ?
    | apply reo_check_lines
    | apply reo_modify
    | match goal with
      | |- raises_Exception_only (if ?b then _ else _) => destruct b
      | |- raises_Exception_only (match ?o with Some _ => _ | None => _ end) =>
          destruct o
      end ].

Section Saving.
Context `{PyRuntime}.
Implicit Types ev : env.

(** [_save_locally] does not reach the object store. *)
Lemma save_locally_keeps_store ev (df : loc) (filename : string)
    (L : list sdk_call) (B : gmap (string * string) string) (C : gset string) :
  keeps (fun w => sdk_log w = L /\ blobs w = B /\ containers w = C)
        (_save_locally ev df filename).
Proof.
  unfold _save_locally, assign, open_w, file_write, row_fields, print, print_end.
  repeat keeps_step; assumption.
Qed.

(** A line with another number of separators than 5 ends the validation
    with a message and [False]. *)
Lemma check_lines_bad (lines : list string) (i : nat) (w : world) :
  Exists (fun line => count line separator <> 5%nat) lines ->
  exists msg,
    check_lines i lines w = (Return false, set_stdout (fun o => (o ++ [msg])%list) w).
Proof.
  intros Hbad. revert i.
  induction Hbad as [line lines Hline | line lines _ IH]; intros i; cbn [check_lines].
  - apply Nat.eqb_neq in Hline. rewrite Hline. cbn [negb]. eexists. reflexivity.
  - destruct (Nat.eqb_spec (count line separator) 5) as [Heq | Hne]; cbn [negb].
    + apply IH.
    + eexists. reflexivity.
Qed.

Lemma validate_csv_raise ev (path : string) (w : world) (e : exn) :
  open_r_error ev = Some e -> _validate_csv ev path w = (Raise e, w).
Proof.
  intros Herr. unfold _validate_csv, open_read, may_fail. by rewrite Herr.
Qed.

(** C2. When [_save_locally] has written the backup, the file it wrote
    has a line whose number of separators is not 5, and reading the file
    is not interrupted, then [save_to_blob] returns [False], sends no
    request to the object store and leaves its containers and blobs as
    they were, and the local files stay as [_save_locally] left them. *)
Theorem invalid_backup_not_uploaded ev (df : loc) (w w1 : world)
    (path content : string) :
  _save_locally ev df _generate_filename w = (Return path, w1) ->
  files w1 !! path = Some content ->
  Exists (fun line => count line separator <> 5%nat) (file_lines content) ->
  catchable (open_r_error ev) = true ->
  exists w2,
    save_to_blob ev df w = (Return false, w2) /\
    sdk_log w2 = sdk_log w /\ blobs w2 = blobs w /\ containers w2 = containers w /\
    files w2 = files w1 /\ files w2 !! path = Some content.
Proof.
  intros Hlocal Hfile Hbad Hread.
  destruct (save_locally_keeps_store ev df _generate_filename _ _ _ w _ w1
              (conj eq_refl (conj eq_refl eq_refl)) Hlocal) as (HL & HB & HC).
  unfold save_to_blob, try_except, save_steps.
  rewrite (bind_return _ _ _ _ _ Hlocal).
  destruct (open_r_error ev) as [e |] eqn:Herr.
  - rewrite (bind_raise _ _ _ _ _ (validate_csv_raise ev path w1 e Herr)).
    cbn in Hread. rewrite Hread. eexists. split; [reflexivity |]. by cbn.
  - rewrite bind_run, (validate_run ev path content w1 Herr Hfile).
    destruct (check_lines_bad _ 1 w1 Hbad) as [msg ->]. cbn [negb].
    rewrite bind_run. cbn [raise is_Exception exn_cls].
    eexists. split; [reflexivity |]. by cbn.
Qed.

Lemma no_interrupt_inv ev :
  no_interrupt ev = true ->
  catchable (open_w_error ev) = true /\ catchable (open_r_error ev) = true /\
  catchable (open_rb_error ev) = true /\ catchable (connect_error ev) = true /\
  catchable (exists_error ev) = true /\ catchable (create_error ev) = true /\
  catchable (upload_error ev) = true.
Proof. unfold no_interrupt. rewrite !andb_true_iff. tauto. Qed.

(** Without interrupts, the steps of a save raise instances of
    [Exception] only. *)
Lemma save_steps_raises ev (df : loc) (filename : string) :
  no_interrupt ev = true -> raises_Exception_only (save_steps ev df filename).
Proof.
  intros (? & ? & ? & ? & ? & ? & ?)%no_interrupt_inv.
  unfold save_steps, _save_locally, _validate_csv, open_read, assign, open_w,
    file_write, row_fields, sdk_exists, sdk_create_container, sdk_upload_blob,
    print, print_end.
  repeat reo_step.
Qed.

Lemma validate_csv_same ev (path : string) (w : world) :
  keeps (same_data w) (_validate_csv ev path).
Proof.
  unfold _validate_csv, open_read, same_data. repeat keeps_step; assumption.
Qed.

Lemma sdk_exists_same ev (c : string) (w : world) :
  keeps (same_data w) (sdk_exists ev c).
Proof. unfold sdk_exists, same_data. repeat keeps_step; assumption. Qed.

Lemma sdk_create_same ev (c : string) (w : world) :
  keeps (same_data w) (sdk_create_container ev c).
Proof. unfold sdk_create_container, same_data. repeat keeps_step; assumption. Qed.

Lemma validate_csv_inv ev (path : string) (w w' : world) (valid : bool) :
  _validate_csv ev path w = (Return valid, w') -> open_r_error ev = None.
Proof.
  unfold _validate_csv.
  by intros (content & w1 & (Herr & _)%open_read_inv & _)%bind_inv.
Qed.

Lemma sdk_exists_inv ev (c : string) (w w' : world) (present : bool) :
  sdk_exists ev c w = (Return present, w') -> exists_error ev = None.
Proof.
  unfold sdk_exists. intros (u & w1 & _ & Hrun)%bind_inv.
  by apply bind_inv in Hrun as (u' & w2 & [Herr _]%may_fail_inv & _).
Qed.

Lemma sdk_upload_blob_inv ev (c blob data : string) (w w' : world) (u : unit) :
  sdk_upload_blob ev c blob data w = (Return u, w') ->
  upload_error ev = None /\ files w' = files w /\ frames w' = frames w /\
  blobs w' = <[(c, blob) := data]> (blobs w).
Proof.
  unfold sdk_upload_blob. intros (u1 & w1 & Hlog & Hrun)%bind_inv.
  injection Hlog as _ <-.
  apply bind_inv in Hrun as (u2 & w2 & [Herr ->]%may_fail_inv & Hrun).
  by injection Hrun as _ <-.
Qed.

(** The steps of a save return only when every one of them succeeded;
    they then return [True], and the blob holds the backup file. *)
Lemma save_steps_inv ev (df : loc) (filename : string) (w w' : world) (b : bool) :
  save_steps ev df filename w = (Return b, w') ->
  b = true /\
  exists path w1 data,
    _save_locally ev df filename w = (Return path, w1) /\
    (exists w2, _validate_csv ev path w1 = (Return true, w2)) /\
    (open_r_error ev = None /\ connect_error ev = None /\ exists_error ev = None
     /\ open_rb_error ev = None /\ upload_error ev = None) /\
    files w1 !! path = Some data /\ files w' = files w1 /\ frames w' = frames w1 /\
    blobs w' = <[(container_name, filename) := data]> (blobs w).
Proof.
  unfold save_steps.
  intros (path & w1 & Hlocal & Hrun)%bind_inv.
  apply bind_inv in Hrun as (valid & w2 & Hvalid & Hrun).
  apply bind_inv in Hrun as (u3 & w3 & Hcheck & Hrun).
  destruct valid; [| done]. injection Hcheck as _ <-.
  apply bind_inv in Hrun as (u4 & w4 & [Hconn ->]%may_fail_inv & Hrun).
  apply bind_inv in Hrun as (present & w5 & Hexists & Hrun).
  apply bind_inv in Hrun as (u6 & w6 & Hcreate & Hrun).
  apply bind_inv in Hrun as (data & w7 & (Hrb & Hdata & ->)%open_read_inv & Hrun).
  apply bind_inv in Hrun as (u8 & w8 & (Hup & Hf8 & Hfr8 & Hb8)%sdk_upload_blob_inv & Hrun).
  apply bind_inv in Hrun as (u9 & w9 & Hprint & Hrun).
  injection Hprint as _ <-. injection Hrun as <- <-.
  destruct (save_locally_keeps_store ev df filename _ _ _ w _ w1
              (conj eq_refl (conj eq_refl eq_refl)) Hlocal) as (_ & HB1 & _).
  pose proof (validate_csv_same ev path w1 w1 _ w2
                (conj eq_refl (conj eq_refl eq_refl)) Hvalid) as Hs2.
  pose proof (sdk_exists_same ev _ w1 w2 _ w5 Hs2 Hexists) as Hs5.
  assert (Hs6 : same_data w1 w6).
  { destruct (negb present).
    - exact (sdk_create_same ev _ w1 w5 _ w6 Hs5 Hcreate).
    - by injection Hcreate as _ <-. }
  destruct Hs6 as (Hf6 & Hb6 & Hfr6).
  split; [done |]. exists path, w1, data.
  split; [done |]. split; [eauto |].
  split; [eauto 10 using validate_csv_inv, sdk_exists_inv |].
  split; [by rewrite <- Hf6 |].
  cbn. rewrite Hf8, Hfr8, Hb8, Hf6, Hfr6, Hb6, HB1. done.
Qed.

Lemma sdk_exists_present ev (c : string) (w w' : world) (present : bool) :
  sdk_exists ev c w = (Return present, w') ->
  present = bool_decide (c ∈ containers w) /\ containers w' = containers w.
Proof.
  unfold sdk_exists. intros (u & w1 & Hlog & Hrun)%bind_inv.
  injection Hlog as _ <-.
  apply bind_inv in Hrun as (u' & w2 & [_ ->]%may_fail_inv & Hrun).
  rewrite bind_run in Hrun. cbn [get_world mret M_ret] in Hrun.
  by injection Hrun as <- <-.
Qed.

Lemma sdk_create_container_inv ev (c : string) (w w' : world) (u : unit) :
  sdk_create_container ev c w = (Return u, w') -> create_error ev = None.
Proof.
  unfold sdk_create_container. intros (u1 & w1 & _ & Hrun)%bind_inv.
  by apply bind_inv in Hrun as (u2 & w2 & [Herr _]%may_fail_inv & _).
Qed.

Lemma validate_csv_containers ev (path : string) (C : gset string) :
  keeps (fun w => containers w = C) (_validate_csv ev path).
Proof.
  unfold _validate_csv, open_read, print, print_end.
  repeat keeps_step; assumption.
Qed.

(** Steps that ran to their end in a world without the container have
    created it. *)
Lemma save_steps_create ev (df : loc) (filename : string) (w w' : world)
    (b : bool) :
  save_steps ev df filename w = (Return b, w') ->
  container_name ∉ containers w -> create_error ev = None.
Proof.
  unfold save_steps.
  intros (path & w1 & Hlocal & Hrun)%bind_inv Habsent.
  apply bind_inv in Hrun as (valid & w2 & Hvalid & Hrun).
  apply bind_inv in Hrun as (u3 & w3 & Hcheck & Hrun).
  destruct valid; [| done]. injection Hcheck as _ <-.
  apply bind_inv in Hrun as (u4 & w4 & [_ ->]%may_fail_inv & Hrun).
  apply bind_inv in Hrun as (present & w5 & [-> _]%sdk_exists_present & Hrun).
  apply bind_inv in Hrun as (u6 & w6 & Hcreate & _).
  destruct (save_locally_keeps_store ev df filename _ _ _ w _ w1
              (conj eq_refl (conj eq_refl eq_refl)) Hlocal) as (_ & _ & HC1).
  pose proof (validate_csv_containers ev path _ w1 _ w2 eq_refl Hvalid) as HC2.
  rewrite HC2, HC1, bool_decide_eq_false_2 in Hcreate by done.
  exact (sdk_create_container_inv _ _ _ _ _ Hcreate).
Qed.

(** C5 (as amended).  An exception raised by the steps of a save that is
    an instance of [Exception] is caught: [save_to_blob] returns [False],
    after printing a line break, the text [Error during save operation: ]
    and what [str] gives for the exception; one that is not (an interrupt,
    an exit) is not caught and leaves [save_to_blob].  So, when no
    operation is interrupted, [save_to_blob] returns a boolean and raises
    nothing: [True] exactly when the steps ran to their end, in which case
    no operation on the way failed (the local write, the read of the
    validation, the connection, the existence check, the creation of the
    container where it was missing, the read for the upload, the upload);
    else [False], after the steps raised an exception whose diagnostic is
    the last output. *)
Theorem save_to_blob_catches ev (df : loc) (w : world) :
  (forall e w1,
     save_steps ev df _generate_filename w = (Raise e, w1) ->
     if is_Exception (exn_cls e)
     then save_to_blob ev df w
          = (Return false,
             set_stdout (fun o => (o ++ [NL +:+ "Error during save operation: "
                                         +:+ exn_msg e +:+ NL])%list) w1)
     else save_to_blob ev df w = (Raise e, w1)) /\
  (no_interrupt ev = true ->
   exists (b : bool) (w' : world),
     save_to_blob ev df w = (Return b, w') /\
     (b = true <->
      exists w1, save_steps ev df _generate_filename w = (Return true, w1)) /\
     (b = true ->
      open_w_error ev = None /\ open_r_error ev = None /\
      connect_error ev = None /\ exists_error ev = None /\
      (container_name ∉ containers w -> create_error ev = None) /\
      open_rb_error ev = None /\ upload_error ev = None) /\
     (b = false ->
      exists e w1,
        save_steps ev df _generate_filename w = (Raise e, w1) /\
        is_Exception (exn_cls e) = true /\
        stdout w' = (stdout w1 ++ [NL +:+ "Error during save operation: "
                                   +:+ exn_msg e +:+ NL])%list)).
Proof.
  split.
  { intros e w1 Hsteps. unfold save_to_blob, try_except. rewrite Hsteps.
    destruct (is_Exception (exn_cls e)); reflexivity. }
  intros Hcalm. unfold save_to_blob, try_except.
  pose proof (save_steps_raises ev df _generate_filename Hcalm w) as Hraises.
  destruct (save_steps ev df _generate_filename w) as [[b | e] w1] eqn:Hsteps.
  - pose proof (save_steps_create _ _ _ _ _ _ Hsteps) as Hcreate.
    destruct (save_steps_inv _ _ _ _ _ _ Hsteps)
      as (-> & path & w0 & data & Hlocal & _ & (? & ? & ? & ? & ?) & _).
    apply save_locally_inv in Hlocal as (t & col & content & _ & _ & _ & ? & _).
    exists true, w1. split; [done |]. split; [split; eauto |]. split; [done | done].
  - specialize (Hraises _ _ I eq_refl). cbn in Hraises. rewrite Hraises.
    eexists false, _. split; [reflexivity |]. split; [| split; [done |]].
    + split; [done |]. by intros [w2 [=]].
    + intros _. exists e, w1. split; [reflexivity |]. split; [exact Hraises |].
      reflexivity.
Qed.

End Saving.

(** C5, as stated, fails: an interrupt during the upload is not an instance
    of [Exception]; it passes the [except] clause and leaves
    [save_to_blob]. *)
Lemma save_to_blob_interrupt_escapes :
  fst (@save_to_blob Sample.runtime Sample.interrupted_upload 0%nat Sample.one_table)
  = Raise Sample.interrupt.
Proof. vm_compute. reflexivity. Qed.


(** ** The main block *)

Section MainFacts.
Context `{PyRuntime} `{Analyzer}.

(** The main block hands the table of [sink_table] to [save_to_blob], as
    a new DataFrame object. *)
Lemma main_saves_sink_table (ev : env) (w w0 w1 w2 : world) (u0 u : unit)
    (h : string) (hs : list string) (t : DataFrame) :
  __init__ ev w = (Return u0, w0) ->
  print "Fetching Reddit headlines..." w0 = (Return u, w1) ->
  fetch_headlines ev "politics" 500 w1 = (Return (h :: hs), w2) ->
  sink_table (h :: hs) = inr t ->
  exists (df : loc) (w3 : world),
    frames w2 !! df = None /\
    frames w3 = <[df := t]> (frames w2) /\
    main ev w
    = (saved ← save_to_blob ev df;
       if saved : bool then print "Process completed successfully!"
       else print "Process completed with errors") w3.
Proof.
  intros Hinit Hprint Hfetch Hsink. unfold main.
  rewrite (bind_return _ _ _ _ _ Hinit).
  rewrite (bind_return _ _ _ _ _ Hprint), (bind_return _ _ _ _ _ Hfetch).
  rewrite Hsink.
  exists (fresh (dom (frames w2))). eexists. split; [| split].
  - apply not_elem_of_dom, is_fresh.
  - shelve.
  - rewrite bind_run. cbn [print print_end modify].
    rewrite bind_run. cbn [mret M_ret].
    rewrite bind_run. cbn [print print_end modify].
    rewrite bind_run. cbn [print print_end modify].
    rewrite bind_run. cbn [print print_end modify].
    rewrite bind_run. unfold alloc at 1. cbn beta iota zeta. reflexivity.
  Unshelve. reflexivity.
Qed.
End MainFacts.


(** * Further properties *)

Section LabelFacts.

Lemma scaled_lit_pos : (0 < scaled 7205759403792794 (-55))%Z.
Proof. unfold scaled. apply Z.mul_pos_pos; [lia |]. by apply Z.pow_pos_nonneg. Qed.

Lemma categorize_finite (m e : Z) :
  _categorize_sentiment (Finite m e)
  = if (scaled 7205759403792794 (-55) <=? scaled m e)%Z then "Positive"
    else if (scaled m e <=? - scaled 7205759403792794 (-55))%Z then "Negative"
    else "Neutral".
Proof.
  unfold _categorize_sentiment, float_ge, lit_0_2. cbn [float_le float_neg].
  by rewrite scaled_opp.
Qed.

(** X1. The thresholds are symmetric: the label of the opposite score
    is the opposite label, with "Positive" and "Negative" exchanged and
    "Neutral" kept, for every float, the infinities and NaN included. *)
Theorem categorize_mirror (c : float) :
  _categorize_sentiment (float_neg c) = mirror (_categorize_sentiment c).
Proof.
  destruct c as [m e | | |]; [| reflexivity ..].
  cbn [float_neg]. rewrite !categorize_finite, scaled_opp.
  pose proof scaled_lit_pos as Hpos. revert Hpos.
  generalize (scaled 7205759403792794 (-55)) (scaled m e). intros L x Hpos.
  destruct (Z.leb_spec L x), (Z.leb_spec x (- L)), (Z.leb_spec L (- x)),
    (Z.leb_spec (- x) (- L)); try lia; reflexivity.
Qed.

(** X2. The label grows with the score: when [c1 <= c2] holds for
    Python, the label of [c1] is not above the label of [c2] in the order
    "Negative", "Neutral", "Positive". *)
Theorem categorize_monotone (c1 c2 : float) :
  float_le c1 c2 = true ->
  (rank (_categorize_sentiment c1) <= rank (_categorize_sentiment c2))%nat.
Proof.
  pose proof scaled_lit_pos as Hpos.
  destruct c1 as [m1 e1 | | |], c2 as [m2 e2 | | |]; cbn [float_le]; intros Hle;
    try discriminate; rewrite ?categorize_finite;
    change (_categorize_sentiment PosInf) with "Positive";
    change (_categorize_sentiment NegInf) with "Negative";
    revert Hpos Hle;
    generalize (scaled 7205759403792794 (-55));
    try generalize (scaled m1 e1); try generalize (scaled m2 e2); intros;
    repeat match goal with
           | |- context [(?a <=? ?b)%Z] => destruct (Z.leb_spec a b)
           | H : (_ <=? _)%Z = true |- _ => apply Z.leb_le in H
           end; cbn; lia.
Qed.
End LabelFacts.

Section CleanFacts.
Context `{PyRuntime}.

Lemma clean_headline_eq (text : value) :
  _clean_headline text = strip (blank_line_breaks (double_quotes (str text))).
Proof. unfold _clean_headline. by rewrite replace_quotes, replace_line_breaks. Qed.

Lemma all_chars_lstrip (P : ascii -> bool) (s : string) :
  all_chars P s = true -> all_chars P (lstrip s) = true.
Proof.
  induction s as [| a s IH]; [done |]. cbn [lstrip all_chars].
  destruct (isspace a); [| done]. rewrite andb_true_iff. intros [_ Hs]. auto.
Qed.

Lemma all_chars_rstrip (P : ascii -> bool) (s : string) :
  all_chars P s = true -> all_chars P (rstrip s) = true.
Proof.
  induction s as [| a s IH]; [done |]. cbn [rstrip all_chars].
  rewrite andb_true_iff. intros [Ha Hs]. specialize (IH Hs).
  destruct (rstrip s) as [| b r].
  - destruct (isspace a); [done |]. cbn [all_chars]. by rewrite Ha.
  - cbn [all_chars] in *. by rewrite Ha, IH.
Qed.

Lemma blank_line_breaks_no_break (s : string) :
  all_chars is_not_break (blank_line_breaks s) = true.
Proof.
  induction s as [| a s IH]; [done |]. cbn [blank_line_breaks all_chars].
  rewrite IH, andb_true_r. unfold is_not_break.
  destruct (Ascii.eqb a LF) eqn:Hlf; [reflexivity |].
  destruct (Ascii.eqb a CR) eqn:Hcr; [reflexivity |]. cbn. by rewrite Hcr, Hlf.
Qed.

Lemma lstrip_length (s : string) : (String.length (lstrip s) <= String.length s)%nat.
Proof.
  induction s as [| a s IH]; [done |]. cbn [lstrip].
  destruct (isspace a); cbn [String.length]; lia.
Qed.

Lemma lstrip_idem (s : string) : lstrip (lstrip s) = lstrip s.
Proof.
  induction s as [| a s IH]; [done |]. cbn [lstrip].
  destruct (isspace a) eqn:Ha; [done |]. cbn [lstrip]. by rewrite Ha.
Qed.

Lemma rstrip_idem (s : string) : rstrip (rstrip s) = rstrip s.
Proof.
  induction s as [| a s IH]; [done |]. cbn [rstrip].
  destruct (rstrip s) as [| b r] eqn:Hr.
  - destruct (isspace a) eqn:Ha; [done |]. cbn [rstrip]. by rewrite Ha.
  - change (rstrip (String a (String b r)))
      with (match rstrip (String b r) with
            | "" => if isspace a then "" else String a ""
            | r' => String a r'
            end).
    by rewrite IH.
Qed.

Lemma lstrip_rstrip (s : string) : lstrip s = s -> lstrip (rstrip s) = rstrip s.
Proof.
  destruct s as [| a s]; [done |]. cbn [lstrip rstrip].
  destruct (isspace a) eqn:Ha.
  - intros Heq. pose proof (lstrip_length s) as Hlen.
    rewrite Heq in Hlen. cbn [String.length] in Hlen. lia.
  - intros _. destruct (rstrip s); cbn [lstrip]; by rewrite Ha.
Qed.

Lemma strip_idem (s : string) : strip (strip s) = strip s.
Proof.
  unfold strip. rewrite (lstrip_rstrip (lstrip s)) by apply lstrip_idem.
  apply rstrip_idem.
Qed.

Lemma clean_headline_line (text : value) :
  all_chars is_not_break (_clean_headline text) = true /\
  strip (_clean_headline text) = _clean_headline text.
Proof.
  rewrite clean_headline_eq. split; [| apply strip_idem].
  unfold strip. apply all_chars_rstrip, all_chars_lstrip, blank_line_breaks_no_break.
Qed.

(** X3. Whatever the value, the text [_clean_headline] returns holds no
    line feed and no carriage return, and has no whitespace at either
    end: stripping it again changes nothing. *)
Theorem clean_headline_one_line (text : value) :
  all_chars is_not_break (_clean_headline text) = true /\
  strip (_clean_headline text) = _clean_headline text.
Proof. apply clean_headline_line. Qed.

Lemma double_quotes_none (s : string) :
  occ dquote s = 0%nat -> double_quotes s = s.
Proof.
  induction s as [| a s IH]; [done |]. cbn [occ double_quotes].
  destruct (Ascii.eqb a dquote); [done |]. cbn. intros Hs. by rewrite IH.
Qed.

Lemma blank_line_breaks_none (s : string) :
  all_chars is_not_break s = true -> blank_line_breaks s = s.
Proof.
  induction s as [| a s IH]; [done |].
  intros (Hcr & Hlf & Hs)%no_break_cons. cbn [blank_line_breaks].
  by rewrite Hcr, Hlf, IH.
Qed.

(** X4. Cleaning is idempotent exactly on the headlines without a double
    quote: cleaning a cleaned headline again gives the same text if and
    only if the headline has no double quote. *)
Theorem clean_headline_idempotent_iff (s : string) :
  _clean_headline (VStr (_clean_headline (VStr s))) = _clean_headline (VStr s)
  <-> occ dquote s = 0%nat.
Proof.
  split.
  - intros Heq. apply (f_equal (occ dquote)) in Heq.
    rewrite !clean_doubles_quotes in Heq. lia.
  - intros Hs.
    destruct (clean_headline_line (VStr s)) as [Hline Hstrip].
    assert (Hq : occ dquote (_clean_headline (VStr s)) = 0%nat)
      by (rewrite clean_doubles_quotes; lia).
    rewrite (clean_headline_eq (VStr (_clean_headline (VStr s)))). cbn [str].
    by rewrite double_quotes_none, blank_line_breaks_none.
Qed.
End CleanFacts.

Section RoundTrip.
Context `{PyRuntime}.

Lemma append_char (cur : string) (a : ascii) (s : string) :
  (cur +:+ String a "") +:+ s = cur +:+ String a s.
Proof. by rewrite append_assoc. Qed.

(** The reader, inside a field, reads what the writer wrote for it. *)
Lemma read_row_escape (s t cur : string) (done : list string) :
  read_row InField cur done (escape s +:+ t)
  = read_row InField (cur +:+ double_backslashes s) done t.
Proof.
  revert cur. induction s as [| a s IH]; intros cur.
  - cbn [escape double_backslashes String.append]. by rewrite append_nil_r.
  - cbn [escape double_backslashes].
    destruct (Ascii.eqb a dquote) eqn:Hq.
    + apply Ascii.eqb_eq in Hq as ->.
      change (Ascii.eqb dquote backslash) with false. cbn iota.
      cbn [String.append read_row]. rewrite !Ascii.eqb_refl.
      rewrite IH. unfold DQ. by rewrite append_char.
    + destruct (Ascii.eqb a backslash) eqn:Hb.
      * cbn [String.append read_row].
        apply Ascii.eqb_eq in Hb as ->.
        change (Ascii.eqb backslash dquote) with false. cbn iota.
        rewrite IH. by rewrite !append_char.
      * cbn [String.append read_row]. rewrite Hq, IH. by rewrite append_char.
Qed.

Lemma read_row_fields (f : value) (fs : list value) (done : list string) :
  read_row FieldStart "" done
    (String.concat "," (quote_field ∘ field_text <$> (f :: fs)) +:+ CRLF)
  = Some (done ++ (double_backslashes ∘ field_text <$> (f :: fs)))%list.
Proof.
  revert f done. induction fs as [| g fs IH]; intros f done.
  - cbn [fmap list_fmap String.concat compose]. unfold quote_field.
    rewrite !append_assoc.
    change (read_row FieldStart "" done (DQ +:+ ?s)) with (read_row InField "" done s).
    rewrite read_row_escape. reflexivity.
  - change (String.concat "," (quote_field ∘ field_text <$> f :: g :: fs))
      with (quote_field (field_text f) +:+ "," +:+
            String.concat "," (quote_field ∘ field_text <$> g :: fs)).
    unfold quote_field at 1. rewrite !append_assoc.
    change (read_row FieldStart "" done (DQ +:+ ?s)) with (read_row InField "" done s).
    rewrite read_row_escape.
    change (read_row InField ?c done (DQ +:+ "," +:+ ?s))
      with (read_row FieldStart "" (done ++ [c]) s).
    rewrite IH. cbn [fmap list_fmap compose String.append].
    by rewrite <- app_assoc.
Qed.

(** X5. A reader of RFC 4180 reads one record from the line
    [writer.writerow] writes for a row that is not empty, with one field
    per value written: the text of the value, with every backslash
    doubled (the writer escapes its escape character, a reader of RFC 4180
    has none) and everything else, the quotes, commas and line breaks
    included, as it was. *)
Theorem written_row_reads_back (f : value) (fs : list value) :
  parse_row (format_row (f :: fs))
  = Some (double_backslashes ∘ field_text <$> (f :: fs)).
Proof. unfold parse_row, format_row. by rewrite read_row_fields. Qed.

Lemma double_backslashes_none (s : string) :
  occ backslash s = 0%nat -> double_backslashes s = s.
Proof.
  induction s as [| a s IH]; [done |]. cbn [occ double_backslashes].
  destruct (Ascii.eqb a backslash); [done |]. cbn. intros Hs. by rewrite IH.
Qed.
End RoundTrip.

Section Validation.
Context `{PyRuntime}.

Lemma check_lines_spec (lines : list string) (i : nat) (w : world) :
  (forallb line_ok lines = true /\ check_lines i lines w = (Return true, w)) \/
  (exists (k : nat) (line : string),
      lines !! k = Some line /\ line_ok line = false /\
      forallb line_ok (take k lines) = true /\
      check_lines i lines w
      = (Return false,
         set_stdout (fun o => (o ++ [validation_message (i + k) line])%list) w)).
Proof.
  revert i. induction lines as [| l ls IH]; intros i; [by left |].
  cbn [check_lines forallb]. fold (line_ok l).
  destruct (line_ok l) eqn:Hl; cbn [negb andb].
  - destruct (IH (S i)) as [[Hall Hrun] | (k & line & Hk & Hbad & Hbefore & Hrun)].
    + left. done.
    + right. exists (S k), line. cbn [take forallb]. rewrite Hl.
      replace (i + S k)%nat with (S i + k)%nat by lia. done.
  - right. exists 0%nat, l. rewrite Nat.add_0_r.
    split; [done |]. split; [done |]. split; [done |].
    unfold validation_message. rewrite bind_run. cbn.
    unfold set_stdout. cbn. by rewrite !append_assoc.
Qed.
End Validation.

Section ValidationRuns.
Context `{PyRuntime}.

(** X6. On a file that can be read, [_validate_csv] returns [True]
    without printing when every line has exactly 5 separators, an empty
    file included; else it returns [False] after one message, which names
    the number, counted from 1, of the first line that has not, and that
    line stripped.  Nothing else of the world changes. *)
Theorem validate_csv_first_bad_line (ev : env) (path content : string) (w : world) :
  open_r_error ev = None -> files w !! path = Some content ->
  (forallb line_ok (file_lines content) = true /\
   _validate_csv ev path w = (Return true, w)) \/
  (exists (k : nat) (line : string),
      file_lines content !! k = Some line /\ line_ok line = false /\
      forallb line_ok (take k (file_lines content)) = true /\
      _validate_csv ev path w
      = (Return false,
         set_stdout (fun o => (o ++ [validation_message (S k) line])%list) w)).
Proof.
  intros Herr Hfile.
  pose proof (validate_run ev path content w Herr Hfile) as Hrun.
  rewrite Hrun.
  destruct (check_lines_spec (file_lines content) 1 w)
    as [[Hall Hcheck] | (k & line & Hk & Hbad & Hbefore & Hcheck)].
  - by left.
  - right. exists k, line. done.
Qed.
End ValidationRuns.

Section Forward.
Context `{PyRuntime}.

Lemma world_eq (w w' : world) :
  files w = files w' -> containers w = containers w' -> blobs w = blobs w' ->
  sdk_log w = sdk_log w' -> stdout w = stdout w' -> frames w = frames w' ->
  dirs w = dirs w' ->
  w = w'.
Proof. destruct w, w'. simpl. by intros -> -> -> -> -> -> ->. Qed.

(** [row_fields] finds every field or raises the KeyError of the first
    label that is missing. *)
Lemma row_fields_run (t : DataFrame) (row : list value) (w : world) :
  row_fields t row w
  = match first_missing (columns t) required_columns with
    | Some name => (Raise (key_error name), w)
    | None => match row_values t row with
              | Some fields => (Return fields, w)
              | None => (Raise (key_error "headline"), w)
              end
    end.
Proof.
  unfold row_fields, row_values, row_get, required_columns.
  cbn [first_missing].
  destruct (index_of "headline" (columns t)); [| done].
  destruct (index_of "negative" (columns t)); [| done].
  destruct (index_of "neutral" (columns t)); [| done].
  destruct (index_of "positive" (columns t)); [| done].
  destruct (index_of "compound" (columns t)); [| done].
  destruct (index_of "label" (columns t)); done.
Qed.

Lemma first_missing_none_values (t : DataFrame) (row : list value) :
  first_missing (columns t) required_columns = None ->
  is_Some (row_values t row).
Proof.
  unfold row_values, row_get, required_columns. cbn [first_missing].
  destruct (index_of "headline" (columns t)); [| done].
  destruct (index_of "negative" (columns t)); [| done].
  destruct (index_of "neutral" (columns t)); [| done].
  destruct (index_of "positive" (columns t)); [| done].
  destruct (index_of "compound" (columns t)); [| done].
  destruct (index_of "label" (columns t)); [| done]. intros _. by eexists.
Qed.

Lemma row_values_first_missing (t : DataFrame) (row fields : list value) :
  row_values t row = Some fields ->
  first_missing (columns t) required_columns = None.
Proof.
  unfold row_values, row_get, required_columns. cbn [first_missing].
  destruct (index_of "headline" (columns t)); [| done].
  destruct (index_of "negative" (columns t)); [| done].
  destruct (index_of "neutral" (columns t)); [| done].
  destruct (index_of "positive" (columns t)); [| done].
  destruct (index_of "compound" (columns t)); [| done].
  destruct (index_of "label" (columns t)); done.
Qed.

Lemma file_write_run (path s c : string) (w : world) :
  files w !! path = Some c ->
  file_write path s w = (Return tt, set_files (fun _ => <[path := c +:+ s]> (files w)) w).
Proof.
  intros Hc. unfold file_write, modify. f_equal. unfold set_files. by rewrite Hc.
Qed.

(** The loop over the rows, where every row has its fields. *)
Lemma write_rows_run (t : DataFrame) (path : string) (rs : list (list value))
    (lines : list string) (c : string) (w : world) :
  mapM (fun row => format_row <$> row_values t row) rs = Some lines ->
  files w !! path = Some c ->
  for_each rs (fun row => fields ← row_fields t row;
                          file_write path (format_row fields)) w
  = (Return tt,
     set_files (fun _ => <[path := c +:+ String.concat "" lines]> (files w)) w).
Proof.
  revert lines c w. induction rs as [| row rs IH]; intros lines c w Hlines Hc.
  - injection Hlines as <-. cbn [for_each String.concat]. unfold mret, M_ret.
    f_equal. apply world_eq; try done. cbn. by rewrite append_nil_r, insert_id.
  - cbn [mapM] in Hlines.
    destruct (row_values t row) as [fields |] eqn:Hrow; [| done].
    cbn in Hlines.
    destruct (mapM (fun row => format_row <$> row_values t row) rs)
      as [lines' |] eqn:Hrest; [| done].
    injection Hlines as <-.
    cbn [for_each]. rewrite bind_run, bind_run, row_fields_run.
    rewrite (row_values_first_missing _ _ _ Hrow), Hrow.
    rewrite (file_write_run _ _ _ _ Hc).
    rewrite (IH lines' (c +:+ format_row fields)); [| done | apply lookup_insert_eq].
    rewrite concat_cons, <- append_assoc.
    f_equal. apply world_eq; try done. cbn.
    by rewrite insert_insert_eq.
Qed.

(** The loop over the rows of a table that lacks a label: the first row
    raises. *)
Lemma write_rows_missing (t : DataFrame) (path name : string)
    (row : list value) (rs : list (list value)) (w : world) :
  first_missing (columns t) required_columns = Some name ->
  for_each (row :: rs) (fun row => fields ← row_fields t row;
                                   file_write path (format_row fields)) w
  = (Raise (key_error name), w).
Proof.
  intros Hmiss. cbn [for_each]. rewrite bind_run, bind_run, row_fields_run.
  by rewrite Hmiss.
Qed.

Lemma save_locally_start (ev : env) (df : loc) (filename : string)
    (t : DataFrame) (col : list value) (w : world) :
  frames w !! df = Some t -> column t "headline" = Some col ->
  let t' := set_column t "headline" (VStr ∘ _clean_headline <$> col) in
  let path := os_path_join local_backup_dir filename in
  _save_locally ev df filename w
  = (open_w ev path ;;
     file_write path header_line ;;
     t ← deref df;
     for_each (rows t) (fun row =>
       fields ← row_fields t row;
       file_write path (Csv.format_row fields)) ;;
     print ("Local backup saved to: " +:+ path) ;;
     mret path) (set_frames <[df := t']> w).
Proof.
  intros Hframe Hcol t' path. unfold _save_locally.
  rewrite (bind_return (deref df) _ w w t) by (unfold deref; by rewrite Hframe).
  rewrite (bind_return (or_key_error _ _) _ w w col) by (by rewrite Hcol).
  by rewrite (bind_return (assign _ _) _ w (set_frames <[df := t']> w) tt).
Qed.

(** [_save_locally] where the file opens and every row has its fields. *)
Lemma save_locally_run (ev : env) (df : loc) (filename : string)
    (t : DataFrame) (col : list value) (content : string) (w : world) :
  frames w !! df = Some t -> column t "headline" = Some col ->
  open_w_error ev = None ->
  let t' := set_column t "headline" (VStr ∘ _clean_headline <$> col) in
  let path := os_path_join local_backup_dir filename in
  csv_text t' = Some content ->
  _save_locally ev df filename w
  = (Return path, saved_locally df t' path content w).
Proof.
  intros Hframe Hcol Hopen t' path Htext.
  rewrite (save_locally_start ev df filename t col w Hframe Hcol).
  fold t' path. unfold csv_text in Htext.
  destruct (mapM (fun row => format_row <$> row_values t' row) (rows t'))
    as [lines |] eqn:Hlines; [| done].
  change (Some (header_line +:+ String.concat "" lines) = Some content) in Htext.
  assert (Hcontent : content = header_line +:+ String.concat "" lines)
    by congruence.
  clear Htext. subst content.
  unfold open_w. rewrite Hopen. cbn [may_fail].
  rewrite bind_run, bind_run. cbn [mret M_ret modify].
  rewrite bind_run, (file_write_run _ _ "") by apply lookup_insert_eq.
  rewrite bind_run. unfold deref at 1. cbn [frames set_frames set_files].
  rewrite lookup_insert_eq.
  rewrite bind_run, (write_rows_run _ _ _ lines header_line); [| done |].
  2:{ cbn [files set_files]. apply lookup_insert_eq. }
  rewrite bind_run. cbn [print print_end modify mret M_ret].
  f_equal. apply world_eq; unfold saved_locally;
    cbn [files dirs containers blobs sdk_log stdout frames set_files set_stdout
         set_frames]; [| reflexivity ..].
  rewrite insert_insert_eq. apply insert_insert_eq.
Qed.
End Forward.

Section SaveRuns.
Context `{PyRuntime}.

Lemma absent_inv (err : option exn) : absent err = true -> err = None.
Proof. by destruct err. Qed.

Lemma no_errors_inv (ev : env) :
  no_errors ev = true ->
  open_w_error ev = None /\ open_r_error ev = None /\ open_rb_error ev = None /\
  connect_error ev = None /\ exists_error ev = None /\ create_error ev = None /\
  upload_error ev = None.
Proof.
  unfold no_errors. rewrite !andb_true_iff.
  intros ((((((? & ?) & ?) & ?) & ?) & ?) & ?). auto 10 using absent_inv.
Qed.

Lemma forallb_line_ok (lines : list string) :
  forallb line_ok lines = true ->
  Forall (fun l => count l separator = 5%nat) lines.
Proof.
  rewrite forallb_forall, Forall_forall. intros Hall l Hl.
  apply Nat.eqb_eq. apply Hall. by apply list_elem_of_In.
Qed.

(** The steps after validation, where nothing fails. *)
Lemma upload_run (ev : env) (path filename content : string) (w : world) :
  connect_error ev = None -> exists_error ev = None -> create_error ev = None ->
  open_rb_error ev = None -> upload_error ev = None ->
  files w !! path = Some content ->
  (may_fail (connect_error ev) ;;
   present ← sdk_exists ev container_name;
   (if negb present then sdk_create_container ev container_name else mret tt) ;;
   data ← open_read (open_rb_error ev) path;
   sdk_upload_blob ev container_name filename data ;;
   print ("Successfully uploaded validated file: " +:+ filename) ;;
   mret true) w
  = (Return true,
     {| files := files w;
        dirs := dirs w; containers := {[ container_name ]} ∪ containers w;
        blobs := <[(container_name, filename) := content]> (blobs w);
        sdk_log := (sdk_log w
                    ++ upload_calls (bool_decide (container_name ∈ containers w))
                         filename content)%list;
        stdout := (stdout w
                   ++ ["Successfully uploaded validated file: " +:+ filename +:+ NL])%list;
        frames := frames w |}).
Proof.
  intros Hconn Hex Hcr Hrb Hup Hfile.
  unfold sdk_exists, sdk_create_container, sdk_upload_blob, open_read, print, print_end.
  rewrite Hconn, Hex, Hcr, Hrb, Hup. cbn [may_fail].
  unfold mbind, M_bind, mret, M_ret, modify, get_world. cbv beta iota.
  cbn [containers set_sdk_log].
  destruct (bool_decide (container_name ∈ containers w)) eqn:Hpresent;
    cbn [negb]; cbv beta iota;
    cbn [files containers set_sdk_log set_containers]; rewrite Hfile;
    f_equal; apply world_eq; try done.
  - cbn. apply bool_decide_eq_true in Hpresent. symmetry.
    apply subseteq_union_1_L. by apply singleton_subseteq_l.
  - cbn. unfold upload_calls. cbn. by rewrite <- !app_assoc.
  - cbn. unfold upload_calls. cbn. by rewrite <- !app_assoc.
Qed.

Lemma save_to_blob_steps (ev : env) (df : loc) (w : world) :
  save_to_blob ev df w
  = match save_steps ev df _generate_filename w with
    | (Return b, w') => (Return b, w')
    | (Raise e, w') =>
        if is_Exception (exn_cls e)
        then (Return false,
              set_stdout (fun o => (o ++ [save_error e +:+ NL])%list) w')
        else (Raise e, w')
    end.
Proof.
  unfold save_to_blob, try_except.
  destruct (save_steps ev df _generate_filename w) as [[b | e] w']; [done |].
  by destruct (is_Exception (exn_cls e)).
Qed.

(** The world after a save that succeeds. *)
Lemma save_to_blob_run (ev : env) (df : loc) (t : DataFrame) (col : list value)
    (content : string) (w : world) :
  frames w !! df = Some t -> column t "headline" = Some col ->
  no_errors ev = true ->
  let t' := set_column t "headline" (VStr ∘ _clean_headline <$> col) in
  let path := "reddit_data_backups/reddit_news.csv" in
  csv_text t' = Some content ->
  forallb line_ok (file_lines content) = true ->
  save_to_blob ev df w
  = (Return true,
     {| files := <[path := content]> (files w);
        dirs := dirs w; containers := {[ "reddit-sentiment-data" ]} ∪ containers w;
        blobs := <[("reddit-sentiment-data", "reddit_news.csv") := content]> (blobs w);
        sdk_log := (sdk_log w
                    ++ upload_calls (bool_decide ("reddit-sentiment-data" ∈ containers w))
                         "reddit_news.csv" content)%list;
        stdout := (stdout w
                   ++ ["Local backup saved to: " +:+ path +:+ NL;
                       "Successfully uploaded validated file: reddit_news.csv" +:+ NL])%list;
        frames := <[df := t']> (frames w) |}).
Proof.
  intros Hframe Hcol (Hw & Hr & Hrb & Hconn & Hex & Hcr & Hup)%no_errors_inv
    t' path Htext Hlines.
  rewrite save_to_blob_steps. unfold save_steps.
  rewrite bind_run,
    (save_locally_run ev df _generate_filename t col content w Hframe Hcol Hw Htext).
  fold t'. change (os_path_join local_backup_dir _generate_filename) with path.
  set (w1 := saved_locally df t' path content w).
  assert (Hfile : files w1 !! path = Some content) by apply lookup_insert_eq.
  rewrite bind_run, (validate_run ev path content w1 Hr Hfile).
  rewrite check_lines_ok by (by apply forallb_line_ok).
  cbn [negb]. rewrite bind_run. cbn [mret M_ret].
  rewrite (upload_run ev path _generate_filename content w1 Hconn Hex Hcr Hrb Hup Hfile).
  f_equal. apply world_eq; try done. cbn. by rewrite <- app_assoc.
Qed.

(** X7. A save on which nothing fails.  When the table has a headline
    column, the text of the cleaned table could be written and each of its
    lines has 5 separators, and no operation of the file system or of the
    SDK fails, [save_to_blob] returns [True] and leaves exactly this: the
    backup file and the blob [reddit_news.csv] hold the text, the
    container exists, the SDK was asked for the existence of the
    container, for its creation only where it was missing, and for the
    upload, in this order, the two messages were printed, and the table of
    the caller has its headlines cleaned. *)
Theorem save_succeeds (ev : env) (df : loc) (t : DataFrame) (col : list value)
    (content : string) (w : world) :
  frames w !! df = Some t -> column t "headline" = Some col ->
  no_errors ev = true ->
  let t' := set_column t "headline" (VStr ∘ _clean_headline <$> col) in
  let path := "reddit_data_backups/reddit_news.csv" in
  csv_text t' = Some content ->
  forallb line_ok (file_lines content) = true ->
  save_to_blob ev df w
  = (Return true,
     {| files := <[path := content]> (files w);
        dirs := dirs w; containers := {[ "reddit-sentiment-data" ]} ∪ containers w;
        blobs := <[("reddit-sentiment-data", "reddit_news.csv") := content]> (blobs w);
        sdk_log := (sdk_log w
                    ++ upload_calls (bool_decide ("reddit-sentiment-data" ∈ containers w))
                         "reddit_news.csv" content)%list;
        stdout := (stdout w
                   ++ ["Local backup saved to: " +:+ path +:+ NL;
                       "Successfully uploaded validated file: reddit_news.csv" +:+ NL])%list;
        frames := <[df := t']> (frames w) |}).
Proof. apply save_to_blob_run. Qed.

(** X8. A table without a headline column: [save_to_blob] returns
    [False], its only effect is the diagnostic of the KeyError; no file is
    opened, no request is sent, the table is as it was. *)
Theorem save_without_headline_column (ev : env) (df : loc) (t : DataFrame)
    (w : world) :
  frames w !! df = Some t -> column t "headline" = None ->
  save_to_blob ev df w
  = (Return false,
     set_stdout (fun o => (o ++ [NL +:+ "Error during save operation: 'headline'"
                                 +:+ NL])%list) w).
Proof.
  intros Hframe Hcol. rewrite save_to_blob_steps.
  assert (Hlocal : _save_locally ev df _generate_filename w
                   = (Raise (key_error "headline"), w)).
  { unfold _save_locally.
    rewrite (bind_return (deref df) _ w w t) by (unfold deref; by rewrite Hframe).
    by rewrite bind_run, Hcol. }
  unfold save_steps. by rewrite bind_run, Hlocal.
Qed.

Lemma set_column_columns (t : DataFrame) (name : string) (col vals : list value) :
  column t name = Some col -> columns (set_column t name vals) = columns t.
Proof.
  unfold column, set_column.
  by destruct (index_of name (columns t)).
Qed.

Lemma set_column_rows_length (t : DataFrame) (name : string) (vals : list value) :
  length vals = length (rows t) ->
  length (rows (set_column t name vals)) = length (rows t).
Proof.
  intros Hlen. unfold set_column.
  destruct (index_of name (columns t)); cbn [rows];
    rewrite length_zip_with; lia.
Qed.

Lemma cleaned_length (t : DataFrame) (col : list value) :
  column t "headline" = Some col ->
  length (VStr ∘ _clean_headline <$> col) = length (rows t).
Proof. intros Hcol. rewrite length_fmap. by eapply column_length. Qed.

(** X9. A table with rows and a headline column that lacks another of
    the six columns: [save_to_blob] returns [False] with the KeyError of
    the first missing column as diagnostic; the backup file is left with
    the header line alone, the table of the caller has its headlines
    cleaned, and nothing is sent to the SDK. *)
Theorem save_with_missing_column (ev : env) (df : loc) (t : DataFrame)
    (col : list value) (name : string) (w : world) :
  frames w !! df = Some t -> column t "headline" = Some col ->
  rows t <> [] ->
  first_missing (columns t) required_columns = Some name ->
  open_w_error ev = None ->
  save_to_blob ev df w
  = (Return false,
     {| files := <["reddit_data_backups/reddit_news.csv" := header_line]> (files w);
        dirs := dirs w; containers := containers w; blobs := blobs w; sdk_log := sdk_log w;
        stdout := (stdout w ++ [save_error (key_error name) +:+ NL])%list;
        frames := <[df := set_column t "headline" (VStr ∘ _clean_headline <$> col)]>
                    (frames w) |}).
Proof.
  intros Hframe Hcol Hrows Hmiss Hopen. rewrite save_to_blob_steps.
  set (t' := set_column t "headline" (VStr ∘ _clean_headline <$> col)).
  assert (Hrows' : exists r rs, rows t' = r :: rs).
  { pose proof (set_column_rows_length t "headline" _ (cleaned_length t col Hcol))
      as Hlen. fold t' in Hlen.
    destruct (rows t') as [| r rs]; [| by eauto].
    destruct (rows t); [done | discriminate Hlen]. }
  destruct Hrows' as (r & rs & Hrows').
  assert (Hmiss' : first_missing (columns t') required_columns = Some name)
    by (unfold t'; by erewrite set_column_columns).
  unfold save_steps.
  rewrite bind_run, (save_locally_start ev df _ t col w Hframe Hcol). fold t'.
  unfold open_w. rewrite Hopen. cbn [may_fail].
  rewrite bind_run, bind_run. cbn [mret M_ret modify].
  rewrite bind_run, (file_write_run _ _ "") by apply lookup_insert_eq.
  rewrite bind_run. unfold deref at 1. cbn [frames set_frames set_files].
  rewrite lookup_insert_eq, Hrows'.
  rewrite bind_run, (write_rows_missing t' _ name r rs _ Hmiss').
  cbn [key_error exn_cls is_Exception].
  f_equal. apply world_eq;
    cbn [files dirs containers blobs sdk_log stdout frames set_files set_stdout
         set_frames]; [| reflexivity ..].
  apply insert_insert_eq.
Qed.

(** X10. When the backup file cannot be opened for writing,
    [save_to_blob] returns [False] with the diagnostic of the error; no
    file and no blob changes and nothing is sent to the SDK, but the
    headlines of the table of the caller are cleaned already. *)
Theorem save_open_failure (ev : env) (df : loc) (t : DataFrame)
    (col : list value) (e : exn) (w : world) :
  frames w !! df = Some t -> column t "headline" = Some col ->
  open_w_error ev = Some e -> is_Exception (exn_cls e) = true ->
  save_to_blob ev df w
  = (Return false,
     {| files := files w; dirs := dirs w; containers := containers w; blobs := blobs w;
        sdk_log := sdk_log w;
        stdout := (stdout w ++ [save_error e +:+ NL])%list;
        frames := <[df := set_column t "headline" (VStr ∘ _clean_headline <$> col)]>
                    (frames w) |}).
Proof.
  intros Hframe Hcol Hopen Hexc. rewrite save_to_blob_steps. unfold save_steps.
  rewrite bind_run, (save_locally_start ev df _ t col w Hframe Hcol).
  unfold open_w. rewrite Hopen. cbn [may_fail].
  rewrite bind_run, bind_run. cbn [raise]. rewrite Hexc. reflexivity.
Qed.

(** X11. A table without rows that has a headline column is saved when
    nothing fails: [save_to_blob] returns [True], the backup file and the
    blob hold the header line alone, and the table is as it was. *)
Theorem save_empty_table (ev : env) (df : loc) (t : DataFrame) (w : world) :
  frames w !! df = Some t -> rows t = [] ->
  is_Some (index_of "headline" (columns t)) ->
  no_errors ev = true ->
  exists w',
    save_to_blob ev df w = (Return true, w') /\
    files w' = <["reddit_data_backups/reddit_news.csv" := header_line]> (files w) /\
    blobs w' = <[("reddit-sentiment-data", "reddit_news.csv") := header_line]> (blobs w) /\
    frames w' = frames w.
Proof.
  intros Hframe Hrows [i Hi] Hcalm.
  assert (Hcol : column t "headline" = Some []).
  { unfold column. rewrite Hi, Hrows. reflexivity. }
  assert (Ht' : set_column t "headline" (VStr ∘ _clean_headline <$> []) = t).
  { unfold set_column. rewrite Hi, Hrows. destruct t. simpl in *. by subst. }
  pose proof (save_to_blob_run ev df t [] header_line w Hframe Hcol Hcalm) as Hrun.
  cbv zeta in Hrun. rewrite Ht' in Hrun.
  eexists. split.
  - apply Hrun; [| vm_compute; reflexivity].
    unfold csv_text. rewrite Hrows. cbn [mapM]. cbn [mret option_ret mbind option_bind String.concat].
    by rewrite append_nil_r.
  - cbn [files blobs frames]. split; [reflexivity |]. split; [reflexivity |].
    by apply insert_id.
Qed.

(** The steps after validation, where the upload fails. *)
Lemma upload_fail_run (ev : env) (path filename content : string) (e : exn)
    (w : world) :
  connect_error ev = None -> exists_error ev = None -> create_error ev = None ->
  open_rb_error ev = None -> upload_error ev = Some e ->
  files w !! path = Some content ->
  (may_fail (connect_error ev) ;;
   present ← sdk_exists ev container_name;
   (if negb present then sdk_create_container ev container_name else mret tt) ;;
   data ← open_read (open_rb_error ev) path;
   sdk_upload_blob ev container_name filename data ;;
   print ("Successfully uploaded validated file: " +:+ filename) ;;
   mret true) w
  = (Raise e,
     {| files := files w;
        dirs := dirs w; containers := {[ container_name ]} ∪ containers w;
        blobs := blobs w;
        sdk_log := (sdk_log w
                    ++ upload_calls (bool_decide (container_name ∈ containers w))
                         filename content)%list;
        stdout := stdout w;
        frames := frames w |}).
Proof.
  intros Hconn Hex Hcr Hrb Hup Hfile.
  unfold sdk_exists, sdk_create_container, sdk_upload_blob, open_read, print, print_end.
  rewrite Hconn, Hex, Hcr, Hrb, Hup. cbn [may_fail].
  unfold mbind, M_bind, mret, M_ret, modify, get_world, raise. cbv beta iota.
  cbn [containers set_sdk_log].
  destruct (bool_decide (container_name ∈ containers w)) eqn:Hpresent;
    cbn [negb]; cbv beta iota;
    cbn [files containers set_sdk_log set_containers]; rewrite Hfile;
    f_equal; apply world_eq; try done.
  - cbn. apply bool_decide_eq_true in Hpresent. symmetry.
    apply subseteq_union_1_L. by apply singleton_subseteq_l.
  - cbn. unfold upload_calls. cbn. by rewrite <- !app_assoc.
  - cbn. unfold upload_calls. cbn. by rewrite <- !app_assoc.
Qed.

(** X12. When only the upload fails, [save_to_blob] returns [False]
    with the diagnostic of the error after everything before the upload
    has happened: the backup file holds the text of the cleaned table, the
    container exists, the upload was requested, the blobs are as they
    were. *)
Theorem save_upload_failure (ev : env) (df : loc) (t : DataFrame)
    (col : list value) (content : string) (e : exn) (w : world) :
  frames w !! df = Some t -> column t "headline" = Some col ->
  open_w_error ev = None -> open_r_error ev = None -> open_rb_error ev = None ->
  connect_error ev = None -> exists_error ev = None -> create_error ev = None ->
  upload_error ev = Some e -> is_Exception (exn_cls e) = true ->
  let t' := set_column t "headline" (VStr ∘ _clean_headline <$> col) in
  let path := "reddit_data_backups/reddit_news.csv" in
  csv_text t' = Some content ->
  forallb line_ok (file_lines content) = true ->
  save_to_blob ev df w
  = (Return false,
     {| files := <[path := content]> (files w);
        dirs := dirs w; containers := {[ "reddit-sentiment-data" ]} ∪ containers w;
        blobs := blobs w;
        sdk_log := (sdk_log w
                    ++ upload_calls (bool_decide ("reddit-sentiment-data" ∈ containers w))
                         "reddit_news.csv" content)%list;
        stdout := (stdout w
                   ++ ["Local backup saved to: " +:+ path +:+ NL;
                       save_error e +:+ NL])%list;
        frames := <[df := t']> (frames w) |}).
Proof.
  intros Hframe Hcol Hw Hr Hrb Hconn Hex Hcr Hup Hexc t' path Htext Hlines.
  rewrite save_to_blob_steps. unfold save_steps.
  rewrite bind_run,
    (save_locally_run ev df _generate_filename t col content w Hframe Hcol Hw Htext).
  fold t'. change (os_path_join local_backup_dir _generate_filename) with path.
  set (w1 := saved_locally df t' path content w).
  assert (Hfile : files w1 !! path = Some content) by apply lookup_insert_eq.
  rewrite bind_run, (validate_run ev path content w1 Hr Hfile).
  rewrite check_lines_ok by (by apply forallb_line_ok).
  cbn [negb]. rewrite bind_run. cbn [mret M_ret].
  rewrite (upload_fail_run ev path _generate_filename content e w1
             Hconn Hex Hcr Hrb Hup Hfile).
  rewrite Hexc. f_equal. apply world_eq; try done. cbn. by rewrite <- app_assoc.
Qed.

Lemma index_of_lookup (name : string) (cols : list string) (i : nat) :
  index_of name cols = Some i -> cols !! i = Some name.
Proof.
  revert i. induction cols as [| c cols IH]; intros i; cbn [index_of]; [done |].
  destruct (String.eqb_spec c name) as [-> | Hne].
  - by intros [= <-].
  - destruct (index_of name cols) as [j |]; [| done].
    intros [= <-]. by apply IH.
Qed.

Lemma column_set_column_ne (t : DataFrame) (name other : string)
    (col vals : list value) :
  column t name = Some col -> length vals = length (rows t) -> other <> name ->
  column (set_column t name vals) other = column t other.
Proof.
  intros Hcol Hlen Hne. unfold column, set_column in *.
  destruct (index_of name (columns t)) as [i |] eqn:Hi; [| done].
  cbn [columns rows].
  destruct (index_of other (columns t)) as [j |] eqn:Hj; [| done].
  cbn. f_equal.
  assert (Hij : i <> j).
  { intros <-. apply index_of_lookup in Hi, Hj. congruence. }
  clear Hcol. revert vals Hlen.
  induction (rows t) as [| r rs IH]; intros [| v vals] Hlen; try done.
  cbn [zip_with fmap list_fmap]. rewrite <- (IH vals) by (simpl in Hlen; lia).
  f_equal. unfold cell. by rewrite list_lookup_insert_ne.
Qed.

(** X13. However [save_to_blob] ends, for a table with a headline
    column: every other table is as it was, and the table has its columns,
    its number of rows and the cells of every column but the headline
    column. *)
Theorem save_changes_headlines_only (ev : env) (df : loc) (t : DataFrame)
    (col : list value) (w w1 : world) (r : outcome bool) :
  frames w !! df = Some t -> column t "headline" = Some col ->
  save_to_blob ev df w = (r, w1) ->
  (forall l, l <> df -> frames w1 !! l = frames w !! l) /\
  exists t1,
    frames w1 !! df = Some t1 /\ columns t1 = columns t /\
    length (rows t1) = length (rows t) /\
    forall name, name <> "headline" -> column t1 name = column t name.
Proof.
  intros Hframe Hcol Hrun.
  pose proof (save_frames _ _ _ _ _ _ _ Hframe Hcol Hrun) as Hframes.
  pose proof (cleaned_length t col Hcol) as Hlen.
  split.
  - intros l Hl. by rewrite Hframes, lookup_insert_ne.
  - eexists. split; [by rewrite Hframes, lookup_insert_eq |].
    split; [by eapply set_column_columns |].
    split; [by apply set_column_rows_length |].
    intros name Hname. by eapply column_set_column_ne.
Qed.
End SaveRuns.

Section Backup.
Context `{PyRuntime}.

Lemma last_upload_call (log : list sdk_call) (present : bool) (blob data : string) :
  last (log ++ upload_calls present blob data)
  = Some (CallUpload container_name blob data).
Proof.
  unfold upload_calls. rewrite app_comm_cons, (assoc_L (++)). apply last_snoc.
Qed.

(** C9. The backup is written to [reddit_data_backups/reddit_news.csv]:
    when [_save_locally] returns, the file at that path holds the text
    of the cleaned table and nothing of what it held before.  The upload
    goes to the blob [reddit_news.csv] of the container and replaces what
    the blob held: when the backup passes the validation and nothing
    fails, [save_to_blob] returns [True] and the last request to the SDK
    is the upload of that text under that name; and whenever
    [save_to_blob] returns [True], the blob holds that same text, whatever
    it held before. *)
Theorem backup_replaces_previous (ev : env) (df : loc) (w w1 : world)
    (path : string) :
  _save_locally ev df _generate_filename w = (Return path, w1) ->
  _generate_filename = "reddit_news.csv" /\
  path = "reddit_data_backups/reddit_news.csv" /\
  exists t content,
    frames w1 !! df = Some t /\ csv_text t = Some content /\
    files w1 = <[path := content]> (files w) /\
    (forall w2, save_to_blob ev df w = (Return true, w2) ->
       files w2 = <[path := content]> (files w) /\
       blobs w2
       = <[("reddit-sentiment-data", "reddit_news.csv") := content]> (blobs w)) /\
    (no_errors ev = true -> forallb line_ok (file_lines content) = true ->
     exists w2,
       save_to_blob ev df w = (Return true, w2) /\
       last (sdk_log w2)
       = Some (CallUpload "reddit-sentiment-data" "reddit_news.csv" content) /\
       blobs w2
       = <[("reddit-sentiment-data", "reddit_news.csv") := content]> (blobs w)).
Proof.
  intros Hlocal. split; [reflexivity |].
  destruct (save_locally_inv _ _ _ _ _ _ Hlocal)
    as (t & col & content & Hframe & Hcol & -> & _ & Htext & Hfiles & Hframes).
  split; [reflexivity |].
  eexists _, content. split; [by rewrite Hframes, lookup_insert_eq |].
  split; [exact Htext |]. split; [exact Hfiles |]. split.
  - intros w2 Hsave. unfold save_to_blob, try_except in Hsave.
    destruct (save_steps ev df _generate_filename w) as [[b | e] w3] eqn:Hsteps.
    + injection Hsave as -> ->.
      destruct (save_steps_inv _ _ _ _ _ _ Hsteps)
        as (_ & path' & w1' & data & Hlocal' & _ & _ & Hdata & Hf2 & _ & Hb2).
      rewrite Hlocal in Hlocal'. injection Hlocal' as <- <-.
      rewrite Hfiles, lookup_insert_eq in Hdata. injection Hdata as <-.
      by rewrite Hf2, Hb2, Hfiles.
    + by destruct (is_Exception (exn_cls e)).
  - intros Hcalm Hok. eexists. split.
    + exact (save_to_blob_run ev df t col content w Hframe Hcol Hcalm Htext Hok).
    + cbn [sdk_log blobs]. split; [apply last_upload_call | reflexivity].
Qed.
End Backup.

Section AllOrNothing.
Context `{PyRuntime}.

Lemma keeps_then {A B} (P : world -> Prop) (m : M A) (f : A -> M B)
    (Q : outcome B -> world -> Prop) :
  keeps P m -> (forall e w, P w -> Q (Raise e) w) ->
  (forall a, hoare P (f a) Q) -> hoare P (m ≫= f) Q.
Proof.
  intros Hm Hraise Hf. apply hoare_bind with (R := fun _ => P); [| exact Hf].
  eapply hoare_conseq; [exact Hm | auto |]. intros [a | e] w; auto.
Qed.

(** The upload and what follows it: the blobs are as before unless the
    steps run to their end. *)
Lemma upload_tail_blobs (ev : env) (filename data : string)
    (B : gmap (string * string) string) :
  hoare (fun w => blobs w = B)
        (sdk_upload_blob ev container_name filename data ;;
         print ("Successfully uploaded validated file: " +:+ filename) ;;
         mret true)
        (fun r w => match r with
                    | Return b => b = true
                    | Raise _ => blobs w = B
                    end).
Proof.
  intros w r w' Hw. unfold sdk_upload_blob.
  rewrite !bind_run. cbn [modify].
  destruct (upload_error ev) as [e |]; cbn [may_fail raise mret M_ret].
  - intros [= <- <-]. exact Hw.
  - rewrite !bind_run. cbn [modify print print_end mret M_ret].
    by intros [= <- <-].
Qed.

Lemma save_steps_blobs (ev : env) (df : loc) (filename : string)
    (B : gmap (string * string) string) :
  hoare (fun w => blobs w = B) (save_steps ev df filename)
        (fun r w => match r with
                    | Return b => b = true
                    | Raise _ => blobs w = B
                    end).
Proof.
  unfold save_steps.
  apply keeps_then; [| auto | intros path].
  { unfold _save_locally, assign, open_w, file_write, row_fields, print, print_end.
    repeat keeps_step; assumption. }
  apply keeps_then; [| auto | intros valid].
  { unfold _validate_csv, open_read, print, print_end.
    repeat keeps_step; assumption. }
  apply keeps_then; [| auto | intros _].
  { repeat keeps_step. }
  apply keeps_then; [| auto | intros _].
  { repeat keeps_step. }
  apply keeps_then; [| auto | intros present].
  { unfold sdk_exists. repeat keeps_step; assumption. }
  apply keeps_then; [| auto | intros _].
  { unfold sdk_create_container. repeat keeps_step; assumption. }
  apply keeps_then; [| auto | intros data].
  { unfold open_read. repeat keeps_step. }
  apply upload_tail_blobs.
Qed.

(** X14. The upload is all or nothing: however [save_to_blob] ends,
    unless it returns [True] the blobs are what they were; and in every
    case no blob but [reddit_news.csv] of the container
    [reddit-sentiment-data] has changed. *)
Theorem upload_all_or_nothing (ev : env) (df : loc) (w w' : world)
    (r : outcome bool) :
  save_to_blob ev df w = (r, w') ->
  (r <> Return true -> blobs w' = blobs w) /\
  (forall k, k <> ("reddit-sentiment-data", "reddit_news.csv") ->
             blobs w' !! k = blobs w !! k).
Proof.
  intros Hrun.
  assert (Hfail : r <> Return true -> blobs w' = blobs w).
  { unfold save_to_blob, try_except in Hrun.
    pose proof (save_steps_blobs ev df _generate_filename (blobs w) w) as Hsteps.
    destruct (save_steps ev df _generate_filename w) as [[b | e] w1] eqn:Hs;
      specialize (Hsteps _ _ eq_refl eq_refl); cbn beta iota in Hsteps.
    - injection Hrun as <- <-. subst b. done.
    - destruct (is_Exception (exn_cls e)).
      + rewrite bind_run in Hrun. cbn [print print_end modify mret M_ret] in Hrun.
        injection Hrun as <- <-. done.
      + injection Hrun as <- <-. done. }
  split; [exact Hfail |]. intros k Hk.
  unfold save_to_blob, try_except in Hrun.
  destruct (save_steps ev df _generate_filename w) as [[b | e] w1] eqn:Hs.
  - injection Hrun as <- <-.
    apply save_steps_inv in Hs as (_ & path & w0 & data & _ & _ & _ & _ & _ & _ & Hb).
    rewrite Hb. by apply lookup_insert_ne.
  - rewrite Hfail; [done |].
    destruct (is_Exception (exn_cls e)).
    + rewrite bind_run in Hrun. cbn [print print_end modify mret M_ret] in Hrun.
      by injection Hrun as <- <-.
    + by injection Hrun as <- <-.
Qed.
End AllOrNothing.

Section Footprint.
Context `{PyRuntime}.

Lemma save_to_blob_dirs (ev : env) (df : loc) (D : gset string) :
  keeps (fun w => dirs w = D) (save_to_blob ev df).
Proof.
  unfold save_to_blob, save_steps, _save_locally, _validate_csv, open_read, assign,
    open_w, file_write, row_fields, sdk_exists, sdk_create_container,
    sdk_upload_blob, print, print_end.
  repeat keeps_step; assumption.
Qed.

Lemma save_to_blob_elsewhere (ev : env) (df : loc) (w : world) :
  keeps (same_elsewhere (os_path_join local_backup_dir _generate_filename)
                        container_name w)
        (save_to_blob ev df).
Proof.
  unfold save_to_blob, save_steps, _save_locally, _validate_csv, open_read, assign,
    open_w, file_write, row_fields, sdk_exists, sdk_create_container,
    sdk_upload_blob, print, print_end.
  repeat keeps_step;
    match goal with
    | Hs : same_elsewhere _ _ _ _ |- _ => destruct Hs as [Hfiles Hconts]
    end;
    (split; [intros p Hp | intros c Hc]);
    cbn [files containers set_files set_frames set_stdout set_sdk_log
         set_containers set_blobs];
    rewrite ?lookup_insert_ne by done; auto.
  rewrite elem_of_union, elem_of_singleton, Hconts by done. tauto.
Qed.

(** X15. The footprint of a save: however [save_to_blob] ends, no file
    but [reddit_data_backups/reddit_news.csv] has changed, no container
    but [reddit-sentiment-data] has appeared or disappeared, and no
    directory has been made. *)
Theorem save_touches_backup_only (ev : env) (df : loc) (w w' : world)
    (r : outcome bool) :
  save_to_blob ev df w = (r, w') ->
  (forall p, p <> "reddit_data_backups/reddit_news.csv" ->
             files w' !! p = files w !! p) /\
  (forall c, c <> "reddit-sentiment-data" -> c ∈ containers w' <-> c ∈ containers w) /\
  dirs w' = dirs w.
Proof.
  intros Hrun.
  assert (Helsewhere : same_elsewhere "reddit_data_backups/reddit_news.csv"
                         "reddit-sentiment-data" w w').
  { apply (save_to_blob_elsewhere ev df w w r w'); [| exact Hrun].
    split; intros; reflexivity. }
  destruct Helsewhere as [Hfiles Hcontainers].
  split; [exact Hfiles |]. split; [exact Hcontainers |].
  exact (save_to_blob_dirs ev df (dirs w) w r w' eq_refl Hrun).
Qed.
End Footprint.

Section QuoteFree.
Context `{PyRuntime}.
Hypothesis float_str_chars :
  forall x, all_chars is_float_char (float_str x) = true.

Lemma no_quote_cons (a : ascii) (s : string) :
  all_chars is_not_quote (String a s) = true ->
  Ascii.eqb a dquote = false /\ all_chars is_not_quote s = true.
Proof.
  cbn [all_chars]. unfold is_not_quote at 1.
  rewrite andb_true_iff, negb_true_iff. tauto.
Qed.

Lemma occ_none_no_quote (s : string) :
  occ dquote s = 0%nat -> all_chars is_not_quote s = true.
Proof.
  induction s as [| a s IH]; [done |]. cbn [occ all_chars]. unfold is_not_quote at 1.
  destruct (Ascii.eqb a dquote); [done |]. cbn. auto.
Qed.

Lemma escape_no_quote (s : string) :
  all_chars is_not_quote s = true -> all_chars is_not_quote (escape s) = true.
Proof.
  induction s as [| a s IH]; [done |].
  intros [Hq Hs]%no_quote_cons. cbn [escape]. rewrite Hq.
  destruct (Ascii.eqb a backslash) eqn:Hb.
  - apply Ascii.eqb_eq in Hb as ->. cbn [all_chars]. by rewrite IH.
  - cbn [all_chars]. unfold is_not_quote at 1. by rewrite Hq, IH.
Qed.

Lemma escape_no_break (s : string) :
  all_chars is_not_break s = true -> all_chars is_not_break (escape s) = true.
Proof.
  induction s as [| a s IH]; [done |].
  intros (Hcr & Hlf & Hs)%no_break_cons. cbn [escape].
  assert (Ha : is_not_break a = true) by (unfold is_not_break; by rewrite Hcr, Hlf).
  destruct (Ascii.eqb a dquote) eqn:Hq.
  - apply Ascii.eqb_eq in Hq as ->. cbn [all_chars]. by rewrite IH.
  - destruct (Ascii.eqb a backslash) eqn:Hb; cbn [all_chars]; by rewrite ?Ha, IH.
Qed.

(** No occurrence of the separator starts inside a text without quotes. *)
Lemma count_no_quote (s t : string) :
  all_chars is_not_quote s = true ->
  count_from separator 0 (s +:+ t) = count_from separator 0 t.
Proof.
  induction s as [| a s IH]; [done |].
  intros [Hq Hs]%no_quote_cons.
  cbn [String.append count_from]. rewrite separator_eq at 1.
  cbn [startswith]. rewrite (Ascii.eqb_sym dquote a), Hq. auto.
Qed.

Lemma float_char_not_comma (a : ascii) :
  is_float_char a = true -> Ascii.eqb ","%char a = false.
Proof.
  destruct a as [[] [] [] [] [] [] [] []]; vm_compute; intros Ha;
    first [discriminate Ha | reflexivity].
Qed.

Lemma float_str_no_comma (x : float) (t : string) :
  startswith separator (DQ +:+ float_str x +:+ separator +:+ t) = false.
Proof.
  pose proof (float_str_chars x) as Hx.
  destruct (float_str x) as [| a s]; [reflexivity |].
  cbn [all_chars] in Hx. apply andb_true_iff in Hx as [Ha _].
  rewrite separator_eq. unfold DQ. cbn [String.append startswith].
  rewrite Ascii.eqb_refl. by rewrite (float_char_not_comma a Ha).
Qed.

(** The opening quote of a headline field without quotes starts a
    separator only when the field is a single comma. *)
Lemma count_headline_no_quote (e rest : string) :
  all_chars is_not_quote e = true -> e <> "," ->
  count_from separator 0 (DQ +:+ e +:+ separator +:+ rest)
  = (0 + count_from separator 0 (separator +:+ rest))%nat.
Proof.
  intros He Hne. cbn [Nat.add].
  assert (Hstart : startswith separator (DQ +:+ e +:+ separator +:+ rest) = false).
  { rewrite separator_eq. unfold DQ. cbn [String.append startswith].
    rewrite Ascii.eqb_refl.
    destruct e as [| a e]; [reflexivity |].
    cbn [String.append]. destruct (Ascii.eqb ","%char a) eqn:Ha; [| done].
    apply Ascii.eqb_eq in Ha as <-.
    destruct e as [| b e]; [done |].
    apply no_quote_cons in He as [_ [Hb _]%no_quote_cons].
    cbn [String.append]. by rewrite (Ascii.eqb_sym dquote b), Hb. }
  unfold DQ at 1. cbn [String.append count_from]. unfold DQ in Hstart.
  cbn [String.append] in Hstart. rewrite Hstart.
  by apply count_no_quote.
Qed.

(** A headline field that is a single comma: its opening quote starts a
    separator, and the separator after the field is stepped over. *)
Lemma count_comma_headline (x : string) :
  startswith separator (DQ +:+ x) = false ->
  count_from separator 0 (DQ +:+ "," +:+ separator +:+ x)
  = S (count_from separator 0 x).
Proof.
  intros Hx.
  change (count_from separator 0 (DQ +:+ "," +:+ separator +:+ x))
    with (S (count_from separator 0 (DQ +:+ x))).
  unfold DQ in *. cbn [String.append count_from] in *. by rewrite Hx.
Qed.

(** The line of a record whose headline has no quote has 5 separators. *)
Lemma record_count_no_quote (h : string) (n u p c : float) (l tail : string) :
  l ∈ labels -> all_chars is_not_quote h = true ->
  count (record_body h n u p c l +:+ tail) separator
  = (5 + count_from separator 0 (DQ +:+ tail))%nat.
Proof.
  intros Hl Hh. apply escape_no_quote in Hh.
  destruct (String.eqb_spec (escape h) ",") as [Heq | Hne].
  - unfold count, record_body. rewrite Heq, !append_assoc.
    pose proof (count_after_headline float_str_chars n u p c l (DQ +:+ tail) Hl)
      as Hafter.
    rewrite count_separator in Hafter.
    rewrite count_comma_headline by apply float_str_no_comma.
    lia.
  - rewrite (record_count float_str_chars 0); [reflexivity | done |].
    intros rest. by apply count_headline_no_quote.
Qed.

Lemma clean_no_quote (h : string) :
  occ dquote h = 0%nat -> all_chars is_not_quote (_clean_headline (VStr h)) = true.
Proof.
  intros Hh. apply occ_none_no_quote. rewrite clean_doubles_quotes. lia.
Qed.

Lemma headline_column (t : DataFrame) :
  columns t = required_columns ->
  column t "headline" = Some ((fun r => cell r 0) <$> rows t).
Proof. intros Hcols. unfold column. by rewrite Hcols. Qed.

Lemma cleaned_rows (t : DataFrame) :
  columns t = required_columns ->
  set_column t "headline"
    (VStr ∘ _clean_headline <$> ((fun r => cell r 0) <$> rows t))
  = {| columns := required_columns;
       rows := (fun r => <[0%nat := VStr (_clean_headline (cell r 0))]> r) <$> rows t |}.
Proof.
  intros Hcols. unfold set_column. rewrite Hcols.
  change (index_of "headline" required_columns) with (Some 0%nat). f_equal.
  induction (rows t) as [| r rs IH]; [done |].
  cbn [fmap list_fmap zip_with compose] in *. by rewrite IH.
Qed.

(** What [_save_locally] writes for a plain scored row, and what
    [_validate_csv] reads of it. *)
Lemma plain_scored_row_line (cols_ok : DataFrame) (r : list value) :
  columns cols_ok = required_columns -> plain_scored_row r ->
  format_row <$> row_values cols_ok (<[0%nat := VStr (_clean_headline (cell r 0))]> r)
  = Some (cleaned_body r +:+ CRLF) /\
  all_chars is_not_break (cleaned_body r) = true /\
  line_ok (cleaned_body r +:+ NL) = true.
Proof.
  intros Hcols (h & n & u & p & c & l & -> & Hl & Hh).
  split; [| split].
  - unfold row_values, row_get. rewrite Hcols. cbn. f_equal.
    by apply (record_row float_str_chars).
  - cbn [cleaned_body]. apply (record_body_no_break float_str_chars); [done |].
    apply escape_no_break. apply clean_headline_line.
  - cbn [cleaned_body]. unfold line_ok.
    by rewrite record_count_no_quote by (try done; by apply clean_no_quote).
Qed.

Lemma plain_rows_text (t' : DataFrame) (rs : list (list value)) :
  columns t' = required_columns -> Forall plain_scored_row rs ->
  mapM (fun row => format_row <$> row_values t' row)
       ((fun r => <[0%nat := VStr (_clean_headline (cell r 0))]> r) <$> rs)
  = Some ((fun r => cleaned_body r +:+ CRLF) <$> rs).
Proof.
  intros Hcols Hrs. induction Hrs as [| r rs Hr _ IH]; [done |].
  cbn [fmap list_fmap mapM].
  destruct (plain_scored_row_line t' r Hcols Hr) as (-> & _).
  cbn. rewrite IH. reflexivity.
Qed.

Lemma plain_rows_lines (rs : list (list value)) :
  Forall plain_scored_row rs ->
  file_lines (String.concat "" ((fun r => cleaned_body r +:+ CRLF) <$> rs))
  = (fun r => cleaned_body r +:+ NL) <$> rs.
Proof.
  intros Hrs. induction Hrs as [| r rs Hr _ IH]; [done |].
  cbn [fmap list_fmap]. rewrite concat_cons, append_assoc.
  destruct (plain_scored_row_line {| columns := required_columns; rows := [] |}
              r eq_refl Hr) as (_ & Hbreak & _).
  rewrite file_lines_record by done. by rewrite IH.
Qed.

Lemma plain_rows_ok (rs : list (list value)) :
  Forall plain_scored_row rs ->
  forallb line_ok ((fun r => cleaned_body r +:+ NL) <$> rs) = true.
Proof.
  intros Hrs. induction Hrs as [| r rs Hr _ IH]; [done |].
  cbn [fmap list_fmap forallb]. rewrite IH, andb_true_r.
  by destruct (plain_scored_row_line {| columns := required_columns; rows := [] |}
                 r eq_refl Hr) as (_ & _ & ?).
Qed.

(** The backup of a table of plain scored rows, and its lines. *)
Lemma plain_table_text (t : DataFrame) :
  columns t = required_columns -> Forall plain_scored_row (rows t) ->
  let t' := set_column t "headline"
              (VStr ∘ _clean_headline <$> ((fun r => cell r 0) <$> rows t)) in
  let content := header_line
                 +:+ String.concat "" ((fun r => cleaned_body r +:+ CRLF) <$> rows t) in
  csv_text t' = Some content /\
  file_lines content
  = (header_body +:+ NL) :: ((fun r => cleaned_body r +:+ NL) <$> rows t) /\
  forallb line_ok (file_lines content) = true.
Proof.
  intros Hcols Hrows t' content.
  assert (Hlines : file_lines content
                   = (header_body +:+ NL)
                     :: ((fun r => cleaned_body r +:+ NL) <$> rows t)).
  { unfold content. rewrite header_row, append_assoc.
    rewrite file_lines_record by reflexivity. by rewrite plain_rows_lines. }
  split; [| split; [exact Hlines |]].
  - unfold t'. rewrite cleaned_rows by done. unfold csv_text. cbn [rows].
    by rewrite plain_rows_text.
  - rewrite Hlines. cbn [forallb]. by rewrite plain_rows_ok.
Qed.
End QuoteFree.

Section SinkRows.
Context `{PyRuntime} `{Analyzer}.

Lemma categorize_label (c : float) : _categorize_sentiment c ∈ labels.
Proof.
  unfold _categorize_sentiment, labels.
  destruct (float_ge c lit_0_2); [set_solver |].
  destruct (float_le c (float_neg lit_0_2)); set_solver.
Qed.

Lemma sink_table_rows (h : string) (hs : list string) :
  sink_table (h :: hs)
  = inr {| columns := required_columns;
           rows := List.filter (fun r => negb (existsb isna r))
                               (score_row <$> (h :: hs)) |}.
Proof.
  unfold sink_table. by rewrite analyze_sentiment_table, select_required.
Qed.

Lemma sink_rows_plain (hs : list string) :
  Forall (fun h => occ dquote h = 0%nat) hs ->
  Forall plain_scored_row
    (List.filter (fun r => negb (existsb isna r)) (score_row <$> hs)).
Proof.
  intros Hhs. apply Forall_forall. intros r Hr.
  apply list_elem_of_In, filter_In in Hr as [Hr _].
  apply list_elem_of_In, list_elem_of_fmap in Hr as (h & -> & Hh).
  rewrite Forall_forall in Hhs.
  unfold plain_scored_row, score_row. do 6 eexists.
  split; [reflexivity |]. split; [apply categorize_label | by apply Hhs].
Qed.
End SinkRows.

Section EndToEnd.
Context `{PyRuntime} `{Analyzer}.
Hypothesis float_str_chars :
  forall x, all_chars is_float_char (float_str x) = true.

(** X16. A table with the six columns whose rows are a headline
    without double quote, four scores and one of the three labels is
    saved when nothing fails: [save_to_blob] returns [True], the backup
    file and the blob hold the same text, which has one line for the
    header and one for each row, each with exactly 5 separators (commas,
    line breaks and whitespace in the headlines do not matter). *)
Theorem save_succeeds_without_quotes (ev : env) (df : loc) (t : DataFrame)
    (w : world) :
  frames w !! df = Some t -> columns t = required_columns ->
  Forall plain_scored_row (rows t) -> no_errors ev = true ->
  exists content w',
    save_to_blob ev df w = (Return true, w') /\
    files w' !! "reddit_data_backups/reddit_news.csv" = Some content /\
    blobs w' !! ("reddit-sentiment-data", "reddit_news.csv") = Some content /\
    length (file_lines content) = S (length (rows t)) /\
    forallb line_ok (file_lines content) = true.
Proof.
  intros Hframe Hcols Hrows Hcalm.
  destruct (plain_table_text float_str_chars t Hcols Hrows) as (Htext & Hlines & Hok).
  eexists _, _. split.
  - exact (save_to_blob_run ev df t _ _ w Hframe (headline_column t Hcols) Hcalm
             Htext Hok).
  - cbn [files blobs]. rewrite !lookup_insert_eq. split; [done |]. split; [done |].
    split; [| exact Hok]. rewrite Hlines. cbn [length]. by rewrite length_fmap.
Qed.

End EndToEnd.

Section FetchRuns.
Context `{PyRuntime}.

Lemma collect_progress (titles : list string) (err : option exn)
    (headlines : gset string) (w : world) :
  exists out,
    collect titles err headlines w
    = (match err with
       | Some e => Raise e
       | None => Return (list_to_set titles ∪ headlines)
       end,
       set_stdout (fun o => (o ++ out)%list) w) /\
    length out = length titles /\
    (titles <> [] ->
     last out = Some (progress_message (size (list_to_set titles ∪ headlines)))).
Proof.
  revert headlines w. induction titles as [| t titles IH]; intros headlines w.
  - exists []. split; [| done]. cbn [collect].
    assert (Hw : set_stdout (fun o => (o ++ [])%list) w = w)
      by (destruct w; unfold set_stdout; simpl; f_equal; apply app_nil_r).
    rewrite Hw, bind_run. destruct err as [e |]; cbn [may_fail].
    + reflexivity.
    + cbn. rewrite (left_id_L ∅ (∪)). reflexivity.
  - cbn [collect]. rewrite bind_run. unfold print_end, modify. cbv beta iota.
    match goal with
    | |- context [collect titles err ?h ?w'] =>
        destruct (IH h w') as (out & Hout & Hlen & Hlast)
    end.
    assert (Hset : list_to_set (t :: titles) ∪ headlines
                   = list_to_set titles ∪ ({[t]} ∪ headlines) :> gset string).
    { rewrite list_to_set_cons.
      rewrite (comm_L (∪) {[t]} (list_to_set titles)).
      by rewrite <- (assoc_L (∪)). }
    eexists (_ :: out). rewrite Hout, Hset. split; [| split].
    + f_equal. destruct w; unfold set_stdout; simpl; f_equal.
      by rewrite <- app_assoc.
    + cbn [length]. by rewrite Hlen.
    + intros _. destruct titles as [| t' titles'].
      * destruct out; [| discriminate]. cbn [last list_to_set foldr].
        unfold progress_message. rewrite (left_id_L ∅ (∪)).
        by rewrite append_nil_r.
      * destruct out as [| o out']; [discriminate |].
        cbn [last]. by apply Hlast.
Qed.

(** X17. However [fetch_headlines] ends, it has changed nothing but the
    standard output, to which it has only added. *)
Theorem fetch_only_prints (ev : env) (subreddit : string) (limit : Z)
    (w w' : world) (r : outcome (list string)) :
  fetch_headlines ev subreddit limit w = (r, w') ->
  files w' = files w /\ containers w' = containers w /\ blobs w' = blobs w /\
  sdk_log w' = sdk_log w /\ frames w' = frames w /\ dirs w' = dirs w /\
  exists out, stdout w' = (stdout w ++ out)%list.
Proof.
  intros Hrun.
  destruct (fetch_headlines_run ev subreddit limit w) as [out Hfetch].
  rewrite Hrun in Hfetch.
  destruct (reddit_new ev subreddit limit) as [titles [e |]].
  - destruct (is_Exception (exn_cls e)); injection Hfetch as -> ->; cbn;
      repeat (split; [reflexivity |]); [rewrite <- app_assoc |]; eauto.
  - injection Hfetch as -> ->. cbn. repeat (split; [reflexivity |]). eauto.
Qed.

(** X18. When the listing ends normally and is not empty,
    [fetch_headlines] prints one progress message for each submission,
    duplicates included, and nothing else; the last one shows the number
    of headlines returned. *)
Theorem fetch_progress_counter (ev : env) (subreddit : string) (limit : Z)
    (w : world) (titles : list string) :
  reddit_new ev subreddit limit = (titles, None) -> titles <> [] ->
  exists (l : list string) (w' : world) (out : list string),
    fetch_headlines ev subreddit limit w = (Return l, w') /\
    stdout w' = (stdout w ++ out)%list /\
    length out = length titles /\
    last out = Some (progress_message (length l)).
Proof.
  intros Hlist Hne. unfold fetch_headlines, try_except. rewrite Hlist.
  destruct (collect_progress titles None ∅ w) as (out & Hout & Hlen & Hlast).
  rewrite bind_run, Hout. cbn [mret M_ret].
  eexists _, _, out. split; [reflexivity |]. split; [reflexivity |].
  split; [exact Hlen |]. rewrite (Hlast Hne). reflexivity.
Qed.
End FetchRuns.

Section MainRuns.
Context `{PyRuntime} `{Analyzer}.

Lemma print_run (s : string) (w : world) :
  print s w = (Return tt, set_stdout (fun o => (o ++ [s +:+ NL])%list) w).
Proof. reflexivity. Qed.

Lemma save_to_blob_returns (ev : env) (df : loc) (w : world) :
  no_interrupt ev = true ->
  exists (b : bool) (w' : world), save_to_blob ev df w = (Return b, w').
Proof.
  intros Hcalm. unfold save_to_blob, try_except.
  pose proof (save_steps_raises ev df _generate_filename Hcalm w) as Hraises.
  destruct (save_steps ev df _generate_filename w) as [[b | e] w1] eqn:Hsteps.
  - eauto.
  - specialize (Hraises _ _ I eq_refl). cbn in Hraises. rewrite Hraises.
    eexists false, _. reflexivity.
Qed.

Lemma starts_inv (ev : env) :
  starts ev = true ->
  client_error ev = None /\ download_error ev = None /\
  lexicon_error ev = None /\ makedirs_error ev = None.
Proof.
  unfold starts. rewrite !andb_true_iff.
  intros [[[? ?] ?] ?]. repeat split; by apply absent_inv.
Qed.

(** The constructor where nothing fails: the backup directory is there. *)
Lemma init_run (ev : env) (w : world) :
  starts ev = true ->
  __init__ ev w
  = (Return tt, set_dirs (fun ds => {[ "reddit_data_backups" ]} ∪ ds) w).
Proof.
  intros (Hclient & Hdownload & Hlexicon & Hdirs)%starts_inv.
  unfold __init__, makedirs. by rewrite Hclient, Hdownload, Hlexicon, Hdirs.
Qed.

(** The constructor where a step fails: the first error leaves it, and
    nothing has changed. *)
Lemma init_raises (ev : env) (w : world) :
  starts ev = false ->
  exists e, Some e ∈ start_errors ev /\ __init__ ev w = (Raise e, w).
Proof.
  unfold starts, start_errors, __init__, makedirs. intros Hfails.
  destruct (client_error ev) as [e |]; [exists e; split; [set_solver | done] |].
  destruct (download_error ev) as [e |]; [exists e; split; [set_solver | done] |].
  destruct (lexicon_error ev) as [e |]; [exists e; split; [set_solver | done] |].
  destruct (makedirs_error ev) as [e |]; [exists e; split; [set_solver | done] |].
  discriminate Hfails.
Qed.

Lemma main_start (ev : env) (w : world) :
  starts ev = true ->
  main ev w
  = (headlines ← fetch_headlines ev "politics" 500;
     match headlines with
     | _ :: _ =>
         print (NL +:+ "Analyzing sentiment...") ;;
         sentiment_df ← match sink_table headlines with
                         | inl missing => raise (key_error missing)
                         | inr t => mret t
                         end;
         print (NL +:+ "Sample results:") ;;
         print (frame_str (head sentiment_df)) ;;
         print (NL +:+ "Saving data...") ;;
         df ← alloc sentiment_df;
         saved ← save_to_blob ev df;
         (if saved : bool then print "Process completed successfully!"
          else print "Process completed with errors")
     | [] => print "No headlines were fetched"
     end) (started w).
Proof.
  intros Hstarts. unfold main.
  by rewrite bind_run, (init_run ev w Hstarts), bind_run, print_run.
Qed.

(** X19. When the constructor succeeds and the listing is empty, or ends
    with an error that is an instance of [Exception], the main block ends
    normally with the message that no headlines were fetched: the backup
    directory is there, no file is written, nothing is sent to the SDK and
    no table is made. *)
Theorem main_without_headlines (ev : env) (w : world) (titles : list string)
    (err : option exn) :
  starts ev = true ->
  reddit_new ev "politics" 500 = (titles, err) ->
  (titles = [] /\ err = None) \/
  (exists e, err = Some e /\ is_Exception (exn_cls e) = true) ->
  exists w',
    main ev w = (Return tt, w') /\
    last (stdout w') = Some ("No headlines were fetched" +:+ NL) /\
    files w' = files w /\ containers w' = containers w /\
    blobs w' = blobs w /\ sdk_log w' = sdk_log w /\ frames w' = frames w /\
    dirs w' = {[ "reddit_data_backups" ]} ∪ dirs w.
Proof.
  intros Hstarts Hlist Hcase. rewrite (main_start ev w Hstarts).
  destruct (fetch_headlines_run ev "politics" 500 (started w)) as [out Hfetch].
  rewrite Hlist in Hfetch. rewrite bind_run, Hfetch.
  destruct Hcase as [[-> ->] | (e & -> & He)].
  - rewrite list_to_set_nil, elements_empty, print_run.
    eexists. split; [reflexivity |]. cbn. by rewrite last_snoc.
  - rewrite He, print_run.
    eexists. split; [reflexivity |]. cbn. by rewrite last_snoc.
Qed.

Lemma main_after_fetch (ev : env) (w : world) (h : string) (hs : list string)
    (w2 : world) :
  starts ev = true ->
  fetch_headlines ev "politics" 500 (started w) = (Return (h :: hs), w2) ->
  let t := {| columns := required_columns;
              rows := List.filter (fun r => negb (existsb isna r))
                                  (score_row <$> (h :: hs)) |} in
  let df := fresh (dom (frames w2)) in
  main ev w
  = (saved ← save_to_blob ev df;
     if saved : bool then print "Process completed successfully!"
     else print "Process completed with errors")
      (set_frames <[df := t]>
         (set_stdout (fun o => (o ++ [(NL +:+ "Analyzing sentiment...") +:+ NL;
                                      (NL +:+ "Sample results:") +:+ NL;
                                      frame_str (head t) +:+ NL;
                                      (NL +:+ "Saving data...") +:+ NL])%list) w2)).
Proof.
  intros Hstarts Hfetch t df. rewrite (main_start ev w Hstarts).
  rewrite bind_run, Hfetch, sink_table_rows.
  rewrite bind_run, print_run, bind_run. cbn [mret M_ret].
  rewrite bind_run, print_run, bind_run, print_run, bind_run, print_run.
  rewrite bind_run. unfold alloc at 1. cbv beta iota zeta.
  cbn [frames set_stdout]. fold t. fold df. f_equal.
  apply world_eq; cbn; try reflexivity.
  by rewrite <- !app_assoc.
Qed.

(** X20. When the constructor succeeds and neither the listing nor an
    operation of the save is interrupted (every error is an instance of
    [Exception]), the main block ends normally, and its last output is one
    of its three final messages.  When a step of the constructor fails,
    its error leaves the main block: nothing is printed and nothing has
    changed. *)
Theorem main_completes (ev : env) (w : world) (titles : list string)
    (err : option exn) :
  reddit_new ev "politics" 500 = (titles, err) -> catchable err = true ->
  no_interrupt ev = true ->
  (starts ev = true ->
   exists (w' : world) (msg : string),
     main ev w = (Return tt, w') /\
     last (stdout w') = Some (msg +:+ NL) /\ msg ∈ final_messages) /\
  (starts ev = false ->
   exists e, Some e ∈ start_errors ev /\ main ev w = (Raise e, w)).
Proof.
  intros Hlist Herr Hcalm. split; intros Hstarts.
  2:{ destruct (init_raises ev w Hstarts) as (e & He & Hinit).
      exists e. split; [exact He |]. unfold main. by rewrite bind_run, Hinit. }
  destruct (fetch_headlines_run ev "politics" 500 (started w)) as [out Hfetch].
  rewrite Hlist in Hfetch.
  assert (Hreturns : exists l w2,
    fetch_headlines ev "politics" 500 (started w) = (Return l, w2)).
  { destruct err as [e |]; [| eauto]. cbn in Herr. rewrite Herr in Hfetch. eauto. }
  clear Hfetch. destruct Hreturns as (l & w2 & Hfetch).
  destruct l as [| h hs].
  - eexists _, "No headlines were fetched". split; [| split].
    + rewrite (main_start ev w Hstarts), bind_run, Hfetch. apply print_run.
    + cbn. apply last_snoc.
    + unfold final_messages. set_solver.
  - rewrite (main_after_fetch ev w h hs w2 Hstarts Hfetch). cbv zeta.
    match goal with
    | |- context [(save_to_blob ev ?df ≫= _) ?w3] =>
        destruct (save_to_blob_returns ev df w3 Hcalm) as (b & w4 & Hsave)
    end.
    rewrite bind_run, Hsave.
    destruct b;
      [eexists _, "Process completed successfully!"
      | eexists _, "Process completed with errors"];
      (split; [apply print_run |]);
      (split; [cbn; apply last_snoc |]); unfold final_messages; set_solver.
Qed.

(** X21. End to end: when the constructor succeeds, the listing ends
    normally with at least one title, no title has a double quote, no
    score is NaN, the floats print with the characters of a number and
    nothing fails, the main block ends with the message of success; the
    backup file and the blob hold the same text, with one line for the
    header and one for each distinct title, each with exactly 5
    separators. *)
Theorem main_saves_every_headline (ev : env) (w : world) (titles : list string) :
  (forall x, all_chars is_float_char (float_str x) = true) ->
  starts ev = true ->
  reddit_new ev "politics" 500 = (titles, None) -> titles <> [] ->
  Forall (fun h => occ dquote h = 0%nat) titles ->
  Forall (fun h => existsb isna (score_row h) = false) titles ->
  no_errors ev = true ->
  exists (w' : world) (content : string),
    main ev w = (Return tt, w') /\
    last (stdout w') = Some ("Process completed successfully!" +:+ NL) /\
    files w' !! "reddit_data_backups/reddit_news.csv" = Some content /\
    blobs w' !! ("reddit-sentiment-data", "reddit_news.csv") = Some content /\
    length (file_lines content)
    = S (size (list_to_set titles : gset string)) /\
    forallb line_ok (file_lines content) = true.
Proof.
  intros Hfloat Hstarts Hlist Hne Hplain Hnum Hcalm.
  destruct (fetch_headlines_run ev "politics" 500 (started w)) as [out Hfetch].
  rewrite Hlist in Hfetch.
  assert (Hin : forall x, x ∈ elements (list_to_set titles : gset string) -> x ∈ titles).
  { intros x. by rewrite elem_of_elements, elem_of_list_to_set. }
  assert (Hsize : size (list_to_set titles : gset string)
                  = length (elements (list_to_set titles : gset string)))
    by reflexivity.
  assert (Hsome : elements (list_to_set titles : gset string) <> []).
  { destruct titles as [| x xs]; [done |]. intros Hnil.
    assert (Hx : x ∈ elements (list_to_set (x :: xs) : gset string))
      by (rewrite elem_of_elements, elem_of_list_to_set; left).
    rewrite Hnil in Hx. by apply elem_of_nil in Hx. }
  rewrite Hsize. clear Hsize.
  destruct (elements (list_to_set titles : gset string)) as [| h hs]; [done |].
  rewrite (main_after_fetch ev w h hs _ Hstarts Hfetch). cbv zeta.
  set (t := {| columns := required_columns;
               rows := List.filter (fun r => negb (existsb isna r))
                                   (score_row <$> (h :: hs)) |}).
  assert (Hrows : rows t = score_row <$> (h :: hs)).
  { unfold t. cbn [rows]. apply forallb_filter_id, forallb_forall.
    intros r Hr. apply list_elem_of_In, list_elem_of_fmap in Hr as (x & -> & Hx).
    rewrite Forall_forall in Hnum. by rewrite (Hnum x (Hin x Hx)). }
  assert (Hplainrows : Forall plain_scored_row (rows t)).
  { apply sink_rows_plain. rewrite Forall_forall in Hplain |- *. auto. }
  destruct (plain_table_text Hfloat t eq_refl Hplainrows) as (Htext & Hlines & Hok).
  match goal with
  | |- context [(save_to_blob ev ?df ≫= _) ?w3] =>
      pose proof (save_to_blob_run ev df t _ _ w3 (lookup_insert_eq _ _ _)
                    (headline_column t eq_refl) Hcalm Htext Hok) as Hsave
  end.
  cbv zeta in Hsave. rewrite bind_run, Hsave, print_run.
  eexists _, _. split; [reflexivity |]. cbn [stdout files blobs set_stdout].
  split; [apply last_snoc |]. rewrite !lookup_insert_eq.
  split; [done |]. split; [done |]. split; [| exact Hok].
  rewrite Hlines. cbn [length]. rewrite length_fmap, Hrows, length_fmap.
  reflexivity.
Qed.
End MainRuns.

(** ** The theorems at concrete inputs *)

Lemma clean_headline_example_witness :
  (forall x, all_chars is_float_char (Sample.decimal_str x) = true) /\
  count (@format_row Sample.runtime
           [VStr Examples.said_hi_clean; VFloat Sample.zero; VFloat Sample.one;
            VFloat Sample.zero; VFloat Sample.zero; VStr "Neutral"]) separator
  = 5%nat.
Proof.
  split; [exact decimal_str_chars |].
  destruct (@clean_headline_example Sample.runtime decimal_str_chars)
    as (_ & _ & Hline).
  apply (Hline Sample.zero Sample.one Sample.zero Sample.zero "Neutral").
  unfold labels. apply list_elem_of_In. simpl. tauto.
Defined.

Lemma validation_rejects_well_formed_row_witness :
  (forall x, all_chars is_float_char (Sample.decimal_str x) = true) /\
  exists h : string,
    contains separator (@_clean_headline Sample.runtime (VStr h)) = true /\
    parse_row (@format_row Sample.runtime
                 [VStr (@_clean_headline Sample.runtime (VStr h)); VFloat Sample.zero;
                  VFloat Sample.one; VFloat Sample.zero; VFloat Sample.zero;
                  VStr "Neutral"])
    = Some [@_clean_headline Sample.runtime (VStr h); "0.0"; "1.0"; "0.0"; "0.0";
            "Neutral"] /\
    (5 < count (@format_row Sample.runtime
                  [VStr (@_clean_headline Sample.runtime (VStr h)); VFloat Sample.zero;
                   VFloat Sample.one; VFloat Sample.zero; VFloat Sample.zero;
                   VStr "Neutral"]) separator)%nat.
Proof.
  split; [exact decimal_str_chars |].
  destruct (@validation_rejects_well_formed_row Sample.runtime decimal_str_chars)
    as (h & Hcontains & Hline).
  exists h. split; [exact Hcontains |].
  destruct (Hline Sample.zero Sample.one Sample.zero Sample.zero "Neutral")
    as (Hparse & Hcount & _).
  - unfold labels. apply list_elem_of_In. simpl. tauto.
  - split; [exact Hparse | exact Hcount].
Defined.

Lemma save_cleans_in_place_witness :
  exists w1 w2,
    frames w1 !! 0%nat
    = Some (set_column Sample.quoted "headline" [VStr Examples.yes_no_clean]) /\
    (exists h, frames w2 !! 0%nat = Some (set_column Sample.quoted "headline" [VStr h])
               /\ occ dquote h = 16%nat).
Proof.
  edestruct (@save_cleans_in_place Sample.runtime (Sample.calm []) (Sample.calm [])
               0%nat Sample.quoted [VStr Examples.yes_no] Sample.quoted_table)
    as (H1 & _ & H2 & _ & Hq).
  - reflexivity.
  - repeat constructor.
  - reflexivity.
  - vm_compute. reflexivity.
  - vm_compute. reflexivity.
  - eexists _, _. split; [exact H1 |]. eexists. split; [exact H2 |].
    vm_compute. reflexivity.
Defined.

Lemma invalid_backup_not_uploaded_witness :
  exists w2,
    @save_to_blob Sample.runtime (Sample.calm []) 0%nat Sample.quoted_table
    = (Return false, w2) /\
    sdk_log w2 = [] /\ blobs w2 = ∅ /\
    is_Some (files w2 !! "reddit_data_backups/reddit_news.csv").
Proof.
  pose (local := @_save_locally Sample.runtime (Sample.calm []) 0%nat
                   _generate_filename Sample.quoted_table).
  pose (path := "reddit_data_backups/reddit_news.csv").
  pose (content := default "" (files (snd local) !! path)).
  assert (Hlocal : local = (Return path, snd local)) by (vm_compute; reflexivity).
  assert (Hfile : files (snd local) !! path = Some content)
    by (vm_compute; reflexivity).
  assert (Hbad : Exists (fun line => count line separator <> 5%nat)
                        (file_lines content)).
  { apply Exists_cons_tl, Exists_cons_hd. vm_compute. discriminate. }
  destruct (@invalid_backup_not_uploaded Sample.runtime (Sample.calm []) 0%nat
              Sample.quoted_table (snd local) path content Hlocal Hfile Hbad eq_refl)
    as (w2 & Hsave & Hlog & Hblobs & _ & _ & Hfile2).
  exists w2. split; [exact Hsave |]. split; [exact Hlog |].
  split; [exact Hblobs |]. exists content. exact Hfile2.
Defined.

Lemma save_to_blob_catches_witness :
  (exists w',
     @save_to_blob Sample.runtime Scenario.refused_upload 0%nat Sample.one_table
     = (Return false, w') /\
     last (stdout w')
     = Some (NL +:+ "Error during save operation: "
             +:+ "Server failed to authenticate the request." +:+ NL)) /\
  (exists w',
     @save_to_blob Sample.runtime Sample.interrupted_upload 0%nat Sample.one_table
     = (Raise Sample.interrupt, w')) /\
  no_interrupt Scenario.refused_upload = true /\
  (exists (b : bool) (w' : world),
     @save_to_blob Sample.runtime Scenario.refused_upload 0%nat Sample.one_table
     = (Return b, w')).
Proof.
  pose (refused := @save_steps Sample.runtime Scenario.refused_upload 0%nat
                     _generate_filename Sample.one_table).
  pose (interrupted := @save_steps Sample.runtime Sample.interrupted_upload 0%nat
                         _generate_filename Sample.one_table).
  assert (Hrefused : refused = (Raise Scenario.refused, snd refused))
    by (vm_compute; reflexivity).
  assert (Hinterrupted : interrupted = (Raise Sample.interrupt, snd interrupted))
    by (vm_compute; reflexivity).
  destruct (@save_to_blob_catches Sample.runtime Scenario.refused_upload 0%nat
              Sample.one_table) as [Hcaught Hreturns].
  destruct (@save_to_blob_catches Sample.runtime Sample.interrupted_upload 0%nat
              Sample.one_table) as [Hescapes _].
  split; [| split; [| split; [reflexivity |]]].
  - eexists. split; [exact (Hcaught _ _ Hrefused) |].
    cbn [stdout set_stdout]. rewrite last_snoc. reflexivity.
  - eexists. exact (Hescapes _ _ Hinterrupted).
  - destruct (Hreturns eq_refl) as (b & w' & Hsave & _). exists b, w'. exact Hsave.
Defined.

Lemma fetch_fails_soft_witness :
  exists w',
    fetch_headlines Sample.broken_listing "politics" 500 Sample.empty_world
    = (Return [], w') /\
    last (stdout w')
    = Some (NL +:+ "Error fetching headlines: Read timed out." +:+ NL).
Proof.
  destruct (fetch_fails_soft Sample.broken_listing "politics" 500 Sample.empty_world
              ["Good news today"; "Bad news today"] Sample.timeout eq_refl eq_refl)
    as [Hrun _].
  exact Hrun.
Defined.

Lemma fetch_deduplicates_witness :
  exists (l : list string) (w' : world),
    fetch_headlines (Sample.calm ["Good news today"; "Bad news today"; "Good news today"])
                    "politics" 500 Sample.empty_world
    = (Return l, w') /\
    NoDup l /\
    forall t, t ∈ l <-> t ∈ ["Good news today"; "Bad news today"; "Good news today"].
Proof.
  exact (fetch_deduplicates
           (Sample.calm ["Good news today"; "Bad news today"; "Good news today"])
           "politics" 500 Sample.empty_world _ eq_refl).
Defined.

Lemma backup_replaces_previous_witness :
  files Scenario.stale !! "reddit_data_backups/reddit_news.csv"
  = Some "an older backup" /\
  blobs Scenario.stale !! ("reddit-sentiment-data", "reddit_news.csv")
  = Some "an older blob" /\
  exists content w2,
    @save_to_blob Sample.runtime (Sample.calm []) 0%nat Scenario.stale
    = (Return true, w2) /\
    last (sdk_log w2)
    = Some (CallUpload "reddit-sentiment-data" "reddit_news.csv" content) /\
    files w2 !! "reddit_data_backups/reddit_news.csv" = Some content /\
    blobs w2 !! ("reddit-sentiment-data", "reddit_news.csv") = Some content /\
    content <> "an older backup" /\ content <> "an older blob".
Proof.
  split; [reflexivity |]. split; [reflexivity |].
  pose (local := @_save_locally Sample.runtime (Sample.calm []) 0%nat
                   _generate_filename Scenario.stale).
  assert (Hlocal : local = (Return "reddit_data_backups/reddit_news.csv", snd local))
    by (vm_compute; reflexivity).
  destruct (@backup_replaces_previous Sample.runtime (Sample.calm []) 0%nat
              Scenario.stale (snd local) _ Hlocal)
    as (_ & _ & t & content & Hframe & Htext & _ & Hguard & Hupload).
  assert (Ht : t = set_column Sample.good_news "headline" [VStr "Good news today"]).
  { assert (Hcleaned : Some t = Some (set_column Sample.good_news "headline"
                                        [VStr "Good news today"]))
      by (rewrite <- Hframe; vm_compute; reflexivity).
    by injection Hcleaned. }
  subst t.
  assert (Hcontent : @csv_text Sample.runtime
                       (set_column Sample.good_news "headline" [VStr "Good news today"])
                     = Some (default "" (@csv_text Sample.runtime Sample.good_news)))
    by (vm_compute; reflexivity).
  assert (content = default "" (@csv_text Sample.runtime Sample.good_news))
    as -> by congruence.
  destruct (Hupload eq_refl) as (w2 & Hrun & Hlast & Hblobs);
    [vm_compute; reflexivity |].
  destruct (Hguard w2 Hrun) as [Hfiles _].
  eexists _, w2. split; [exact Hrun |]. split; [exact Hlast |].
  split; [rewrite Hfiles; apply lookup_insert_eq |].
  split; [rewrite Hblobs; apply lookup_insert_eq |].
  split; vm_compute; discriminate.
Defined.

Lemma scorer_table_witness :
  @sink_table Sample.analyzer ["Good news today"; "Odd"; "Bad news today"]
  = inr {| columns := required_columns;
           rows := [ [VStr "Good news today"; VFloat Sample.zero; VFloat Sample.half;
                      VFloat Sample.half; VFloat Sample.half; VStr "Positive"];
                     [VStr "Bad news today"; VFloat Sample.half; VFloat Sample.half;
                      VFloat Sample.zero; VFloat (float_neg Sample.half);
                      VStr "Negative"] ] |}.
Proof.
  destruct (@scorer_table Sample.analyzer "Good news today" ["Odd"; "Bad news today"])
    as (_ & Hsink & _).
  rewrite Hsink. reflexivity.
Defined.

(** ** The further theorems at concrete inputs *)

Lemma categorize_monotone_witness :
  float_le Sample.zero lit_0_2 = true /\
  (rank (_categorize_sentiment Sample.zero)
   <= rank (_categorize_sentiment lit_0_2))%nat.
Proof.
  split; [vm_compute; reflexivity |].
  apply (categorize_monotone Sample.zero lit_0_2). vm_compute. reflexivity.
Defined.

Lemma validate_csv_first_bad_line_witness :
  exists (k : nat) (line : string),
    _validate_csv (Sample.calm []) "backup.csv" Scenario.torn_backup
    = (Return false,
       set_stdout (fun o => (o ++ [validation_message (S k) line])%list)
                  Scenario.torn_backup).
Proof.
  destruct (validate_csv_first_bad_line (Sample.calm []) "backup.csv"
              (@header_line Sample.runtime
               +:+ DQ +:+ "Good news today" +:+ separator +:+ "0.0" +:+ CRLF)
              Scenario.torn_backup eq_refl eq_refl)
    as [[Hall _] | (k & line & _ & _ & _ & Hrun)].
  - vm_compute in Hall. discriminate Hall.
  - exists k, line. exact Hrun.
Defined.

Lemma save_succeeds_witness :
  exists content w',
    @save_to_blob Sample.runtime (Sample.calm []) 0%nat Sample.one_table
    = (Return true, w') /\
    files w' !! "reddit_data_backups/reddit_news.csv" = Some content /\
    blobs w' !! ("reddit-sentiment-data", "reddit_news.csv") = Some content /\
    sdk_log w' = [CallExists "reddit-sentiment-data";
                  CallCreateContainer "reddit-sentiment-data";
                  CallUpload "reddit-sentiment-data" "reddit_news.csv" content].
Proof.
  pose (content := default "" (@csv_text Sample.runtime Sample.good_news)).
  exists content. eexists. split.
  - apply (@save_succeeds Sample.runtime (Sample.calm []) 0%nat Sample.good_news
             [VStr "Good news today"] content Sample.one_table);
      vm_compute; reflexivity.
  - cbn [files blobs sdk_log]. rewrite !lookup_insert_eq.
    split; [reflexivity |]. split; reflexivity.
Defined.

Lemma save_without_headline_column_witness :
  @save_to_blob Sample.runtime (Sample.calm []) 0%nat
    (Scenario.holding Scenario.untitled)
  = (Return false,
     set_stdout (fun o => (o ++ [NL +:+ "Error during save operation: 'headline'"
                                 +:+ NL])%list)
                (Scenario.holding Scenario.untitled)).
Proof.
  exact (@save_without_headline_column Sample.runtime (Sample.calm []) 0%nat
           Scenario.untitled (Scenario.holding Scenario.untitled) eq_refl eq_refl).
Defined.

Lemma save_with_missing_column_witness :
  exists w',
    @save_to_blob Sample.runtime (Sample.calm []) 0%nat
      (Scenario.holding Scenario.unlabelled)
    = (Return false, w') /\
    files w' !! "reddit_data_backups/reddit_news.csv" = Some (@header_line Sample.runtime) /\
    last (stdout w') = Some (save_error (key_error "label") +:+ NL) /\
    sdk_log w' = [].
Proof.
  eexists. split.
  - apply (@save_with_missing_column Sample.runtime (Sample.calm []) 0%nat
             Scenario.unlabelled [VStr "Good news today"] "label"
             (Scenario.holding Scenario.unlabelled));
      [reflexivity | reflexivity | discriminate | reflexivity | reflexivity].
  - cbn [files stdout sdk_log]. rewrite lookup_insert_eq.
    split; [reflexivity |]. split; reflexivity.
Defined.

Lemma save_open_failure_witness :
  exists w',
    @save_to_blob Sample.runtime Scenario.read_only_disk 0%nat Sample.one_table
    = (Return false, w') /\
    files w' = ∅ /\ blobs w' = ∅ /\ sdk_log w' = [] /\
    stdout w' = [save_error Scenario.denied +:+ NL].
Proof.
  eexists. split.
  - apply (@save_open_failure Sample.runtime Scenario.read_only_disk 0%nat
             Sample.good_news [VStr "Good news today"] Scenario.denied
             Sample.one_table); reflexivity.
  - cbn [files blobs sdk_log stdout]. repeat split; reflexivity.
Defined.

Lemma save_empty_table_witness :
  exists w',
    @save_to_blob Sample.runtime (Sample.calm []) 0%nat
      (Scenario.holding Scenario.no_rows)
    = (Return true, w') /\
    files w' = {[ "reddit_data_backups/reddit_news.csv" := @header_line Sample.runtime ]} /\
    blobs w' = {[ ("reddit-sentiment-data", "reddit_news.csv") := @header_line Sample.runtime ]}.
Proof.
  destruct (@save_empty_table Sample.runtime (Sample.calm []) 0%nat
              Scenario.no_rows (Scenario.holding Scenario.no_rows)
              eq_refl eq_refl (ex_intro _ 0%nat eq_refl) eq_refl)
    as (w' & Hrun & Hfiles & Hblobs & _).
  exists w'. split; [exact Hrun |]. split; [exact Hfiles | exact Hblobs].
Defined.

Lemma save_upload_failure_witness :
  exists content w',
    @save_to_blob Sample.runtime Scenario.refused_upload 0%nat Sample.one_table
    = (Return false, w') /\
    files w' !! "reddit_data_backups/reddit_news.csv" = Some content /\
    blobs w' = ∅ /\
    last (sdk_log w')
    = Some (CallUpload "reddit-sentiment-data" "reddit_news.csv" content) /\
    last (stdout w') = Some (save_error Scenario.refused +:+ NL).
Proof.
  pose (content := default "" (@csv_text Sample.runtime Sample.good_news)).
  exists content. eexists. split.
  - apply (@save_upload_failure Sample.runtime Scenario.refused_upload 0%nat
             Sample.good_news [VStr "Good news today"] content Scenario.refused
             Sample.one_table); vm_compute; reflexivity.
  - cbn [files blobs sdk_log stdout]. rewrite lookup_insert_eq.
    split; [reflexivity |]. split; [reflexivity |]. split; reflexivity.
Defined.

Lemma save_changes_headlines_only_witness :
  exists t1,
    frames (snd (@save_to_blob Sample.runtime (Sample.calm []) 0%nat
                   Sample.quoted_table)) !! 0%nat = Some t1 /\
    columns t1 = columns Sample.quoted /\
    length (rows t1) = 1%nat /\
    column t1 "label" = Some [VStr "Neutral"].
Proof.
  destruct (@save_changes_headlines_only Sample.runtime (Sample.calm []) 0%nat
              Sample.quoted [VStr Examples.yes_no] Sample.quoted_table _ _
              eq_refl eq_refl (surjective_pairing _))
    as (_ & t1 & Hframe & Hcols & Hlen & Hothers).
  exists t1. split; [exact Hframe |]. split; [exact Hcols |].
  split; [exact Hlen |]. rewrite (Hothers "label"); [reflexivity | discriminate].
Defined.

Lemma upload_all_or_nothing_witness :
  fst (@save_to_blob Sample.runtime Scenario.refused_upload 0%nat Sample.one_table)
  <> Return true /\
  blobs (snd (@save_to_blob Sample.runtime Scenario.refused_upload 0%nat
                Sample.one_table))
  = blobs Sample.one_table.
Proof.
  assert (Hfailed : fst (@save_to_blob Sample.runtime Scenario.refused_upload 0%nat
                           Sample.one_table) <> Return true)
    by (vm_compute; discriminate).
  split; [exact Hfailed |].
  destruct (@upload_all_or_nothing Sample.runtime Scenario.refused_upload 0%nat
              Sample.one_table _ _ (surjective_pairing _)) as [Hblobs _].
  exact (Hblobs Hfailed).
Defined.

Lemma save_touches_backup_only_witness :
  files (snd (@save_to_blob Sample.runtime (Sample.calm []) 0%nat Scenario.torn_backup))
    !! "backup.csv"
  = files Scenario.torn_backup !! "backup.csv".
Proof.
  destruct (@save_touches_backup_only Sample.runtime (Sample.calm []) 0%nat
              Scenario.torn_backup _ _ (surjective_pairing _)) as (Hfiles & _ & _).
  apply Hfiles. discriminate.
Defined.

Lemma save_succeeds_without_quotes_witness :
  exists content w',
    @save_to_blob Sample.runtime (Sample.calm []) 0%nat Sample.one_table
    = (Return true, w') /\
    blobs w' !! ("reddit-sentiment-data", "reddit_news.csv") = Some content /\
    length (file_lines content) = 2%nat.
Proof.
  destruct (@save_succeeds_without_quotes Sample.runtime decimal_str_chars
              (Sample.calm []) 0%nat Sample.good_news Sample.one_table)
    as (content & w' & Hrun & _ & Hblob & Hlen & _).
  - reflexivity.
  - reflexivity.
  - repeat constructor. exists "Good news today", Sample.zero, Sample.half, Sample.half,
      Sample.half, "Positive".
    split; [reflexivity |]. split; [| reflexivity].
    unfold labels. apply list_elem_of_In. simpl. tauto.
  - reflexivity.
  - exists content, w'. split; [exact Hrun |]. split; [exact Hblob | exact Hlen].
Defined.

Lemma fetch_only_prints_witness :
  files (snd (fetch_headlines Sample.broken_listing "politics" 500 Sample.one_table))
  = files Sample.one_table /\
  frames (snd (fetch_headlines Sample.broken_listing "politics" 500 Sample.one_table))
  = frames Sample.one_table /\
  sdk_log (snd (fetch_headlines Sample.broken_listing "politics" 500 Sample.one_table))
  = [].
Proof.
  destruct (fetch_only_prints Sample.broken_listing "politics" 500 Sample.one_table
              _ _ (surjective_pairing _))
    as (Hfiles & _ & _ & Hlog & Hframes & _).
  split; [exact Hfiles |]. split; [exact Hframes | exact Hlog].
Defined.

Lemma fetch_progress_counter_witness :
  exists (l : list string) (w' : world) (out : list string),
    fetch_headlines (Sample.calm ["Good news today"; "Bad news today"; "Good news today"])
                    "politics" 500 Sample.empty_world
    = (Return l, w') /\
    stdout w' = out /\ length out = 3%nat /\
    last out = Some (progress_message (length l)).
Proof.
  destruct (fetch_progress_counter
              (Sample.calm ["Good news today"; "Bad news today"; "Good news today"])
              "politics" 500 Sample.empty_world _ eq_refl)
    as (l & w' & out & Hrun & Hout & Hlen & Hlast).
  - discriminate.
  - exists l, w', out. split; [exact Hrun |]. split; [exact Hout |].
    split; [exact Hlen | exact Hlast].
Defined.

Lemma main_without_headlines_witness :
  exists w',
    @main Sample.runtime Sample.analyzer Sample.broken_listing Sample.empty_world
    = (Return tt, w') /\
    last (stdout w') = Some ("No headlines were fetched" +:+ NL) /\
    files w' = ∅ /\ sdk_log w' = [].
Proof.
  destruct (@main_without_headlines Sample.runtime Sample.analyzer
              Sample.broken_listing Sample.empty_world
              ["Good news today"; "Bad news today"] (Some Sample.timeout)
              eq_refl eq_refl)
    as (w' & Hrun & Hlast & Hfiles & _ & _ & Hlog & _).
  - right. exists Sample.timeout. split; reflexivity.
  - exists w'. split; [exact Hrun |]. split; [exact Hlast |].
    split; [exact Hfiles | exact Hlog].
Defined.

Lemma main_completes_witness :
  (exists (w' : world) (msg : string),
     @main Sample.runtime Sample.analyzer (Sample.calm [Examples.yes_no])
       Sample.empty_world
     = (Return tt, w') /\
     last (stdout w') = Some (msg +:+ NL) /\ msg ∈ final_messages) /\
  (exists e,
     Some e ∈ start_errors Scenario.no_lexicon /\
     @main Sample.runtime Sample.analyzer Scenario.no_lexicon Sample.empty_world
     = (Raise e, Sample.empty_world)).
Proof.
  split.
  - apply (@main_completes Sample.runtime Sample.analyzer
             (Sample.calm [Examples.yes_no]) Sample.empty_world [Examples.yes_no]
             None eq_refl eq_refl eq_refl).
    reflexivity.
  - apply (@main_completes Sample.runtime Sample.analyzer Scenario.no_lexicon
             Sample.empty_world [] None eq_refl eq_refl eq_refl).
    reflexivity.
Defined.

Lemma main_saves_every_headline_witness :
  exists (w' : world) (content : string),
    @main Sample.runtime Sample.analyzer
      (Sample.calm ["Good news today"; "Bad news today"; "Good news today"])
      Sample.empty_world
    = (Return tt, w') /\
    last (stdout w') = Some ("Process completed successfully!" +:+ NL) /\
    blobs w' !! ("reddit-sentiment-data", "reddit_news.csv") = Some content /\
    length (file_lines content) = 3%nat.
Proof.
  destruct (@main_saves_every_headline Sample.runtime Sample.analyzer
              (Sample.calm ["Good news today"; "Bad news today"; "Good news today"])
              Sample.empty_world
              ["Good news today"; "Bad news today"; "Good news today"]
              decimal_str_chars eq_refl eq_refl)
    as (w' & content & Hrun & Hlast & _ & Hblob & Hlen & _).
  - discriminate.
  - repeat constructor.
  - repeat constructor.
  - reflexivity.
  - exists w', content. split; [exact Hrun |]. split; [exact Hlast |].
    split; [exact Hblob |]. rewrite Hlen. vm_compute. reflexivity.
Defined.

(** ** Runs of the model *)

Import Sample.

Example end_to_end :
  exists w,
    fetch_headlines (calm ["Good news today"; "Bad news today"; "Good news today"])
                    "politics" 500 empty_world
    = (Return ["Good news today"; "Bad news today"], w) /\
    match @sink_table analyzer ["Good news today"; "Bad news today"] with
    | inr t => (fun r => cell r 5) <$> rows t
    | inl _ => []
    end = [VStr "Positive"; VStr "Negative"].
Proof. eexists. split; vm_compute; reflexivity. Qed.

Example corrupted_line_rejected :
  fst (@_validate_csv (calm []) "backup.csv"
         {| files := {[ "backup.csv" :=
                        @header_line runtime
                        +:+ DQ +:+ "a" +:+ separator +:+ "0.0" +:+ separator +:+ "1.0"
                        +:+ separator +:+ "0.0" +:+ separator +:+ "Neutral" +:+ DQ
                        +:+ CRLF ]};
            dirs := ∅; containers := ∅; blobs := ∅; sdk_log := []; stdout := []; frames := ∅ |})
  = Return false.
Proof. vm_compute. reflexivity. Qed.
